(** * Doris MCP server: the guarded query pipeline and the metadata catalog

    A shallow embedding of
      - [doris_mcp_server/utils/sql_executor_tools.py]
        ([_check_sql_security], [_serialize_row_data], [execute_sql_query]);
      - [doris_mcp_server/utils/schema_extractor.py]
        (the cached catalog operations of [MetadataExtractor], its
        database list, its index list and its search by name);
      - [doris_mcp_server/tools/mcp_doris_tools.py]
        ([_format_response] and the tools for a table's schema, its
        comment, its column comments and the table list).

    Text is ASCII: every character is a byte, and the bytes from 128 up
    are neither letters, digits nor white space. *)

From Stdlib Require Import ZArith Ascii String List Bool Lia DecimalString.
From stdpp Require Import base option list gmap strings sorting.

Local Open Scope string_scope.
Local Open Scope Z_scope.

(** ** Python [str] methods used by the source *)

Module Py.

Definition between (lo hi : nat) (c : ascii) : bool :=
  Nat.leb lo (nat_of_ascii c) && Nat.leb (nat_of_ascii c) hi.

Definition isupper (c : ascii) : bool := between 65 90 c.
Definition islower (c : ascii) : bool := between 97 122 c.
Definition isdigit (c : ascii) : bool := between 48 57 c.

(** [str.isspace] on one character: TAB..CR, FS..US and the blank. *)
Definition isspace (c : ascii) : bool := between 9 13 c || between 28 32 c.

(** The class [\w] of [re]: letters, digits and the underscore. *)
Definition isword (c : ascii) : bool :=
  isupper c || islower c || isdigit c || Ascii.eqb c "_".

Definition lower_char (c : ascii) : ascii :=
  if isupper c then ascii_of_nat (nat_of_ascii c + 32) else c.

(** [s.lower()] *)
Fixpoint lower (s : string) : string :=
  match s with
  | EmptyString => EmptyString
  | String c s' => String (lower_char c) (lower s')
  end.

(** [s.lstrip()] *)
Fixpoint lstrip (s : string) : string :=
  match s with
  | EmptyString => EmptyString
  | String c s' => if isspace c then lstrip s' else s
  end.

(** [s.rstrip(chars)], the set [chars] given by its membership test. *)
Fixpoint rstrip_by (p : ascii -> bool) (s : string) : string :=
  match s with
  | EmptyString => EmptyString
  | String c s' =>
      match rstrip_by p s' with
      | EmptyString => if p c then EmptyString else String c EmptyString
      | r => String c r
      end
  end.

(** [s.strip()] *)
Definition strip (s : string) : string := rstrip_by isspace (lstrip s).

(** [s.startswith(p)] *)
Fixpoint startswith (p s : string) : bool :=
  match p, s with
  | EmptyString, _ => true
  | String _ _, EmptyString => false
  | String a p', String b s' => Ascii.eqb a b && startswith p' s'
  end.

(** [s.startswith((p1, p2, ...))] *)
Definition startswith_any (ps : list string) (s : string) : bool :=
  existsb (fun p => startswith p s) ps.

(** [sub in s] *)
Fixpoint contains (sub s : string) : bool :=
  startswith sub s ||
  match s with
  | EmptyString => false
  | String _ s' => contains sub s'
  end.

Fixpoint drop_chars (n : nat) (s : string) : string :=
  match n, s with
  | O, _ => s
  | S _, EmptyString => EmptyString
  | S k, String _ s' => drop_chars k s'
  end.

(** [s.removeprefix(p)] *)
Definition removeprefix (p s : string) : string :=
  if startswith p s then drop_chars (String.length p) s else s.

(** [s.replace(old, new)] for a non-empty [old]: leftmost occurrences,
    not overlapping.  [skip] counts the characters of a replaced
    occurrence that are still to be passed over. *)
Fixpoint replace_aux (old new : string) (skip : nat) (s : string) : string :=
  match s with
  | EmptyString => EmptyString
  | String c s' =>
      match skip with
      | S k => replace_aux old new k s'
      | O =>
          if startswith old s
          then new ++ replace_aux old new (String.length old - 1) s'
          else String c (replace_aux old new 0 s')
      end
  end.

Definition replace (old new s : string) : string := replace_aux old new 0 s.

(** [str(n)] and the [{n}] of an f-string, for an [int]. *)
Definition str_of_int (n : Z) : string := NilZero.string_of_int (Z.to_int n).

End Py.

(** ** The fragment of [re] the guard's signatures are written in *)

Module Re.

Inductive atom : Type :=
  | AChar (c : ascii)            (* a literal character, escaped or not *)
  | AWordBoundary                (* \b *)
  | ASpace                       (* \s *)
  | ASpaces                      (* \s+ *)
  | AGroup (alts : list string). (* (?:a|b|...) over literal words *)

(** Reading states of [compile]. *)
Inductive mode : Type :=
  | MPlain
  | MEscape                                   (* after a backslash *)
  | MOpen                                     (* after "(" *)
  | MOpenQ                                    (* after "(?" *)
  | MAlts (done : list string) (cur : string). (* inside "(?:", reversed *)

Fixpoint rev_string (acc s : string) : string :=
  match s with
  | EmptyString => acc
  | String c s' => rev_string (String c acc) s'
  end.

Definition special (c : ascii) : bool :=
  existsb (Ascii.eqb c)
    ["."; "^"; "$"; "*"; "?"; "{"; "}"; "["; "]"; "|"; ")"]%char.

(** [re.compile]: [acc] holds the atoms read so far, last one first.
    [None] is a pattern outside the fragment. *)
Fixpoint compile_aux (m : mode) (acc : list atom) (s : string)
  : option (list atom) :=
  match s with
  | EmptyString =>
      match m with
      | MPlain => Some (rev acc)
      | _ => None
      end
  | String c s' =>
      match m with
      | MPlain =>
          if Ascii.eqb c "\" then compile_aux MEscape acc s'
          else if Ascii.eqb c "(" then compile_aux MOpen acc s'
          else if Ascii.eqb c "+" then
            match acc with
            | ASpace :: acc' => compile_aux MPlain (ASpaces :: acc') s'
            | _ => None
            end
          else if special c then None
          else compile_aux MPlain (AChar c :: acc) s'
      | MEscape =>
          if Ascii.eqb c "b" then compile_aux MPlain (AWordBoundary :: acc) s'
          else if Ascii.eqb c "s" then compile_aux MPlain (ASpace :: acc) s'
          else if Py.isword c then None
          else compile_aux MPlain (AChar c :: acc) s'
      | MOpen =>
          if Ascii.eqb c "?" then compile_aux MOpenQ acc s' else None
      | MOpenQ =>
          if Ascii.eqb c ":" then compile_aux (MAlts [] "") acc s' else None
      | MAlts done cur =>
          if Ascii.eqb c "|"
          then compile_aux (MAlts (rev_string "" cur :: done) "") acc s'
          else if Ascii.eqb c ")"
          then compile_aux MPlain
                 (AGroup (rev (rev_string "" cur :: done)) :: acc) s'
          else if Py.isword c then compile_aux (MAlts done (String c cur)) acc s'
          else None
      end
  end.

Definition compile (pattern : string) : option (list atom) :=
  compile_aux MPlain [] pattern.

(** A position in the subject: the character before it and the text
    from it on. *)
Definition at_boundary (prev : option ascii) (s : string) : bool :=
  xorb (from_option Py.isword false prev)
       (match s with String c _ => Py.isword c | EmptyString => false end).

(** Reads the literal [w] at the position; gives the position after it. *)
Fixpoint literal (w : string) (prev : option ascii) (s : string)
  : option (option ascii * string) :=
  match w with
  | EmptyString => Some (prev, s)
  | String a w' =>
      match s with
      | String b s' => if Ascii.eqb a b then literal w' (Some b) s' else None
      | EmptyString => None
      end
  end.

(** Does the pattern match starting exactly at the position? *)
Fixpoint match_here (p : list atom) (prev : option ascii) (s : string)
  {struct p} : bool :=
  match p with
  | [] => true
  | AChar c :: p' =>
      match s with
      | String d s' => Ascii.eqb c d && match_here p' (Some d) s'
      | EmptyString => false
      end
  | AWordBoundary :: p' => at_boundary prev s && match_here p' prev s
  | ASpace :: p' =>
      match s with
      | String d s' => Py.isspace d && match_here p' (Some d) s'
      | EmptyString => false
      end
  | ASpaces :: p' =>
      (fix spaces (s : string) : bool :=
         match s with
         | String d s' =>
             Py.isspace d && (spaces s' || match_here p' (Some d) s')
         | EmptyString => false
         end) s
  | AGroup alts :: p' =>
      existsb (fun w =>
                 match literal w prev s with
                 | Some (prev', s') => match_here p' prev' s'
                 | None => false
                 end) alts
  end.

(** Does the pattern match at this position or at a later one? *)
Fixpoint search_from (p : list atom) (prev : option ascii) (s : string)
  : bool :=
  match_here p prev s ||
  match s with
  | String c s' => search_from p (Some c) s'
  | EmptyString => false
  end.

(** [bool(re.search(pattern, s))] *)
Definition search (pattern s : string) : option bool :=
  p ← compile pattern; Some (search_from p None s).

End Re.

(** ** The SQL security guard ([sql_executor_tools.py]) *)

Module Guard.

Record issue : Type := Issue {
  operation : string;
  description : string;
  severity : string
}.

Record verdict : Type := Verdict {
  is_safe : bool;
  security_issues : list issue
}.

Definition read_only_prefixes : list string :=
  ["select "; "show "; "desc "; "describe "; "explain "].

(** Signatures checked for every statement. *)
Definition dangerous_operations : list (string * string) :=
  [ ("\bdelete\b", "DELETE operation");
    ("\bdrop\b", "DROP TABLE/DATABASE operation");
    ("\btruncate\b", "TRUNCATE TABLE operation");
    ("\bupdate\b", "UPDATE operation");
    ("\binsert\b", "INSERT operation");
    ("\balter\b", "ALTER TABLE structure operation");
    ("\bcreate\b", "CREATE TABLE/DATABASE operation");
    ("\bgrant\b", "GRANT operation");
    ("\brevoke\b", "REVOKE permission operation");
    ("\bexec\b", "EXECUTE stored procedure");
    ("\bxp_", "Extended stored procedure, potential security risk");
    ("\bshutdown\b", "SHUTDOWN database operation");
    ("\bunion\s+all\s+select\b", "UNION statement, potential SQL injection");
    ("\bunion\s+select\b", "UNION statement, potential SQL injection");
    ("\binto\s+outfile\b", "Write to file operation");
    ("\bload_file\b", "Load file operation") ].

(** Signatures checked only when the statement is not read-only. *)
Definition comment_operations : list (string * string) :=
  [ ("--", "SQL comment, potential SQL injection");
    ("/\*", "SQL block comment, potential SQL injection") ].

(** Keywords that a read-only statement may carry in a name or a
    literal: there they count only in front of an object type. *)
Definition ddl_dml_keywords : list string :=
  ["\bcreate\b"; "\bdrop\b"; "\bdelete\b"; "\binsert\b"; "\bupdate\b";
   "\balter\b"].

Definition object_type_suffix : string :=
  "\s+(?:table|database|view|index|procedure|function|trigger|event)".

(** [operation.replace(r'\b', '').replace(r'\s+', ' ')] *)
Definition operation_name (operation : string) : string :=
  Py.replace "\s+" " " (Py.replace "\b" "" operation).

Definition mk_issue (operation description sev : string) : issue :=
  {| operation := operation_name operation;
     description := description;
     severity := sev |}.

(** One turn of the first loop: the issues this signature adds. *)
Definition check_dangerous (is_read_only : bool) (sql_lower : string)
    (op : string * string) : option (list issue) :=
  let '(operation, description) := op in
  Re.search operation sql_lower ≫= λ found : bool,
  if found then
    if is_read_only && bool_decide (operation ∈ ddl_dml_keywords) then
      Re.search (operation ++ object_type_suffix) sql_lower ≫= λ strict : bool,
      Some (if strict then [mk_issue operation description "High"] else [])
    else Some [mk_issue operation description "High"]
  else Some [].

(** One turn of the second loop. *)
Definition check_comment (sql_lower : string) (op : string * string)
  : option (list issue) :=
  let '(operation, description) := op in
  Re.search operation sql_lower ≫= λ found : bool,
  Some (if found then [mk_issue operation description "Medium"] else []).

(** The issues of a loop, in the order of its signatures. *)
Fixpoint collect {A : Type} (f : A -> option (list issue)) (ops : list A)
  : option (list issue) :=
  match ops with
  | [] => Some []
  | op :: ops' =>
      here ← f op; later ← collect f ops'; Some (here ++ later)%list
  end.

Section Check.

(** The module constant [ENABLE_SQL_SECURITY_CHECK], read from the
    environment when the module is loaded. *)
Variable ENABLE_SQL_SECURITY_CHECK : bool.

(** [_check_sql_security(sql)].  [None] would be a signature outside
    the modelled fragment of [re]; see [check_sql_security_total]. *)
Definition _check_sql_security (sql : string) : option verdict :=
  if negb ENABLE_SQL_SECURITY_CHECK then
    Some {| is_safe := true; security_issues := [] |}
  else
    let sql_lower := Py.lower sql in
    let is_read_only :=
      Py.startswith_any read_only_prefixes (Py.strip sql_lower) in
    let non_readonly_operations :=
      if negb is_read_only then comment_operations else [] in
    high ← collect (check_dangerous is_read_only sql_lower)
                   dangerous_operations;
    medium ← collect (check_comment sql_lower) non_readonly_operations;
    let security_issues := (high ++ medium)%list in
    Some {| is_safe := Nat.eqb (List.length security_issues) 0;
            security_issues := security_issues |}.

End Check.

End Guard.

(** ** Exceptions

    A computation that may raise: [Raise m] is an exception whose
    [str()] is [m], which is all the handlers of the source look at. *)

Module Exc.

Inductive t (A : Type) : Type :=
  | Raise (message : string)
  | Return (a : A).
Arguments Raise {A} message.
Arguments Return {A} a.

Definition bind {A B : Type} (m : t A) (k : A -> t B) : t B :=
  match m with
  | Raise e => Raise e
  | Return a => k a
  end.

(** [try: m  except Exception as e: handler(str(e))] *)
Definition try_except {A : Type} (m : t A) (handler : string -> A) : A :=
  match m with
  | Raise e => handler e
  | Return a => a
  end.

Fixpoint map_m {A B : Type} (f : A -> t B) (l : list A) : t (list B) :=
  match l with
  | [] => Return []
  | a :: l' => bind (f a) (fun b => bind (map_m f l') (fun bs => Return (b :: bs)))
  end.

End Exc.

Notation "'do' x <- m ; k" := (Exc.bind m (fun x => k))
  (at level 20, x name, m at level 100, k at level 200,
   format "'[v' 'do'  x  <-  m ; '/' k ']'").

(** ** Result rows of the query pipeline *)

Module Row.

Inductive temporal_kind : Type := Date | Datetime.

(** What a backend row, or a cell of it, can be. *)
#[warnings="-register-all"]
Inductive value : Type :=
  | VNone
  | VBool (b : bool)
  | VInt (n : Z)
  | VFloat (text : string)      (* a float, by its decimal text *)
  | VStr (s : string)
  | VTemporal (kind : temporal_kind) (iso : string)
                                (* datetime.date / datetime.datetime, by isoformat() *)
  | VDecimal (text : string)    (* decimal.Decimal, by its text *)
  | VList (l : list value)
  | VTuple (l : list value)
  | VNamedTuple (fields : list (string * value))
  | VDict (items : list (string * value)).

Definition type_name (v : value) : string :=
  match v with
  | VNone => "NoneType"
  | VBool _ => "bool"
  | VInt _ => "int"
  | VFloat _ => "float"
  | VStr _ => "str"
  | VTemporal Date _ => "date"
  | VTemporal Datetime _ => "datetime"
  | VDecimal _ => "Decimal"
  | VList _ => "list"
  | VTuple _ => "tuple"
  | VNamedTuple _ => "Row"
  | VDict _ => "dict"
  end.

(** The loop body of [_serialize_row_data] for one value of the mapping;
    the recursive calls of the source are on mappings only, where the
    function is this one applied to every value. *)
Fixpoint serialize_value (v : value) : value :=
  let serialize_item (item : value) : value :=
    match item with
    | VDict items =>
        VDict (map (fun kv => let '(k, x) := kv in (k, serialize_value x)) items)
    | _ => item
    end in
  match v with
  | VNone => VNone
  | VTemporal _ iso => VStr iso
  | VDecimal text => VFloat text
  | VList l | VTuple l => VList (map serialize_item l)
  | VNamedTuple fields =>
      VList (map (fun kv => let '(_, x) := kv in serialize_item x) fields)
  | VDict items =>
      VDict (map (fun kv => let '(k, x) := kv in (k, serialize_value x)) items)
  | _ => v
  end.

(** What the loop body does to an element of a list or tuple:
    [_serialize_row_data(item) if isinstance(item, dict) else item]. *)
Definition serialize_item (item : value) : value :=
  match item with
  | VDict items => serialize_value (VDict items)
  | _ => item
  end.

(** [_serialize_row_data(row_data)]: [row_data.items()] needs a mapping. *)
Definition _serialize_row_data (row_data : value) : Exc.t value :=
  match row_data with
  | VDict _ => Exc.Return (serialize_value row_data)
  | _ =>
      Exc.Raise ("'" ++ type_name row_data ++ "' object has no attribute 'items'")
  end.

(** The first value, depth first, that [json.dumps] has no encoding for. *)
Fixpoint not_serializable (v : value) : option value :=
  let first_of (l : list value) : option value :=
    (fix go (l : list value) : option value :=
       match l with
       | [] => None
       | x :: l' =>
           match not_serializable x with
           | Some bad => Some bad
           | None => go l'
           end
       end) l in
  let first_of_items (l : list (string * value)) : option value :=
    (fix go (l : list (string * value)) : option value :=
       match l with
       | [] => None
       | (_, x) :: l' =>
           match not_serializable x with
           | Some bad => Some bad
           | None => go l'
           end
       end) l in
  match v with
  | VTemporal _ _ | VDecimal _ => Some v
  | VList l | VTuple l => first_of l
  | VNamedTuple fields => first_of_items fields
  | VDict items => first_of_items items
  | _ => None
  end.

(** [d.get(k)] on a mapping: [None] off a mapping or off its keys. *)
Definition dict_get (k : string) (d : value) : option value :=
  match d with
  | VDict items =>
      (fix find (l : list (string * value)) : option value :=
         match l with
         | [] => None
         | (k', x) :: l' => if String.eqb k' k then Some x else find l'
         end) items
  | _ => None
  end.

(** [json.dumps(payload, ensure_ascii=False)]: the text is kept as the
    value it encodes. *)
Definition json_dumps (payload : value) : Exc.t value :=
  match not_serializable payload with
  | Some bad =>
      Exc.Raise ("Object of type " ++ type_name bad ++ " is not JSON serializable")
  | None => Exc.Return payload
  end.

End Row.

(** ** The query pipeline ([execute_sql_query]) *)

Module Executor.
Import Row.

(** The request parameters, as [params.get] reads them: [None] is a
    key that is not there. *)
Record params : Type := Params {
  sql : option string;
  db_name : option string;
  max_rows : option Z
}.

(** The response envelope
    [{"content": [{"type": "text", "text": json.dumps(payload)}]}],
    by its payload. *)
Inductive response : Type :=
  | TextContent (payload : value).

Definition issue_value (i : Guard.issue) : value :=
  VDict [("operation", VStr (Guard.operation i));
         ("description", VStr (Guard.description i));
         ("severity", VStr (Guard.severity i))].

Definition missing_sql : value :=
  VDict [("success", VBool false);
         ("error", VStr "Missing SQL parameter");
         ("message", VStr "Please provide the SQL query to execute")].

Definition security_failed (issues : list Guard.issue) : value :=
  VDict [("success", VBool false);
         ("error", VStr "SQL security check failed");
         ("message", VStr "Query contains unsafe operations and cannot be executed");
         ("security_issues", VList (map issue_value issues))].

(** The classification of a backend error by its message. *)
Definition error_details (error_message : string) : value :=
  let m := Py.lower error_message in
  if Py.contains "timeout" m then
    VDict [("type", VStr "timeout");
           ("suggestion", VStr "Query timed out, please optimize SQL or increase timeout")]
  else if Py.contains "syntax" m then
    VDict [("type", VStr "syntax");
           ("suggestion", VStr "SQL syntax error, please check syntax")]
  else if Py.contains "not found" m || Py.contains "doesn't exist" m then
    VDict [("type", VStr "not_found");
           ("suggestion", VStr "Table or column not found, please check table and column names")]
  else
    VDict [("type", VStr "unknown");
           ("suggestion", VStr "Please check the SQL statement and try simplifying the query")].

(** [l[:n]] *)
Definition slice_to {A : Type} (n : Z) (l : list A) : list A :=
  if 0 <=? n then take (Z.to_nat n) l
  else take (Z.to_nat (Z.of_nat (List.length l) + n)) l.

(** [dict(zip(columns, row))]: later pairs replace earlier ones under
    the same key, which keeps its first place. *)
Fixpoint dict_of_pairs (acc : list (string * value))
    (pairs : list (string * value)) : list (string * value) :=
  match pairs with
  | [] => acc
  | (k, v) :: rest =>
      let acc' :=
        if existsb (fun kv => String.eqb (fst kv) k) acc
        then map (fun kv => if String.eqb (fst kv) k then (k, v) else kv) acc
        else (acc ++ [(k, v)])%list in
      dict_of_pairs acc' rest
  end.

(** The values [zip] draws from its second argument. *)
Definition iterate (v : value) : Exc.t (list value) :=
  match v with
  | VList l | VTuple l => Exc.Return l
  | VNamedTuple fields => Exc.Return (map snd fields)
  | VDict items => Exc.Return (map (fun kv => VStr (fst kv)) items)
  | VStr s =>
      Exc.Return (map (fun c => VStr (String c EmptyString)) (list_ascii_of_string s))
  | _ => Exc.Raise ("'" ++ type_name v ++ "' object is not iterable")
  end.

Section Execute.

Variable ENABLE_SQL_SECURITY_CHECK : bool.
(** [os.getenv("DB_DATABASE", "")] *)
Variable DB_DATABASE : string.
(** [doris_mcp_server.utils.db.execute_query(sql, db_name)] *)
Variable execute_query : string -> string -> Exc.t value.
(** [time.time() - start_time], as the float it is. *)
Variable execution_time : value.
(** [str(result)] *)
Variable py_str : value -> string.

(** Lines 96-99: a [select] without [limit] gets one. *)
Definition add_limit (sql : string) (max_rows : Z) : string :=
  let sql_lower := Py.strip (Py.lower sql) in
  if Py.startswith "select" sql_lower && negb (Py.contains "limit" sql_lower)
  then Py.rstrip_by (Ascii.eqb ";") sql ++ " LIMIT " ++ Py.str_of_int max_rows ++ ";"
  else sql.

(** The column names, from the first row. *)
Definition columns_of (first : value) : list string :=
  match first with
  | VNamedTuple fields => map fst fields
  | VDict items => map fst items
  | _ => []
  end.

(** One turn of the loop over the rows. *)
Definition serialize_row (columns : list string) (row : value) : Exc.t value :=
  do row_dict <-
    match row with
    | VNamedTuple fields => Exc.Return (VDict fields)
    | VDict _ => Exc.Return row
    | _ =>
        match columns with
        | [] => Exc.Return row
        | _ :: _ =>
            do cells <- iterate row;
            Exc.Return (VDict (dict_of_pairs [] (zip columns cells)))
        end
    end;
  _serialize_row_data row_dict.

(** The body of the inner [try], after the backend has answered. *)
Definition build_result (sql : string) (max_rows : Z) (result : value)
  : Exc.t response :=
  match result with
  | VList rows =>
      let row_count := Z.of_nat (List.length rows) in
      match rows with
      | [] => Exc.Raise "list index out of range"   (* result[0] *)
      | first :: _ =>
          let columns := columns_of first in
          do data <- Exc.map_m (serialize_row columns) rows;
          do text <- json_dumps
            (VDict [("success", VBool true);
                    ("sql", VStr sql);
                    ("row_count", VInt row_count);
                    ("columns", VList (map VStr columns));
                    ("data", VList (slice_to max_rows data));
                    ("execution_time", execution_time);
                    ("truncated", VBool (max_rows <? row_count))]);
          Exc.Return (TextContent text)
      end
  | _ =>
      do other_response <- _serialize_row_data
        (VDict [("success", VBool true);
                ("sql", VStr sql);
                ("result", VStr (py_str result));
                ("execution_time", execution_time)]);
      do text <- json_dumps other_response;
      Exc.Return (TextContent text)
  end.

(** The handler of the inner [try]. *)
Definition db_error (sql db_name error_message : string) : Exc.t response :=
  do error_response <- _serialize_row_data
    (VDict [("success", VBool false);
            ("error", VStr error_message);
            ("error_details", error_details error_message);
            ("sql", VStr sql);
            ("db_name", VStr db_name)]);
  do text <- json_dumps error_response;
  Exc.Return (TextContent text).

(** The handler of the outer [try]; its payload holds strings only. *)
Definition outer_error (error_message : string) : response :=
  TextContent
    (serialize_value
       (VDict [("success", VBool false);
               ("error", VStr error_message);
               ("message", VStr "Error occurred while executing SQL query")])).

(** The body of the outer [try]. *)
Definition execute_body (ctx : params) : Exc.t response :=
  let db_name := default DB_DATABASE (db_name ctx) in
  let max_rows := default 1000 (max_rows ctx) in
  match sql ctx with
  | None | Some EmptyString => Exc.Return (TextContent missing_sql)
  | Some sql =>
      match Guard._check_sql_security ENABLE_SQL_SECURITY_CHECK sql with
      | None => Exc.Raise "re.error"
      | Some security_result =>
          if negb (Guard.is_safe security_result) then
            Exc.Return
              (TextContent (security_failed (Guard.security_issues security_result)))
          else
            let sql := add_limit sql max_rows in
            match
              (do result <- execute_query sql db_name;
               build_result sql max_rows result)
            with
            | Exc.Return r => Exc.Return r
            | Exc.Raise error_message => db_error sql db_name error_message
            end
      end
  end.

(** [execute_sql_query(ctx)] *)
Definition execute_sql_query (ctx : params) : response :=
  Exc.try_except (execute_body ctx) outer_error.

End Execute.

End Executor.

(** ** The metadata catalog ([schema_extractor.py], class [MetadataExtractor]) *)

Module Catalog.
Import Row.

(** *** Backend rows *)

(** A cell of an [information_schema] or audit-log row. *)
Inductive cell : Type :=
  | CNull
  | CStr (s : string)
  | CInt (n : Z).

(** A row of a [DictCursor]: column names with their cells. *)
Definition row : Type := list (string * cell).

Definition cell_value (c : cell) : value :=
  match c with
  | CNull => VNone
  | CStr s => VStr s
  | CInt n => VInt n
  end.

(** [bool(c)] *)
Definition truthy (c : cell) : bool :=
  match c with
  | CNull => false
  | CStr s => negb (String.eqb s "")
  | CInt n => negb (n =? 0)
  end.

Fixpoint assoc (k : string) (r : row) : option cell :=
  match r with
  | [] => None
  | (k', c) :: r' => if String.eqb k' k then Some c else assoc k r'
  end.

(** [r[k]] *)
Definition getitem (r : row) (k : string) : Exc.t cell :=
  match assoc k r with
  | Some c => Exc.Return c
  | None => Exc.Raise ("'" ++ k ++ "'")
  end.

(** [r.get(k, "")] *)
Definition get (r : row) (k : string) : cell := default (CStr "") (assoc k r).

(** [c or ""] *)
Definition or_empty (c : cell) : cell := if truthy c then c else CStr "".

(** *** The backends *)

(** [execute_query] and [execute_query_df] of [utils.db]; [execute_query_mysql]
    and [execute_query_df_mysql] of [utils.dbMysql]. *)
Inductive backend : Type := Doris | DorisDf | Mysql | MysqlDf.

(** The statements the catalog sends, by their template and the names
    put into it. *)
Inductive query : Type :=
  | TablesOf (schema : string)
      (* TABLE_NAME, TABLE_COMMENT of information_schema.tables
         where TABLE_SCHEMA = schema and TABLE_TYPE = 'BASE TABLE' *)
  | ColumnsOf (schema table : string)
      (* the eight column attributes of information_schema.columns
         for schema.table, ORDER BY ORDINAL_POSITION *)
  | TableTypeOf (schema table : string)
      (* TABLE_TYPE, ENGINE of information_schema.tables *)
  | TableCommentOf (schema table : string)
      (* TABLE_COMMENT of information_schema.tables *)
  | ColumnCommentsOf (schema table : string)
      (* COLUMN_NAME, COLUMN_COMMENT, ORDER BY ORDINAL_POSITION *)
  | PartitionsOf (schema table : string)
      (* information_schema.partitions *)
  | AuditLog (start_date : string) (limit : Z).
      (* __internal_schema.audit_log since start_date, finished read
         statements, latest first, LIMIT limit *)

(** One call of a backend function: the statement and the [db_name]
    argument, [None] when the call leaves it out. *)
Record call : Type := Call {
  target : backend;
  statement : query;
  database : option string
}.

(** *** The extractor's mutable state and the world around it *)

Record state : Type := State {
  metadata_cache : gmap string value;
  metadata_cache_time : gmap string Z;
  ticks : nat;        (* how often [datetime.now()] has been read *)
  trace : list call   (* the backend calls made, latest first *)
}.

Definition initial : state :=
  {| metadata_cache := ∅; metadata_cache_time := ∅; ticks := 0%nat; trace := [] |}.

(** Computations on the state that may raise. *)
Definition M (A : Type) : Type := state -> Exc.t A * state.

Definition ret {A : Type} (a : A) : M A := fun st => (Exc.Return a, st).

Definition raise {A : Type} (message : string) : M A :=
  fun st => (Exc.Raise message, st).

Definition bind {A B : Type} (m : M A) (k : A -> M B) : M B :=
  fun st =>
    match m st with
    | (Exc.Return a, st') => k a st'
    | (Exc.Raise e, st') => (Exc.Raise e, st')
    end.

(** [try: m  except Exception: handler]; what [m] did to the state
    before it raised stays done. *)
Definition try_except {A : Type} (m : M A) (handler : M A) : M A :=
  fun st =>
    match m st with
    | (Exc.Return a, st') => (Exc.Return a, st')
    | (Exc.Raise _, st') => handler st'
    end.

Definition lift {A : Type} (m : Exc.t A) : M A := fun st => (m, st).

(** The state after one more backend call. *)
Definition logged (c : call) (st : state) : state :=
  {| metadata_cache := metadata_cache st;
     metadata_cache_time := metadata_cache_time st;
     ticks := ticks st;
     trace := c :: trace st |}.

(** The state after an entry is written at the time [t] just read. *)
Definition stored (cache_key : string) (v : value) (t : Z) (st : state) : state :=
  {| metadata_cache := <[cache_key := v]> (metadata_cache st);
     metadata_cache_time := <[cache_key := t]> (metadata_cache_time st);
     ticks := S (ticks st);
     trace := trace st |}.

(** The state after one more reading of the clock. *)
Definition tick (st : state) : state :=
  {| metadata_cache := metadata_cache st;
     metadata_cache_time := metadata_cache_time st;
     ticks := S (ticks st);
     trace := trace st |}.

Notation "'run' x <- m ; k" := (bind m (fun x => k))
  (at level 20, x name, m at level 100, k at level 200,
   format "'[v' 'run'  x  <-  m ; '/' k ']'").

(** The secondary catalog's qualifier. *)
Definition catalog_prefix : string := "mysql_catalog_bigdata.".

(** [sorted(l)] on strings: by code points, [String.leb]. *)
Definition str_le (a b : string) : Prop := String.leb a b = true.

#[local] Instance str_le_dec (a b : string) : Decision (str_le a b).
Proof. unfold str_le. apply _. Defined.

Definition sorted (l : list string) : list string := merge_sort str_le l.

Section Extractor.

(** What [__init__] fixes for the life of the object. *)
Variable self_db_name : string.               (* self.db_name *)
Variable cache_ttl : Z.                       (* self.cache_ttl, seconds *)
Variable enable_table_hierarchy : bool.       (* self.enable_table_hierarchy *)
Variable table_hierarchy_patterns : list string.
(** [bool(re.compile(pattern).match(table))], for the patterns that
    [_load_table_hierarchy_patterns] has compiled once already. *)
Variable regex_match : string -> string -> bool.

(** The world: the clock, in microseconds since [datetime.min], by
    the number of earlier readings; the backends' answers, by the
    number of earlier calls; the text forms of a time. *)
Variable clock : nat -> Z.
Variable answer : nat -> call -> Exc.t (list row).
Variable isoformat : Z -> string.
Variable strftime_date : Z -> string.

(** [datetime.now()] *)
Definition now : M Z := fun st => (Exc.Return (clock (ticks st)), tick st).

(** A call of one of the four backend functions. *)
Definition perform (c : call) : M (list row) :=
  fun st => (answer (List.length (trace st)) c, logged c st).

Definition execute (b : backend) (q : query) (db : option string)
  : M (list row) :=
  perform {| target := b; statement := q; database := db |}.

(** [delta.total_seconds() < self.cache_ttl], [delta] in microseconds
    (the float on the left is the exact quotient as long as the TTL
    is below 2^32 seconds). *)
Definition within_ttl (delta : Z) : bool := delta <? cache_ttl * 1000000.

(** The guard at the head of every cached operation:
    [cache_key in self.metadata_cache and
     (datetime.now() - self.metadata_cache_time.get(cache_key, datetime.min))
       .total_seconds() < self.cache_ttl];
    gives the cached object on a hit.  The clock is read only when
    the key is there. *)
Definition cache_lookup (cache_key : string) : M (option value) :=
  fun st =>
    match metadata_cache st !! cache_key with
    | None => (Exc.Return None, st)
    | Some v =>
        (run t <- now;
         let stored := default 0 (metadata_cache_time st !! cache_key) in
         ret (if within_ttl (t - stored) then Some v else None)) st
    end.

(** [self.metadata_cache[cache_key] = v;
    self.metadata_cache_time[cache_key] = datetime.now()] *)
Definition cache_store (cache_key : string) (v : value) : M unit :=
  fun st => (Exc.Return tt, stored cache_key v (clock (ticks st)) st).

(** [db_name or self.db_name] *)
Definition resolve_db (db_name : option string) : string :=
  match db_name with
  | None | Some EmptyString => self_db_name
  | Some d => d
  end.

(** The routing written out in every operation:
    [if "mysql_catalog_bigdata." in db_name:] sends the statement for
    [db_name.removeprefix("mysql_catalog_bigdata.")] to the MySQL
    function, [else] the statement for [db_name] to the Doris one.
    [with_db] says whether the call passes the schema as [db_name]
    argument too.  [route] is the call that is made. *)
Definition route (mysql doris : backend) (q : string -> query)
    (with_db : bool) (db_name : string) : call :=
  if Py.contains catalog_prefix db_name then
    let db_name2 := Py.removeprefix catalog_prefix db_name in
    {| target := mysql; statement := q db_name2;
       database := if with_db then Some db_name2 else None |}
  else
    {| target := doris; statement := q db_name;
       database := if with_db then Some db_name else None |}.

Definition routed (mysql doris : backend) (q : string -> query)
    (with_db : bool) (db_name : string) : M (list row) :=
  perform (route mysql doris q with_db db_name).

(** *** [_sort_tables_by_hierarchy] *)

(** One turn of the loop over the patterns: the state is the groups
    built so far and the set of tables not yet placed. *)
Definition hierarchy_step (acc : list (list string) * gset string)
    (pattern : string) : list (list string) * gset string :=
  let '(table_groups, remaining_tables) := acc in
  let matching_tables :=
    filter (fun table => regex_match pattern table = true)
           (elements remaining_tables) in
  let remaining_tables := remaining_tables ∖ list_to_set matching_tables in
  match matching_tables with
  | [] => (table_groups, remaining_tables)
  | _ :: _ => ((table_groups ++ [sorted matching_tables])%list, remaining_tables)
  end.

(** The groups, in pattern order, with the unmatched tables last. *)
Definition hierarchy_groups (tables : list string) : list (list string) :=
  let '(table_groups, remaining_tables) :=
    fold_left hierarchy_step table_hierarchy_patterns
              ([], list_to_set tables) in
  match elements remaining_tables with
  | [] => table_groups
  | _ :: _ => (table_groups ++ [sorted (elements remaining_tables)])%list
  end.

Definition _sort_tables_by_hierarchy (tables : list string) : list string :=
  if negb enable_table_hierarchy
     || match table_hierarchy_patterns with [] => true | _ => false end
  then tables
  else concat (hierarchy_groups tables).

(** *** [get_database_tables] *)

Definition tables_key (db_name : string) : string := "tables_" ++ db_name.

(** The name and the comment of one row; [table['TABLE_NAME']] and
    [table['TABLE_COMMENT']] raise [KeyError] on a missing column. *)
Definition table_record (table : row) : Exc.t (cell * cell) :=
  do name <- getitem table "TABLE_NAME";
  do comment <- getitem table "TABLE_COMMENT";
  Exc.Return (name, or_empty comment).

Definition record_value (r : cell * cell) : value :=
  VDict [("table_name", cell_value (fst r));
         ("table_comment", cell_value (snd r))].

(** [regex.match(table)] and [sort()] want text. *)
Definition as_str (c : cell) : Exc.t string :=
  match c with
  | CStr s => Exc.Return s
  | _ => Exc.Raise "expected string or bytes-like object"
  end.

(** [self._sort_tables_by_hierarchy([table['table_name'] for table in tables_info])],
    on names as the backend gave them. *)
Definition sort_table_names (names : list cell) : Exc.t (list value) :=
  if negb enable_table_hierarchy
     || match table_hierarchy_patterns with [] => true | _ => false end
  then Exc.Return (map cell_value names)
  else
    do tables <- Exc.map_m as_str names;
    Exc.Return (map VStr (_sort_tables_by_hierarchy tables)).

Definition get_database_tables (db_name : option string) : M value :=
  let db_name := resolve_db db_name in
  if String.eqb db_name "" then ret (VList [])
  else
    let cache_key := tables_key db_name in
    run hit <- cache_lookup cache_key;
    match hit with
    | Some v => ret v
    | None =>
        try_except
          (run result <- routed Mysql Doris TablesOf true db_name;
           run records <- lift (Exc.map_m table_record result);
           run tables_info <-
             (match records with
              | _ :: _ =>
                  if enable_table_hierarchy
                  then lift (sort_table_names (map fst records))
                  else ret (map record_value records)
              | [] => ret []
              end);
           run _ <- cache_store cache_key (VList tables_info);
           ret (VList tables_info))
          (ret (VList []))
    end.

(** *** [get_table_comment] *)

Definition table_comment_key (db_name table_name : string) : string :=
  "table_comment_" ++ db_name ++ "_" ++ table_name.

Definition get_table_comment (table_name : string) (db_name : option string)
  : M value :=
  let db_name := resolve_db db_name in
  if String.eqb db_name "" then ret (VStr "")
  else
    let cache_key := table_comment_key db_name table_name in
    run hit <- cache_lookup cache_key;
    match hit with
    | Some v => ret v
    | None =>
        try_except
          (run result <-
             routed Mysql Doris (fun s => TableCommentOf s table_name) false db_name;
           let comment :=
             match result with
             | [] | [] :: _ => CStr ""     (* not result or not result[0] *)
             | first :: _ => get first "TABLE_COMMENT"
             end in
           run _ <- cache_store cache_key (cell_value comment);
           ret (cell_value comment))
          (ret (VStr ""))
    end.

(** *** [get_table_schema] *)

Definition schema_key (db_name table_name : string) : string :=
  "schema_" ++ db_name ++ "_" ++ table_name.

Definition column_info (col : row) : value :=
  VDict [("name", cell_value (get col "COLUMN_NAME"));
         ("type", cell_value (get col "DATA_TYPE"));
         ("nullable",
          VBool (match get col "IS_NULLABLE" with
                 | CStr s => String.eqb s "YES"
                 | _ => false
                 end));
         ("default", cell_value (get col "COLUMN_DEFAULT"));
         ("comment", cell_value (or_empty (get col "COLUMN_COMMENT")));
         ("position", cell_value (get col "ORDINAL_POSITION"));
         ("key", cell_value (or_empty (get col "COLUMN_KEY")));
         ("extra", cell_value (or_empty (get col "EXTRA")))].

(** The inner [try] of [get_table_schema]: the entries it adds to the
    schema.  On the MySQL side the answer is a [DataFrame], whose
    truth value [if table_type_result:] cannot take. *)
Definition table_type_entries (table_name db_name : string)
  : M (list (string * value)) :=
  try_except
    (if Py.contains catalog_prefix db_name then
       let db_name2 := Py.removeprefix catalog_prefix db_name in
       run _ <- execute MysqlDf (TableTypeOf db_name2 table_name) None;
       raise "The truth value of a DataFrame is ambiguous."
     else
       run table_type_result <-
         execute Doris (TableTypeOf db_name table_name) None;
       match table_type_result with
       | [] => ret []
       | first :: _ =>
           ret [("table_type", cell_value (get first "TABLE_TYPE"));
                ("engine", cell_value (get first "ENGINE"))]
       end)
    (ret []).

(** The outer [try] of [get_table_schema], entered on a cache miss. *)
Definition compute_table_schema (table_name db_name : string) : M value :=
  try_except
    (run result <-
       routed Mysql Doris (fun s => ColumnsOf s table_name) false db_name;
     match result with
     | [] => ret (VDict [])
     | _ :: _ =>
         let columns := map column_info result in
         run table_comment <- get_table_comment table_name (Some db_name);
         run created <- now;
         run extra <- table_type_entries table_name db_name;
         let schema :=
           VDict ([("name", VStr table_name);
                   ("database", VStr db_name);
                   ("comment", table_comment);
                   ("columns", VList columns);
                   ("create_time", VStr (isoformat created))]
                  ++ extra)%list in
         run _ <- cache_store (schema_key db_name table_name) schema;
         ret schema
     end)
    (ret (VDict [])).

Definition get_table_schema (table_name : string) (db_name : option string)
  : M value :=
  let db_name := resolve_db db_name in
  if String.eqb db_name "" then ret (VDict [])
  else
    let cache_key := schema_key db_name table_name in
    run hit <- cache_lookup cache_key;
    match hit with
    | Some v => ret v
    | None => compute_table_schema table_name db_name
    end.

(** *** [get_column_comments] *)

Definition column_comments_key (db_name table_name : string) : string :=
  "column_comments_" ++ db_name ++ "_" ++ table_name.

(** [comments[column_name] = column_comment]; a name that is a number
    is kept by its text. *)
Definition set_item (k : string) (v : value) (d : list (string * value))
  : list (string * value) :=
  if existsb (fun kv => String.eqb (fst kv) k) d
  then map (fun kv => if String.eqb (fst kv) k then (k, v) else kv) d
  else (d ++ [(k, v)])%list.

Definition key_text (c : cell) : string :=
  match c with
  | CStr s => s
  | CInt n => Py.str_of_int n
  | CNull => "None"
  end.

Definition add_column_comment (comments : list (string * value)) (col : row)
  : list (string * value) :=
  let column_name := get col "COLUMN_NAME" in
  let column_comment := get col "COLUMN_COMMENT" in
  if truthy column_name
  then set_item (key_text column_name) (cell_value column_comment) comments
  else comments.

Definition get_column_comments (table_name : string) (db_name : option string)
  : M value :=
  let db_name := resolve_db db_name in
  if String.eqb db_name "" then ret (VDict [])
  else
    let cache_key := column_comments_key db_name table_name in
    run hit <- cache_lookup cache_key;
    match hit with
    | Some v => ret v
    | None =>
        try_except
          (run result <-
             routed Mysql Doris (fun s => ColumnCommentsOf s table_name) false db_name;
           let comments := fold_left add_column_comment result [] in
           run _ <- cache_store cache_key (VDict comments);
           ret (VDict comments))
          (ret (VDict []))
    end.

(** *** [get_table_partition_info]: no cache, the Doris backend only *)

Definition partition_value (part : row) : value :=
  VDict [("name", cell_value (get part "PARTITION_NAME"));
         ("expression", cell_value (get part "PARTITION_EXPRESSION"));
         ("description", cell_value (get part "PARTITION_DESCRIPTION"));
         ("rows", cell_value (default (CInt 0) (assoc "TABLE_ROWS" part)))].

Definition get_table_partition_info (db_name table_name : string) : M value :=
  try_except
    (run partitions <- execute Doris (PartitionsOf db_name table_name) None;
     match partitions with
     | [] => ret (VDict [])
     | _ :: _ =>
         ret (VDict [("has_partitions", VBool true);
                     ("partitions", VList (map partition_value partitions))])
     end)
    (ret (VDict [])).

(** *** [get_recent_audit_logs]: the frame, by its rows *)

Definition get_recent_audit_logs (days limit : Z) : M (list row) :=
  try_except
    (run t <- now;
     let start_date := strftime_date (t - days * 86400000000) in
     execute DorisDf (AuditLog start_date limit) None)
    (ret []).

(** *** [extract_common_sql_patterns] *)

(** A cluster of the audit trail, as the loop keeps it. *)
Record sql_pattern : Type := SqlPattern {
  simplified_sql : string;
  examples : list string;
  comments : list string;
  count : Z;
  tables : list string
}.

(** The helpers of the mining loop.  [_get_sql_type] and
    [_are_sqls_similar] are looked up on [self], where this class
    does not define them: whatever they do, raising included, is
    covered.  The other three are the text functions of the class. *)
Variable _get_sql_type : cell -> Exc.t (option string).
Variable _are_sqls_similar : string -> string -> Exc.t bool.
Variable _simplify_sql : string -> string.
Variable _extract_tables_from_sql : string -> list string.
Variable extract_sql_comments : string -> string.

(** The [for pattern in patterns_by_type[sql_type]] loop: the list
    with the first similar cluster updated, if there is one. *)
Fixpoint update_similar (simplified sql comment : string)
    (patterns : list sql_pattern) : Exc.t (option (list sql_pattern)) :=
  match patterns with
  | [] => Exc.Return None
  | pattern :: rest =>
      do similar <- _are_sqls_similar simplified (simplified_sql pattern);
      if similar then
        Exc.Return
          (Some ({| simplified_sql := simplified_sql pattern;
                    examples := (examples pattern ++ [sql])%list;
                    comments :=
                      if String.eqb comment "" then comments pattern
                      else (comments pattern ++ [comment])%list;
                    count := count pattern + 1;
                    tables := tables pattern |} :: rest))
      else
        do rest' <- update_similar simplified sql comment rest;
        Exc.Return (option_map (cons pattern) rest')
  end.

Fixpoint patterns_of (sql_type : string)
    (by_type : list (string * list sql_pattern)) : option (list sql_pattern) :=
  match by_type with
  | [] => None
  | (ty, ps) :: rest =>
      if String.eqb ty sql_type then Some ps else patterns_of sql_type rest
  end.

Definition set_patterns (sql_type : string) (ps : list sql_pattern)
    (by_type : list (string * list sql_pattern))
  : list (string * list sql_pattern) :=
  match patterns_of sql_type by_type with
  | Some _ =>
      map (fun e => if String.eqb (fst e) sql_type then (sql_type, ps) else e)
          by_type
  | None => (by_type ++ [(sql_type, ps)])%list
  end.

(** One turn of the loop over the audit rows. *)
Definition mine_row (patterns_by_type : list (string * list sql_pattern))
    (audit_row : row) : Exc.t (list (string * list sql_pattern)) :=
  do sql <- getitem audit_row "stmt";
  if negb (truthy sql) then Exc.Return patterns_by_type
  else
    do sql_type <- _get_sql_type sql;
    match sql_type with
    | None | Some EmptyString => Exc.Return patterns_by_type
    | Some sql_type =>
        do sql <- as_str sql;
        let simplified := _simplify_sql sql in
        let tables := _extract_tables_from_sql sql in
        let comment := extract_sql_comments sql in
        let known := default [] (patterns_of sql_type patterns_by_type) in
        do updated <- update_similar simplified sql comment known;
        let known' :=
          match updated with
          | Some ps => ps
          | None =>
              (known ++
               [{| simplified_sql := simplified;
                   examples := [sql];
                   comments := if String.eqb comment "" then [] else [comment];
                   count := 1;
                   tables := tables |}])%list
          end in
        Exc.Return (set_patterns sql_type known' patterns_by_type)
    end.

Fixpoint mine_rows (patterns_by_type : list (string * list sql_pattern))
    (rows : list row) : Exc.t (list (string * list sql_pattern)) :=
  match rows with
  | [] => Exc.Return patterns_by_type
  | r :: rows' =>
      do patterns_by_type <- mine_row patterns_by_type r;
      mine_rows patterns_by_type rows'
  end.

(** [sorted(type_patterns, key=lambda x: x['count'], reverse=True)]:
    by falling count, equal counts in their given order. *)
Fixpoint insert_by_count (p : sql_pattern) (l : list sql_pattern)
  : list sql_pattern :=
  match l with
  | [] => [p]
  | q :: l' =>
      if count q <? count p then p :: l else q :: insert_by_count p l'
  end.

Definition sorted_by_count (l : list sql_pattern) : list sql_pattern :=
  fold_left (fun acc p => insert_by_count p acc) l [].

(** [json.dumps(l, ensure_ascii=False)] for a list of strings. *)
Definition hex_digit (n : nat) : ascii :=
  nth n (list_ascii_of_string "0123456789abcdef") "0"%char.

Definition quote_char : ascii := ascii_of_nat 34.

Definition json_escape_char (c : ascii) : string :=
  let n := nat_of_ascii c in
  if Ascii.eqb c quote_char then "\" ++ String c ""
  else if Ascii.eqb c "\"%char then "\\"
  else if Nat.eqb n 10 then "\n"
  else if Nat.eqb n 13 then "\r"
  else if Nat.eqb n 9 then "\t"
  else if Nat.eqb n 8 then "\b"
  else if Nat.eqb n 12 then "\f"
  else if Nat.ltb n 32
  then "\u00" ++ String (hex_digit (n / 16)) (String (hex_digit (n mod 16)) "")
  else String c "".

Fixpoint json_escape (s : string) : string :=
  match s with
  | EmptyString => EmptyString
  | String c s' => json_escape_char c ++ json_escape s'
  end.

Definition json_string (s : string) : string :=
  String quote_char (json_escape s ++ String quote_char "").

Fixpoint json_join (l : list string) : string :=
  match l with
  | [] => ""
  | [s] => json_string s
  | s :: l' => json_string s ++ ", " ++ json_join l'
  end.

Definition json_dumps_strings (l : list string) : string :=
  "[" ++ json_join l ++ "]".

(** A record of the result list. *)
Definition pattern_value (sql_type : string) (pattern : sql_pattern) : value :=
  VDict [("pattern", VStr (simplified_sql pattern));
         ("type", VStr sql_type);
         ("frequency", VInt (count pattern));
         ("examples", VStr (json_dumps_strings (take 3 (examples pattern))));
         ("comments",
          VStr (match comments pattern with
                | [] => "[]"
                | _ :: _ => json_dumps_strings (take 3 (comments pattern))
                end));
         ("tables", VStr (json_dumps_strings (tables pattern)))].

Definition result_patterns (by_type : list (string * list sql_pattern))
  : list value :=
  flat_map (fun e => map (pattern_value (fst e)) (take 3 (sorted_by_count (snd e))))
           by_type.

(** The fallback returned when the audit window is empty. *)
Definition default_patterns_short : value :=
  VList
    [VDict [("pattern", VStr "SELECT * FROM {table} WHERE {condition}");
            ("type", VStr "SELECT");
            ("frequency", VInt 1)];
     VDict [("pattern",
             VStr "SELECT {columns} FROM {table} GROUP BY {group_by} ORDER BY {order_by} LIMIT {limit}");
            ("type", VStr "SELECT");
            ("frequency", VInt 1)]].

(** The fallback returned when mining finds nothing, or fails. *)
Definition default_patterns : value :=
  VList
    [VDict [("pattern", VStr "SELECT * FROM {table} WHERE {condition}");
            ("type", VStr "SELECT");
            ("frequency", VInt 1);
            ("examples", VStr "[]");
            ("comments", VStr "[]");
            ("tables", VStr "[]")];
     VDict [("pattern",
             VStr "SELECT {columns} FROM {table} GROUP BY {group_by} ORDER BY {order_by} LIMIT {limit}");
            ("type", VStr "SELECT");
            ("frequency", VInt 1);
            ("examples", VStr "[]");
            ("comments", VStr "[]");
            ("tables", VStr "[]")]].

(** The body of the [try]. *)
Definition extract_body (limit : Z) : M value :=
  run audit_logs <- get_recent_audit_logs 30 limit;
  match audit_logs with
  | [] => ret default_patterns_short
  | _ :: _ =>
      run patterns_by_type <- lift (mine_rows [] audit_logs);
      match result_patterns patterns_by_type with
      | [] => ret default_patterns
      | found => ret (VList found)
      end
  end.

Definition extract_common_sql_patterns (limit : Z) : M value :=
  try_except (extract_body limit) (ret default_patterns).

End Extractor.

End Catalog.

(** ** The place of a table in the hierarchy *)

Module Layering.

(** The number of patterns that a table fails before one matches it:
    the position of its first matching pattern, or the number of
    patterns when none matches. *)
Fixpoint rank (regex_match : string -> string -> bool) (patterns : list string)
    (table : string) : nat :=
  match patterns with
  | [] => 0%nat
  | pattern :: patterns' =>
      if regex_match pattern table then 0%nat
      else S (rank regex_match patterns' table)
  end.

(** Earlier layer first; inside a layer, by name. *)
Definition before (regex_match : string -> string -> bool) (patterns : list string)
    (x y : string) : Prop :=
  (rank regex_match patterns x < rank regex_match patterns y)%nat
  \/ (rank regex_match patterns x = rank regex_match patterns y
      /\ Catalog.str_le x y).

(** What holds between two turns of the loop of
    [_sort_tables_by_hierarchy], [done] being the patterns already
    tried: the groups are in hierarchy order, hold tables of the
    layers of [done] only, and no pattern of [done] matches a table
    that is still to be placed. *)
Definition layered (regex_match : string -> string -> bool) (all done : list string)
    (acc : list (list string) * gset string) : Prop :=
  StronglySorted (before regex_match all) (concat (fst acc))
  /\ Forall (fun x => (rank regex_match all x < List.length done)%nat) (concat (fst acc))
  /\ (forall x, x ∈ snd acc -> Forall (fun p => regex_match p x = false) done).

End Layering.

(** ** Rows as a cursor gives them *)

Module Shape.
Import Row.

(** Cells that a row of a result set holds: no collections. *)
Definition scalar (v : value) : bool :=
  match v with
  | VList _ | VTuple _ | VNamedTuple _ | VDict _ => false
  | _ => true
  end.

(** A mapping row with scalar cells. *)
Definition plain_row (r : value) : Prop :=
  exists items, r = VDict items /\ forallb (fun kv => scalar (snd kv)) items = true.

End Shape.

(** ** Reading a list of pattern records *)

Module Observe.
Import Row.

(** The template, the statement type and the frequency of a record. *)
Definition pattern_head (record : value)
  : option value * option value * option value :=
  (dict_get "pattern" record, dict_get "type" record, dict_get "frequency" record).

Definition pattern_heads (result : value)
  : list (option value * option value * option value) :=
  match result with
  | VList records => map pattern_head records
  | _ => []
  end.

(** The two generic templates: a SELECT with a condition, and a SELECT
    with grouping, ordering and a limit, each with frequency 1. *)
Definition generic_heads : list (option value * option value * option value) :=
  [ (Some (VStr "SELECT * FROM {table} WHERE {condition}"),
     Some (VStr "SELECT"), Some (VInt 1));
    (Some (VStr "SELECT {columns} FROM {table} GROUP BY {group_by} ORDER BY {order_by} LIMIT {limit}"),
     Some (VStr "SELECT"), Some (VInt 1)) ].

End Observe.

(** ** The rest of the catalog: the database list and the indexes *)

Module Session.
Import Row.

(** The statements of [get_all_databases] and [get_table_indexes];
    both are sent without a [db_name] argument. *)
Inductive statement : Type :=
  | Schemata
      (* SCHEMA_NAME of information_schema.schemata for the seven
         names of the query, ORDER BY SCHEMA_NAME *)
  | ShowIndex (schema table : string).
      (* SHOW INDEX FROM `schema`.`table` *)

Record request : Type := Request {
  via : Catalog.backend;
  text : statement
}.

(** The extractor and the world it has in [Catalog], with the calls
    made for these statements, latest first. *)
Record state : Type := Session {
  catalog : Catalog.state;
  requests : list request
}.

Definition M (A : Type) : Type := state -> Exc.t A * state.

Definition ret {A : Type} (a : A) : M A := fun st => (Exc.Return a, st).

Definition raise {A : Type} (message : string) : M A :=
  fun st => (Exc.Raise message, st).

Definition bind {A B : Type} (m : M A) (k : A -> M B) : M B :=
  fun st =>
    match m st with
    | (Exc.Return a, st') => k a st'
    | (Exc.Raise e, st') => (Exc.Raise e, st')
    end.

Definition try_except {A : Type} (m : M A) (handler : M A) : M A :=
  fun st =>
    match m st with
    | (Exc.Return a, st') => (Exc.Return a, st')
    | (Exc.Raise _, st') => handler st'
    end.

Definition lift {A : Type} (m : Exc.t A) : M A := fun st => (m, st).

(** An operation of [Catalog], on the extractor of the session. *)
Definition on_catalog {A : Type} (m : Catalog.M A) : M A :=
  fun st =>
    let '(r, c) := m (catalog st) in
    (r, {| catalog := c; requests := requests st |}).

Notation "'run' x <- m ; k" := (bind m (fun x => k))
  (at level 20, x name, m at level 100, k at level 200,
   format "'[v' 'run'  x  <-  m ; '/' k ']'").

(** *** The loop of [get_table_indexes] *)

(** An entry of the index list. *)
Record index : Type := Index {
  name : Catalog.cell;
  columns : list Catalog.cell;
  unique : bool;
  type : Catalog.cell
}.

(** [a == b] on cells of a frame. *)
Definition cell_eqb (a b : Catalog.cell) : bool :=
  match a, b with
  | Catalog.CNull, Catalog.CNull => true
  | Catalog.CStr s, Catalog.CStr t => String.eqb s t
  | Catalog.CInt n, Catalog.CInt m => n =? m
  | _, _ => false
  end.

(** The entry that a row opens: the dictionary literal reads
    [Non_unique], then [Index_type]. *)
Definition open_index (index_name column_name : Catalog.cell) (row : Catalog.row)
  : Exc.t index :=
  do non_unique <- Catalog.getitem row "Non_unique";
  do index_type <- Catalog.getitem row "Index_type";
  Exc.Return {| name := index_name;
                columns := [column_name];
                unique := cell_eqb non_unique (Catalog.CInt 0);
                type := index_type |}.

(** One turn of [for _, row in df.iterrows()]: the state is [indexes]
    and [current_index]. *)
Definition index_step (acc : list index * option index) (row : Catalog.row)
  : Exc.t (list index * option index) :=
  let '(indexes, current_index) := acc in
  do index_name <- Catalog.getitem row "Key_name";
  do column_name <- Catalog.getitem row "Column_name";
  match current_index with
  | None =>
      do opened <- open_index index_name column_name row;
      Exc.Return (indexes, Some opened)
  | Some current =>
      if negb (cell_eqb (name current) index_name) then
        do opened <- open_index index_name column_name row;
        Exc.Return ((indexes ++ [current])%list, Some opened)
      else
        Exc.Return
          (indexes,
           Some {| name := name current;
                   columns := (columns current ++ [column_name])%list;
                   unique := unique current;
                   type := type current |})
  end.

Fixpoint index_loop (acc : list index * option index) (rows : list Catalog.row)
  : Exc.t (list index * option index) :=
  match rows with
  | [] => Exc.Return acc
  | row :: rows' =>
      do acc' <- index_step acc row;
      index_loop acc' rows'
  end.

(** The entries in the making: the closed ones, then the open one. *)
Definition entries (acc : list index * option index) : list index :=
  (fst acc ++ match snd acc with Some current => [current] | None => [] end)%list.

(** The loop, with the [append] of the last entry after it. *)
Definition group_indexes (rows : list Catalog.row) : Exc.t (list index) :=
  do acc <- index_loop ([], None) rows;
  Exc.Return (entries acc).

Definition index_value (i : index) : value :=
  VDict [("name", Catalog.cell_value (name i));
         ("columns", VList (map Catalog.cell_value (columns i)));
         ("unique", VBool (unique i));
         ("type", Catalog.cell_value (type i))].

(** *** Python on the objects that the cache may hold *)

Definition is_name (x : string) (v : value) : bool :=
  match v with
  | VStr s => String.eqb s x
  | _ => false
  end.

(** [x in v], for a string [x]. *)
Definition contains_name (v : value) (x : string) : Exc.t bool :=
  match v with
  | VList l | VTuple l => Exc.Return (existsb (is_name x) l)
  | VNamedTuple fields => Exc.Return (existsb (is_name x) (map snd fields))
  | VDict items => Exc.Return (existsb (String.eqb x) (map fst items))
  | VStr s => Exc.Return (Py.contains x s)
  | _ => Exc.Raise ("argument of type '" ++ type_name v ++ "' is not iterable")
  end.

(** [l.remove(x)] on a list that holds [x]: the first one goes. *)
Fixpoint remove_first (x : string) (l : list value) : list value :=
  match l with
  | [] => []
  | v :: l' => if is_name x v then l' else v :: remove_first x l'
  end.

Section Directory.

Variable self_db_name : string.                 (* self.db_name *)
Variable cache_ttl : Z.                         (* self.cache_ttl *)
(** [bool(self.enable_multi_database)] *)
Variable enable_multi_database : bool.
(** [MULTI_DATABASE_NAMES] of [utils.db], a list of names. *)
Variable MULTI_DATABASE_NAMES : list string.
(** [self.excluded_databases], a list of names. *)
Variable excluded_databases : list string.
Variable clock : nat -> Z.
(** The backends' answers to [Schemata] and [ShowIndex], by the number
    of earlier calls with these statements. *)
Variable reply : nat -> request -> Exc.t (list Catalog.row).

Definition ask (b : Catalog.backend) (q : statement) : M (list Catalog.row) :=
  fun st =>
    (reply (List.length (requests st)) {| via := b; text := q |},
     {| catalog := catalog st;
        requests := {| via := b; text := q |} :: requests st |}).

(** *** [get_all_databases] *)

Definition databases_key : string := "databases".

(** ["mysql_catalog_bigdata." + db["SCHEMA_NAME"]] *)
Definition qualified (db : Catalog.row) : Exc.t value :=
  do schema_name <- Catalog.getitem db "SCHEMA_NAME";
  match schema_name with
  | Catalog.CStr s => Exc.Return (VStr (Catalog.catalog_prefix ++ s))
  | _ =>
      Exc.Raise ("can only concatenate str (not "
                 ++ String Catalog.quote_char
                      (type_name (Catalog.cell_value schema_name)
                       ++ String Catalog.quote_char ") to str"))
  end.

(** The list of names, and whether the list object is the one that
    the cache holds under [databases]: it is on a hit, and when the
    list has just been written there; the handler returns a list of
    its own. *)
Definition get_all_databases : M (value * bool) :=
  run hit <- on_catalog (Catalog.cache_lookup cache_ttl clock databases_key);
  match hit with
  | Some v => ret (v, true)
  | None =>
      try_except
        (run result <- ask Catalog.Doris Schemata;
         run names <-
           lift (Exc.map_m (fun db => Catalog.getitem db "SCHEMA_NAME") result);
         run result2 <- ask Catalog.Mysql Schemata;
         run names2 <- lift (Exc.map_m qualified result2);
         let databases := VList (map Catalog.cell_value names ++ names2) in
         run _ <- on_catalog (Catalog.cache_store clock databases_key databases);
         ret (databases, true))
        (ret (VList [], false))
  end.

(** *** [get_all_target_databases] *)

(** [self.metadata_cache[cache_key]] after the list object it holds
    has been changed in place. *)
Definition changed_in_place (cache_key : string) (v : value) : M unit :=
  fun st =>
    (Exc.Return tt,
     {| catalog :=
          {| Catalog.metadata_cache :=
               <[cache_key := v]> (Catalog.metadata_cache (catalog st));
             Catalog.metadata_cache_time := Catalog.metadata_cache_time (catalog st);
             Catalog.ticks := Catalog.ticks (catalog st);
             Catalog.trace := Catalog.trace (catalog st) |};
        requests := requests st |}).

(** [db not in self.excluded_databases] *)
Definition not_excluded (db : value) : bool :=
  negb (existsb (fun e => is_name e db) excluded_databases).

(** [all_dbs.remove(self.db_name); all_dbs = [self.db_name] + all_dbs],
    on the object [all_dbs]; [shared] says that it is the one in the
    cache. *)
Definition move_to_front (all_dbs : value) (shared : bool) : M value :=
  match all_dbs with
  | VList l =>
      let rest := remove_first self_db_name l in
      run _ <- (if shared then changed_in_place databases_key (VList rest)
                else ret tt);
      ret (VList (VStr self_db_name :: rest))
  | _ => raise ("'" ++ type_name all_dbs ++ "' object has no attribute 'remove'")
  end.

Definition get_all_target_databases : M value :=
  if enable_multi_database then
    match MULTI_DATABASE_NAMES with
    | [] =>
        run listed <- get_all_databases;
        let '(all_dbs, shared) := listed in
        run present <- lift (contains_name all_dbs self_db_name);
        run all_dbs <- (if present then move_to_front all_dbs shared
                        else ret all_dbs);
        run all_dbs <- lift (Executor.iterate all_dbs);
        ret (VList (filter (fun db => not_excluded db = true) all_dbs))
    | _ :: _ =>
        let db_names := map VStr MULTI_DATABASE_NAMES in
        let db_names :=
          if String.eqb self_db_name "" then db_names
          else if existsb (is_name self_db_name) db_names
          then VStr self_db_name :: remove_first self_db_name db_names
          else VStr self_db_name :: db_names in
        ret (VList (filter (fun db => not_excluded db = true) db_names))
    end
  else
    ret (VList (if String.eqb self_db_name "" then [] else [VStr self_db_name])).

(** *** [get_table_indexes] *)

Definition indexes_key (db_name table_name : string) : string :=
  "indexes_" ++ db_name ++ "_" ++ table_name.

Definition get_table_indexes (table_name : string) (db_name : option string)
  : M value :=
  let db_name := Catalog.resolve_db self_db_name db_name in
  if String.eqb db_name "" then ret (VList [])
  else
    let cache_key := indexes_key db_name table_name in
    run hit <- on_catalog (Catalog.cache_lookup cache_ttl clock cache_key);
    match hit with
    | Some v => ret v
    | None =>
        try_except
          (run df <-
             (if Py.contains Catalog.catalog_prefix db_name then
                let db_name2 := Py.removeprefix Catalog.catalog_prefix db_name in
                ask Catalog.MysqlDf (ShowIndex db_name2 table_name)
              else ask Catalog.DorisDf (ShowIndex db_name table_name));
           run indexes <- lift (group_indexes df);
           let indexes := VList (map index_value indexes) in
           run _ <- on_catalog (Catalog.cache_store clock cache_key indexes);
           ret indexes)
          (ret (VList []))
    end.

End Directory.

End Session.

(** ** Runs of a list of index entries *)

Module Runs.

(** No two entries that follow each other have the same name. *)
Fixpoint separated (l : list Session.index) : Prop :=
  match l with
  | g :: (h :: _) as l' =>
      Session.cell_eqb (Session.name g) (Session.name h) = false /\ separated l'
  | _ => True
  end.

(** The columns of an entry, each with the entry's name. *)
Definition labelled (g : Session.index)
  : list (option Catalog.cell * option Catalog.cell) :=
  map (fun c => (Some (Session.name g), Some c)) (Session.columns g).

(** The index name and the column name of a frame's row. *)
Definition label (row : Catalog.row) : option Catalog.cell * option Catalog.cell :=
  (Catalog.assoc "Key_name" row, Catalog.assoc "Column_name" row).

(** What a turn of the loop keeps: an entry is open as soon as one is
    closed, the names are separated, and no entry is without columns. *)
Definition tidy (acc : list Session.index * option Session.index) : Prop :=
  (snd acc = None -> fst acc = [])
  /\ separated (Session.entries acc)
  /\ Forall (fun g => Session.columns g <> []) (Session.entries acc).

(** The call that [get_table_indexes] makes for a database. *)
Definition index_request (db_name table_name : string) : Session.request :=
  if Py.contains Catalog.catalog_prefix db_name then
    {| Session.via := Catalog.MysqlDf;
       Session.text :=
         Session.ShowIndex (Py.removeprefix Catalog.catalog_prefix db_name)
           table_name |}
  else
    {| Session.via := Catalog.DorisDf;
       Session.text := Session.ShowIndex db_name table_name |}.

(** The list of a first call of [get_all_databases]: the names of the
    primary backend, then those of the MySQL catalog, each behind the
    qualifier. *)
Definition listing (names : list Catalog.cell) (names2 : list string)
  : list Row.value :=
  (map Catalog.cell_value names
   ++ map (fun s => Row.VStr (Catalog.catalog_prefix ++ s)) names2)%list.

(** A row of a frame that has the four columns the loop reads. *)
Definition complete (row : Catalog.row) : Prop :=
  forall k : string,
    k ∈ ["Key_name"; "Column_name"; "Non_unique"; "Index_type"] ->
    is_Some (Catalog.assoc k row).

End Runs.

(** ** Searching tables by name ([find_tables_by_pattern]) *)

Module Finder.
Import Row.

(** [v[k]] for a string [k] *)
Definition subscript (v : value) (k : string) : Exc.t value :=
  match v with
  | VDict _ =>
      match dict_get k v with
      | Some x => Exc.Return x
      | None => Exc.Raise ("'" ++ k ++ "'")
      end
  | VStr _ => Exc.Raise "string indices must be integers, not 'str'"
  | VList _ => Exc.Raise "list indices must be integers or slices, not str"
  | VTuple _ | VNamedTuple _ =>
      Exc.Raise "tuple indices must be integers or slices, not str"
  | _ => Exc.Raise ("'" ++ type_name v ++ "' object is not subscriptable")
  end.

(** The subject of [regex.match] must be text. *)
Definition as_text (v : value) : Exc.t string :=
  match v with
  | VStr s => Exc.Return s
  | _ =>
      Exc.Raise ("expected string or bytes-like object, got '" ++ type_name v ++ "'")
  end.

(** [[(db, table['table_name']) for table in tables
      if regex.match(table['table_name'])]] *)
Definition matches_in (regex : string -> bool) (db tables : value)
  : Exc.t (list value) :=
  do tables <- Executor.iterate tables;
  do found <-
    Exc.map_m
      (fun table =>
         do table_name <- subscript table "table_name";
         do subject <- as_text table_name;
         Exc.Return (if regex subject then [VTuple [db; table_name]] else []))
      tables;
  Exc.Return (concat found).

Section Finder.

Variable self_db_name : string.
Variable cache_ttl : Z.
Variable enable_table_hierarchy : bool.
Variable table_hierarchy_patterns : list string.
Variable regex_match : string -> string -> bool.
Variable clock : nat -> Z.
Variable answer : nat -> Catalog.call -> Exc.t (list Catalog.row).
(** [re.compile(pattern)]: [None] for [re.error], else the test
    [bool(regex.match(s))]. *)
Variable re_compile : string -> option (string -> bool).
(** [self.get_all_tables_from_all_databases().items()], the walk over
    all target databases: whatever it does. *)
Variable get_all_tables_from_all_databases : Catalog.M (list (value * value)).

Definition find_tables_by_pattern (pattern : string) (db_name : option string)
  : Catalog.M value :=
  match re_compile pattern with
  | None => Catalog.ret (VList [])
  | Some regex =>
      match db_name with
      | Some (String _ _ as db_name) =>
          Catalog.bind
            (Catalog.get_database_tables self_db_name cache_ttl
               enable_table_hierarchy table_hierarchy_patterns regex_match
               clock answer (Some db_name))
            (fun tables =>
               Catalog.bind (Catalog.lift (matches_in regex (VStr db_name) tables))
                 (fun matches => Catalog.ret (VList matches)))
      | _ =>
          Catalog.bind get_all_tables_from_all_databases
            (fun all_tables =>
               Catalog.bind
                 (Catalog.lift
                    (Exc.map_m (fun e => matches_in regex (fst e) (snd e)) all_tables))
                 (fun found => Catalog.ret (VList (concat found))))
      end
  end.

End Finder.

End Finder.

(** ** The MCP tools ([mcp_doris_tools.py]) *)

Module Tools.
Import Row.

(** The envelope
    [{"content": [{"type": "text",
                   "text": json.dumps(payload, ensure_ascii=False, default=str)}]}],
    by its payload. *)
Inductive response : Type :=
  | Content (payload : value).

(** [message or fallback] *)
Definition or_else (s fallback : string) : string :=
  if String.eqb s "" then fallback else s.

Section Tools.

(** [os.getenv("DB_DATABASE", "")] *)
Variable DB_DATABASE : string.
Variable cache_ttl : Z.
Variable enable_table_hierarchy : bool.
Variable table_hierarchy_patterns : list string.
Variable regex_match : string -> string -> bool.
Variable clock : nat -> Z.
Variable answer : nat -> Catalog.call -> Exc.t (list Catalog.row).
Variable isoformat : Z -> string.
(** [time.strftime("%Y-%m-%d %H:%M:%S")] *)
Variable timestamp : string.
(** Whether the float, or the [Decimal], with this text is zero. *)
Variable is_zero : string -> bool.

(** [bool(v)] *)
Definition truthy (v : value) : bool :=
  match v with
  | VNone => false
  | VBool b => b
  | VInt n => negb (n =? 0)
  | VFloat text | VDecimal text => negb (is_zero text)
  | VStr s => negb (String.eqb s "")
  | VTemporal _ _ => true
  | VList l | VTuple l => match l with [] => false | _ :: _ => true end
  | VNamedTuple items | VDict items =>
      match items with [] => false | _ :: _ => true end
  end.

(** [_format_response(success, result, error, message)]; an [error]
    that is not given is the empty text here, and a [result] that is a
    [DataFrame], which takes a way of its own, is none of the values. *)
Definition _format_response (success : bool) (result : value)
    (error message : string) : response :=
  Content
    (VDict
       ([("success", VBool success); ("timestamp", VStr timestamp)]
        ++ (if success && negb (match result with VNone => true | _ => false end)
            then [("result", result);
                  ("message", VStr (or_else message "Operation successful"))]
            else if negb success
            then [("error", VStr (or_else error "Unknown error"));
                  ("message", VStr (or_else message "Operation failed"))]
            else []))%list).

(** What [MetadataExtractor(db_name=db_name)] starts with: caches that
    are empty.  The clock and the backends go on. *)
Definition new_extractor (world : Catalog.state) : Catalog.state :=
  {| Catalog.metadata_cache := ∅;
     Catalog.metadata_cache_time := ∅;
     Catalog.ticks := Catalog.ticks world;
     Catalog.trace := Catalog.trace world |}.

(** A tool takes the world as it is and leaves it with its answer. *)
Definition mcp_doris_get_table_schema (table_name : string)
    (db_name : option string) (world : Catalog.state)
  : response * Catalog.state :=
  if String.eqb table_name "" then
    (_format_response false VNone "Missing table_name parameter" "", world)
  else
    let self_db_name := Catalog.resolve_db DB_DATABASE db_name in
    match
      Catalog.get_table_schema self_db_name cache_ttl clock answer isoformat
        table_name db_name (new_extractor world)
    with
    | (Exc.Return schema, world') =>
        if negb (truthy schema) then
          (_format_response false VNone "Table not found or has no columns"
             ("Could not get schema for table "
              ++ Catalog.resolve_db self_db_name db_name ++ "." ++ table_name),
           world')
        else (_format_response true schema "" "", world')
    | (Exc.Raise e, world') =>
        (_format_response false VNone e "Error getting table schema", world')
    end.

Definition mcp_doris_get_db_table_list (db_name : option string)
    (world : Catalog.state) : response * Catalog.state :=
  let self_db_name := Catalog.resolve_db DB_DATABASE db_name in
  match
    Catalog.get_database_tables self_db_name cache_ttl enable_table_hierarchy
      table_hierarchy_patterns regex_match clock answer db_name
      (new_extractor world)
  with
  | (Exc.Return tables, world') => (_format_response true tables "" "", world')
  | (Exc.Raise e, world') =>
      (_format_response false VNone e "Error getting database table list", world')
  end.

Definition mcp_doris_get_table_comment (table_name : string)
    (db_name : option string) (world : Catalog.state)
  : response * Catalog.state :=
  if String.eqb table_name "" then
    (_format_response false VNone "Missing table_name parameter" "", world)
  else
    let self_db_name := Catalog.resolve_db DB_DATABASE db_name in
    match
      Catalog.get_table_comment self_db_name cache_ttl clock answer
        table_name db_name (new_extractor world)
    with
    | (Exc.Return comment, world') => (_format_response true comment "" "", world')
    | (Exc.Raise e, world') =>
        (_format_response false VNone e "Error getting table comment", world')
    end.

Definition mcp_doris_get_table_column_comments (table_name : string)
    (db_name : option string) (world : Catalog.state)
  : response * Catalog.state :=
  if String.eqb table_name "" then
    (_format_response false VNone "Missing table_name parameter" "", world)
  else
    let self_db_name := Catalog.resolve_db DB_DATABASE db_name in
    match
      Catalog.get_column_comments self_db_name cache_ttl clock answer
        table_name db_name (new_extractor world)
    with
    | (Exc.Return comments, world') => (_format_response true comments "" "", world')
    | (Exc.Raise e, world') =>
        (_format_response false VNone e "Error getting column comments", world')
    end.

End Tools.

End Tools.

(** ** Reading a pattern list by statement type *)

Module Census.
Import Row.

Definition has_type (ty : string) (record : value) : bool :=
  match dict_get "type" record with
  | Some (VStr t) => String.eqb t ty
  | _ => false
  end.

Definition frequency (record : value) : Z :=
  match dict_get "frequency" record with
  | Some (VInt n) => n
  | _ => 0
  end.

(** The records of one statement type, in their order. *)
Definition of_type (ty : string) (records : list value) : list value :=
  List.filter (has_type ty) records.

(** A cluster that is at least as frequent as another. *)
Definition at_least (p q : Catalog.sql_pattern) : Prop :=
  Catalog.count q <= Catalog.count p.

End Census.

(** ** The cache window of an operation *)

Module Window.
Import Row Catalog.

Section Window.

Variable cache_ttl : Z.
Variable clock : nat -> Z.

(** At the next reading of the clock the entry under [key] is younger
    than the TTL. *)
Definition fresh (key : string) (st : state) : Prop :=
  clock (ticks st) - default 0 (metadata_cache_time st !! key)
  < cache_ttl * 1000000.

(** There is no entry under [key], or it is as old as the TTL, or older. *)
Definition missing (key : string) (st : state) : Prop :=
  metadata_cache st !! key = None
  \/ cache_ttl * 1000000
     <= clock (ticks st) - default 0 (metadata_cache_time st !! key).

(** [op] is served from the cache: a fresh entry is returned as it is,
    the clock has been read once, and no backend has been asked. *)
Definition served (op : M value) (key : string) (st : state) : Prop :=
  forall v,
    metadata_cache st !! key = Some v ->
    fresh key st ->
    op st = (Exc.Return v, tick st).

(** [op] asks the backend: [c] is the first call it makes. *)
Definition asks (op : M value) (c : call) (st : state) : Prop :=
  exists later, trace (snd (op st)) = (later ++ c :: trace st)%list.

(** [op] returns [v] and writes it under [key] with the time of
    writing, and an invocation made next, within the TTL of that time,
    returns [v] from the cache. *)
Definition stores (op : M value) (key : string) (v : value) (st : state) : Prop :=
  fst (op st) = Exc.Return v
  /\ metadata_cache (snd (op st)) !! key = Some v
  /\ metadata_cache_time (snd (op st)) !! key
     = Some (clock (Nat.pred (ticks (snd (op st)))))
  /\ (clock (ticks (snd (op st))) - clock (Nat.pred (ticks (snd (op st))))
      < cache_ttl * 1000000 ->
      op (snd (op st)) = (Exc.Return v, tick (snd (op st)))).

(** [op] returns [fallback] after the one call [c] and writes nothing:
    the cache and its times are as they were. *)
Definition gives_up (op : M value) (c : call) (fallback : value) (st : state)
  : Prop :=
  fst (op st) = Exc.Return fallback
  /\ metadata_cache (snd (op st)) = metadata_cache st
  /\ metadata_cache_time (snd (op st)) = metadata_cache_time st
  /\ trace (snd (op st)) = c :: trace st.

(** The same for the operations of [Session]; [result] is what the
    operation makes of a cached value. *)
Definition ticked (ss : Session.state) : Session.state :=
  {| Session.catalog := tick (Session.catalog ss);
     Session.requests := Session.requests ss |}.

Definition served_in_session {A : Type} (result : value -> A) (op : Session.M A)
    (key : string) (ss : Session.state) : Prop :=
  forall v,
    metadata_cache (Session.catalog ss) !! key = Some v ->
    fresh key (Session.catalog ss) ->
    op ss = (Exc.Return (result v), ticked ss).

Definition asks_in_session {A : Type} (op : Session.M A) (r : Session.request)
    (ss : Session.state) : Prop :=
  exists later,
    Session.requests (snd (op ss)) = (later ++ r :: Session.requests ss)%list.

Definition stores_in_session {A : Type} (result : value -> A) (op : Session.M A)
    (key : string) (v : value) (ss : Session.state) : Prop :=
  fst (op ss) = Exc.Return (result v)
  /\ metadata_cache (Session.catalog (snd (op ss))) !! key = Some v
  /\ metadata_cache_time (Session.catalog (snd (op ss))) !! key
     = Some (clock (Nat.pred (ticks (Session.catalog (snd (op ss))))))
  /\ (clock (ticks (Session.catalog (snd (op ss))))
      - clock (Nat.pred (ticks (Session.catalog (snd (op ss)))))
      < cache_ttl * 1000000 ->
      op (snd (op ss)) = (Exc.Return (result v), ticked (snd (op ss)))).

Definition gives_up_in_session {A : Type} (op : Session.M A) (fallback : A)
    (ss : Session.state) : Prop :=
  fst (op ss) = Exc.Return fallback
  /\ metadata_cache (Session.catalog (snd (op ss)))
     = metadata_cache (Session.catalog ss)
  /\ metadata_cache_time (Session.catalog (snd (op ss)))
     = metadata_cache_time (Session.catalog ss).

End Window.

(** The list that [get_database_tables] makes of the backend's rows,
    between the query and the update of the cache. *)
Definition table_list (enable_table_hierarchy : bool)
    (table_hierarchy_patterns : list string)
    (regex_match : string -> string -> bool) (result : list row)
  : Exc.t (list value) :=
  do records <- Exc.map_m table_record result;
  match records with
  | _ :: _ =>
      if enable_table_hierarchy
      then sort_table_names enable_table_hierarchy table_hierarchy_patterns
             regex_match (map fst records)
      else Exc.Return (map record_value records)
  | [] => Exc.Return []
  end.

(** The comment that [get_table_comment] reads off the backend's rows. *)
Definition comment_of (result : list row) : value :=
  cell_value
    match result with
    | [] | [] :: _ => CStr ""
    | first :: _ => get first "TABLE_COMMENT"
    end.

End Window.

(** ** A small world to run the catalog in *)

Module Demo.
Import Row Catalog.

(** A clock that moves one microsecond with every reading. *)
Definition clock (n : nat) : Z := Z.of_nat n.

Definition isoformat (t : Z) : string := "0001-01-01T00:00:00".

Definition strftime_date (t : Z) : string := "0001-01-01".

(** A backend that knows one table [t] with one column [id], which has
    neither a default nor a comment, in every schema. *)
Definition answer (n : nat) (c : call) : Exc.t (list row) :=
  match statement c with
  | TablesOf _ =>
      Exc.Return [[("TABLE_NAME", CStr "t"); ("TABLE_COMMENT", CNull)]]
  | ColumnsOf _ _ =>
      Exc.Return
        [[("COLUMN_NAME", CStr "id"); ("DATA_TYPE", CStr "int");
          ("IS_NULLABLE", CStr "NO"); ("COLUMN_DEFAULT", CNull);
          ("COLUMN_COMMENT", CNull); ("ORDINAL_POSITION", CInt 1);
          ("COLUMN_KEY", CStr "PRI"); ("EXTRA", CStr "")]]
  | _ => Exc.Return []
  end.

(** A backend whose audit log holds one statement. *)
Definition audited (n : nat) (c : call) : Exc.t (list row) :=
  match statement c with
  | AuditLog _ _ => Exc.Return [[("stmt", CStr "SELECT name FROM t WHERE id = 7")]]
  | _ => Exc.Return []
  end.

(** The lookup of a method that the class does not define. *)
Definition no_attribute {A B : Type} (name : string) (_ : A) : Exc.t B :=
  Exc.Raise ("'MetadataExtractor' object has no attribute '" ++ name ++ "'").

(** A backend without any table. *)
Definition nothing (n : nat) (c : call) : Exc.t (list row) := Exc.Return [].

(** A backend that has rows for one statement only. *)
Definition one_statement_backend (known : string) (sql db : string)
  : Exc.t Row.value :=
  if String.eqb sql known
  then Exc.Return (VList [VDict [("id", VInt 1)]])
  else Exc.Raise "Table not found".

End Demo.

(** ** Sample frames and backends *)

Module Sample.
Import Row Catalog.

(** A frame of [SHOW INDEX]: the primary key, and an index on two
    columns. *)
Definition index_frame : list row :=
  [ [("Key_name", CStr "PRIMARY"); ("Column_name", CStr "id");
     ("Non_unique", CInt 0); ("Index_type", CStr "BTREE")];
    [("Key_name", CStr "idx_ab"); ("Column_name", CStr "a");
     ("Non_unique", CInt 1); ("Index_type", CStr "BTREE")];
    [("Key_name", CStr "idx_ab"); ("Column_name", CStr "b");
     ("Non_unique", CInt 1); ("Index_type", CStr "BTREE")] ].

(** Two databases on the primary backend, one in the MySQL catalog. *)
Definition reply (n : nat) (r : Session.request) : Exc.t (list row) :=
  match Session.text r, Session.via r with
  | Session.Schemata, Doris =>
      Exc.Return [[("SCHEMA_NAME", CStr "announce")]; [("SCHEMA_NAME", CStr "base")]]
  | Session.Schemata, _ => Exc.Return [[("SCHEMA_NAME", CStr "base")]]
  | Session.ShowIndex _ _, _ => Exc.Return index_frame
  end.

(** The same, with the MySQL server down. *)
Definition mysql_down (n : nat) (r : Session.request) : Exc.t (list row) :=
  match Session.via r with
  | Mysql | MysqlDf => Exc.Raise "Can't connect to MySQL server"
  | _ => reply n r
  end.

Definition session : Session.state :=
  {| Session.catalog := Catalog.initial; Session.requests := [] |}.

(** A backend whose tables have no comment. *)
Definition uncommented (n : nat) (c : call) : Exc.t (list row) :=
  match statement c with
  | TableCommentOf _ _ => Exc.Return [[("TABLE_COMMENT", CNull)]]
  | _ => Exc.Return []
  end.

(** A backend that is down. *)
Definition down (n : nat) (c : call) : Exc.t (list row) :=
  Exc.Raise "Lost connection to server during query".

End Sample.

(** * Properties *)

(** ** Text lemmas *)

Section PyFacts.
Import Py.

(** A word without white space in it, and not empty. *)
Definition solid (w : string) : Prop :=
  w <> EmptyString /\ forallb (fun c => negb (isspace c)) (list_ascii_of_string w) = true.

Lemma startswith_contains (sub s : string) :
  startswith sub s = true -> contains sub s = true.
Proof. intros H. destruct s; simpl; rewrite H; reflexivity. Qed.

Lemma contains_unfold (sub : string) (c : ascii) (s : string) :
  contains sub (String c s) = startswith sub (String c s) || contains sub s.
Proof. reflexivity. Qed.

Lemma contains_cons (sub : string) (c : ascii) (s : string) :
  contains sub s = true -> contains sub (String c s) = true.
Proof. intros H. simpl contains. rewrite H. apply orb_true_r. Qed.

Lemma contains_empty_subject (sub : string) :
  sub <> EmptyString -> contains sub EmptyString = false.
Proof. destruct sub; [congruence | reflexivity]. Qed.

Lemma contains_lstrip (sub s : string) :
  solid sub -> contains sub s = true -> contains sub (lstrip s) = true.
Proof.
  intros [Hne Hsolid]. induction s as [|c s IH]; [trivial|].
  intros H. simpl lstrip. destruct (isspace c) eqn:Hc; [|exact H].
  apply IH. simpl contains in H. apply orb_true_iff in H as [H|H]; [|exact H].
  destruct sub as [|a sub']; [congruence|].
  simpl in Hsolid, H. apply andb_true_iff in Hsolid as [Ha _].
  apply andb_true_iff in H as [Hac _].
  apply Ascii.eqb_eq in Hac. subst c. rewrite Hc in Ha. discriminate.
Qed.

Lemma startswith_rstrip (p s : string) :
  solid p -> startswith p s = true -> startswith p (rstrip_by isspace s) = true.
Proof.
  intros [Hne Hsolid]. revert s. induction p as [|a p IH]; [congruence|].
  intros [|b s] H; [discriminate|].
  simpl in H. apply andb_true_iff in H as [Hab Hps].
  simpl in Hsolid. apply andb_true_iff in Hsolid as [Ha Hsolid].
  apply Ascii.eqb_eq in Hab. subst b.
  simpl rstrip_by. destruct p as [|a' p].
  - destruct (rstrip_by isspace s).
    + apply negb_true_iff in Ha. rewrite Ha. simpl. rewrite Ascii.eqb_refl. reflexivity.
    + simpl. rewrite Ascii.eqb_refl. reflexivity.
  - specialize (IH ltac:(congruence) Hsolid s Hps).
    destruct (rstrip_by isspace s); [discriminate|].
    simpl. rewrite Ascii.eqb_refl. exact IH.
Qed.

Lemma contains_rstrip (sub s : string) :
  solid sub -> contains sub s = true -> contains sub (rstrip_by isspace s) = true.
Proof.
  intros Hsolid. induction s as [|c s IH]; [trivial|].
  intros H. simpl contains in H. apply orb_true_iff in H as [H|H].
  - apply startswith_contains, startswith_rstrip; assumption.
  - specialize (IH H). simpl rstrip_by.
    destruct (rstrip_by isspace s) eqn:Hr.
    + rewrite contains_empty_subject in IH by apply Hsolid. discriminate.
    + apply contains_cons. exact IH.
Qed.

Lemma contains_strip (sub s : string) :
  solid sub -> contains sub s = true -> contains sub (strip s) = true.
Proof.
  intros Hsolid H. unfold strip. apply contains_rstrip, contains_lstrip; assumption.
Qed.

Lemma startswith_rstrip_inv (p s : string) :
  startswith p (rstrip_by isspace s) = true -> startswith p s = true.
Proof.
  revert p. induction s as [|c s IH]; intros p H; [exact H|].
  destruct p as [|a p]; [reflexivity|].
  simpl rstrip_by in H. destruct (rstrip_by isspace s) eqn:Hr.
  - destruct (isspace c); [discriminate|].
    simpl in H. apply andb_true_iff in H as [Hac Hp].
    destruct p; [|discriminate]. simpl. rewrite Hac. reflexivity.
  - simpl in H. apply andb_true_iff in H as [Hac Hp].
    simpl. rewrite Hac. apply IH. exact Hp.
Qed.

Lemma contains_rstrip_inv (sub s : string) :
  sub <> EmptyString ->
  contains sub (rstrip_by isspace s) = true -> contains sub s = true.
Proof.
  intros Hne. induction s as [|c s IH]; intros H; [exact H|].
  simpl rstrip_by in H.
  assert (Hcases : startswith sub (String c s) = true \/ contains sub s = true).
  { destruct (rstrip_by isspace s) eqn:Hr.
    - destruct (isspace c) eqn:Hc.
      + rewrite contains_empty_subject in H by assumption. discriminate.
      + left. apply startswith_rstrip_inv. simpl rstrip_by. rewrite Hr, Hc.
        rewrite contains_unfold in H. apply orb_true_iff in H as [H|H]; [exact H|].
        rewrite contains_empty_subject in H by assumption. discriminate.
    - rewrite contains_unfold in H. apply orb_true_iff in H as [H|H].
      + left. apply startswith_rstrip_inv. simpl rstrip_by. rewrite Hr. exact H.
      + right. apply IH. exact H. }
  destruct Hcases as [Hs|Hc].
  - apply startswith_contains. exact Hs.
  - apply contains_cons. exact Hc.
Qed.

Lemma contains_lstrip_inv (sub s : string) :
  contains sub (lstrip s) = true -> contains sub s = true.
Proof.
  induction s as [|c s IH]; intros H; [exact H|].
  simpl lstrip in H. destruct (isspace c); [|exact H].
  apply contains_cons, IH, H.
Qed.

(** Trimming neither hides nor brings in a solid word. *)
Lemma contains_strip_eq (sub s : string) :
  solid sub -> contains sub (strip s) = contains sub s.
Proof.
  intros Hsolid. destruct (contains sub s) eqn:H.
  - apply contains_strip; assumption.
  - destruct (contains sub (strip s)) eqn:H'; [|reflexivity].
    unfold strip in H'. apply contains_rstrip_inv in H'; [|apply Hsolid].
    apply contains_lstrip_inv in H'. congruence.
Qed.

Lemma solid_limit : solid "limit".
Proof. split; [discriminate | reflexivity]. Qed.

End PyFacts.

(** ** The security guard *)

Lemma search_is_some (pattern s : string) :
  is_Some (Re.compile pattern) -> is_Some (Re.search pattern s).
Proof. intros [p Hp]. unfold Re.search. rewrite Hp. simpl. eauto. Qed.

Lemma collect_is_some {A : Type} (f : A -> option (list Guard.issue)) (ops : list A) :
  Forall (fun op => is_Some (f op)) ops -> is_Some (Guard.collect f ops).
Proof.
  induction 1 as [|op ops [l Hl] _ [ls Hls]]; simpl; [eauto|].
  rewrite Hl, Hls. simpl. eauto.
Qed.

Lemma signatures_compile :
  Forall (fun op => is_Some (Re.compile (fst op))
                    /\ is_Some (Re.compile (fst op ++ Guard.object_type_suffix)))
         Guard.dangerous_operations
  /\ Forall (fun op => is_Some (Re.compile (fst op))) Guard.comment_operations.
Proof.
  split; repeat constructor; simpl; vm_compute; eauto.
Qed.

(** Every signature of the guard is in the modelled fragment of [re]:
    the guard gives a verdict on every statement. *)
Lemma check_sql_security_total (enabled : bool) (sql : string) :
  is_Some (Guard._check_sql_security enabled sql).
Proof.
  unfold Guard._check_sql_security. destruct enabled; [|simpl; eauto].
  change (negb true) with false. cbv iota.
  destruct signatures_compile as [Hd Hc].
  set (ro := Py.startswith_any _ _).
  destruct (collect_is_some (Guard.check_dangerous ro (Py.lower sql))
              Guard.dangerous_operations) as [high Hhigh].
  { eapply Forall_impl; [exact Hd|]. intros [operation description] [H1 H2].
    cbn [fst] in H1, H2. unfold Guard.check_dangerous.
    destruct (search_is_some _ (Py.lower sql) H1) as [found ->]. simpl.
    destruct found; [|eauto].
    destruct (ro && _); [|eauto].
    destruct (search_is_some _ (Py.lower sql) H2) as [strict ->]. simpl. eauto. }
  destruct (collect_is_some (Guard.check_comment (Py.lower sql))
              (if negb ro then Guard.comment_operations else [])) as [medium Hmedium].
  { destruct ro; simpl; [constructor|].
    eapply Forall_impl; [exact Hc|]. intros [operation description] H1.
    cbn [fst] in H1. unfold Guard.check_comment.
    destruct (search_is_some _ (Py.lower sql) H1) as [found ->]. simpl. eauto. }
  rewrite Hhigh. simpl. rewrite Hmedium. simpl. eauto.
Qed.

(** C1. With the security check enabled the guard finds
    ["SELECT * FROM t"] safe; finds ["DROP TABLE t"] unsafe, with one
    issue, the High-severity DROP one; finds the [orders] query safe
    although its text contains "create"; and classifies
    ["select * from t -- drop everything"] read-only and flags nothing
    in it, the comment marker it contains included. *)
Theorem guard_verdicts_of_the_examples :
  Guard._check_sql_security true "SELECT * FROM t"
  = Some {| Guard.is_safe := true; Guard.security_issues := [] |}
  /\ Guard._check_sql_security true "DROP TABLE t"
     = Some {| Guard.is_safe := false;
               Guard.security_issues :=
                 [ {| Guard.operation := "drop";
                      Guard.description := "DROP TABLE/DATABASE operation";
                      Guard.severity := "High" |} ] |}
  /\ Py.contains "create" "SELECT * FROM orders WHERE create_date > '2020-01-01'" = true
  /\ Guard._check_sql_security true
       "SELECT * FROM orders WHERE create_date > '2020-01-01'"
     = Some {| Guard.is_safe := true; Guard.security_issues := [] |}
  /\ Py.startswith_any Guard.read_only_prefixes
       (Py.strip (Py.lower "select * from t -- drop everything")) = true
  /\ Re.search "--" (Py.lower "select * from t -- drop everything") = Some true
  /\ Guard._check_sql_security true "select * from t -- drop everything"
     = Some {| Guard.is_safe := true; Guard.security_issues := [] |}.
Proof. repeat split; vm_compute; reflexivity. Qed.

(** With the check disabled every statement is safe. *)
Lemma guard_disabled_is_safe (sql : string) :
  Guard._check_sql_security false sql
  = Some {| Guard.is_safe := true; Guard.security_issues := [] |}.
Proof. reflexivity. Qed.

(** A verdict is unsafe exactly when it lists an issue. *)
Lemma verdict_safe_iff_no_issue (enabled : bool) (sql : string) (v : Guard.verdict) :
  Guard._check_sql_security enabled sql = Some v ->
  Guard.is_safe v = true <-> Guard.security_issues v = [].
Proof.
  unfold Guard._check_sql_security. destruct enabled; cbn [negb].
  - destruct (Guard.collect _ Guard.dangerous_operations) as [high|]; [|discriminate].
    cbn. destruct (Guard.collect _ _) as [medium|]; [|discriminate].
    cbn. intros [= <-]. cbn. destruct (high ++ medium)%list; cbn; split; congruence.
  - intros [= <-]. cbn. tauto.
Qed.

Lemma verdict_safe_iff_no_issue_witness :
  Guard.is_safe
    {| Guard.is_safe := false;
       Guard.security_issues :=
         [ {| Guard.operation := "drop";
              Guard.description := "DROP TABLE/DATABASE operation";
              Guard.severity := "High" |} ] |} = true
  <-> Guard.security_issues
        {| Guard.is_safe := false;
           Guard.security_issues :=
             [ {| Guard.operation := "drop";
                  Guard.description := "DROP TABLE/DATABASE operation";
                  Guard.severity := "High" |} ] |} = [].
Proof.
  apply (verdict_safe_iff_no_issue true "DROP TABLE t"). vm_compute. reflexivity.
Defined.

(** ** The result normalizer *)

Section NormalizerFacts.
Import Row.

(** Induction on values, through the lists inside them. *)
Section ValueInduction.

Variable P : value -> Prop.
Hypothesis HNone : P VNone.
Hypothesis HBool : forall b, P (VBool b).
Hypothesis HInt : forall n, P (VInt n).
Hypothesis HFloat : forall text, P (VFloat text).
Hypothesis HStr : forall s, P (VStr s).
Hypothesis HTemporal : forall kind iso, P (VTemporal kind iso).
Hypothesis HDecimal : forall text, P (VDecimal text).
Hypothesis HList : forall l, Forall P l -> P (VList l).
Hypothesis HTuple : forall l, Forall P l -> P (VTuple l).
Hypothesis HNamedTuple :
  forall fields, Forall (fun kv => P (snd kv)) fields -> P (VNamedTuple fields).
Hypothesis HDict :
  forall items, Forall (fun kv => P (snd kv)) items -> P (VDict items).

Fixpoint value_nested_ind (v : value) : P v :=
  let all :=
    fix all (l : list value) : Forall P l :=
      match l with
      | [] => @List.Forall_nil _ P
      | x :: l' => @List.Forall_cons _ P x l' (value_nested_ind x) (all l')
      end in
  let all_items :=
    fix all_items (l : list (string * value)) : Forall (fun kv => P (snd kv)) l :=
      match l with
      | [] => @List.Forall_nil _ (fun kv => P (snd kv))
      | kv :: l' =>
          @List.Forall_cons _ (fun kv => P (snd kv)) kv l'
            (match kv return P (snd kv) with (_, x) => value_nested_ind x end)
            (all_items l')
      end in
  match v with
  | VNone => HNone
  | VBool b => HBool b
  | VInt n => HInt n
  | VFloat text => HFloat text
  | VStr s => HStr s
  | VTemporal kind iso => HTemporal kind iso
  | VDecimal text => HDecimal text
  | VList l => HList l (all l)
  | VTuple l => HTuple l (all l)
  | VNamedTuple fields => HNamedTuple fields (all_items fields)
  | VDict items => HDict items (all_items items)
  end.

End ValueInduction.

Lemma serialize_list (l : list value) :
  serialize_value (VList l) = VList (map serialize_item l).
Proof. reflexivity. Qed.

Lemma serialize_tuple (l : list value) :
  serialize_value (VTuple l) = VList (map serialize_item l).
Proof. reflexivity. Qed.

Lemma serialize_namedtuple (fields : list (string * value)) :
  serialize_value (VNamedTuple fields)
  = VList (map (fun kv => serialize_item (snd kv)) fields).
Proof. cbn. f_equal. apply map_ext. intros [k x]. reflexivity. Qed.

Lemma serialize_dict (items : list (string * value)) :
  serialize_value (VDict items)
  = VDict (map (fun kv => (fst kv, serialize_value (snd kv))) items).
Proof.
  cbn. f_equal. apply map_ext. intros [k x]. reflexivity.
Qed.

Lemma serialize_item_twice (x : value) :
  serialize_value (serialize_value x) = serialize_value x ->
  serialize_item (serialize_item x) = serialize_item x.
Proof.
  destruct x; try reflexivity. intros H.
  change (serialize_item (VDict items)) with (serialize_value (VDict items)).
  rewrite serialize_dict. cbn [serialize_item]. rewrite <- serialize_dict. exact H.
Qed.

(** Normalizing twice is normalizing once. *)
Lemma serialize_value_idempotent (v : value) :
  serialize_value (serialize_value v) = serialize_value v.
Proof.
  induction v as [| | | | | | |l IH|l IH|fields IH|items IH] using value_nested_ind;
    try reflexivity.
  - rewrite !serialize_list. f_equal. rewrite map_map. apply map_ext_Forall.
    eapply Forall_impl; [exact IH|]. intros x Hx. apply serialize_item_twice, Hx.
  - rewrite serialize_tuple, serialize_list. f_equal. rewrite map_map. apply map_ext_Forall.
    eapply Forall_impl; [exact IH|]. intros x Hx. apply serialize_item_twice, Hx.
  - rewrite serialize_namedtuple, serialize_list. f_equal. rewrite map_map. apply map_ext_Forall.
    eapply Forall_impl; [exact IH|]. intros [k x] Hx. apply serialize_item_twice, Hx.
  - rewrite !serialize_dict. f_equal. rewrite map_map. apply map_ext_Forall.
    eapply Forall_impl; [exact IH|]. intros [k x] Hx. cbn [fst snd] in *.
    rewrite Hx. reflexivity.
Qed.

(** A row with a decimal and a date, and its second normalization. *)
Lemma serialize_row_example :
  _serialize_row_data
    (VDict [("id", VInt 7); ("amount", VDecimal "12.50");
            ("day", VTemporal Date "2024-01-01"); ("note", VNone)])
  = Exc.Return
      (VDict [("id", VInt 7); ("amount", VFloat "12.50");
              ("day", VStr "2024-01-01"); ("note", VNone)])
  /\ _serialize_row_data
       (VDict [("id", VInt 7); ("amount", VFloat "12.50");
               ("day", VStr "2024-01-01"); ("note", VNone)])
     = Exc.Return
         (VDict [("id", VInt 7); ("amount", VFloat "12.50");
                 ("day", VStr "2024-01-01"); ("note", VNone)]).
Proof. split; reflexivity. Qed.

End NormalizerFacts.

(** ** The query pipeline *)

Section PipelineFacts.

Variable enabled : bool.
Variable DB_DATABASE : string.
Variable execution_time : Row.value.
Variable py_str : Row.value -> string.

Local Abbreviation pipeline execute_query :=
  (Executor.execute_sql_query enabled DB_DATABASE execute_query execution_time py_str).

(** The rewrite of lines 96-99, with the test for [limit] read on the
    whole lower-cased text: trimming changes nothing for it. *)
Lemma add_limit_cases (sql : string) (max_rows : Z) :
  Executor.add_limit sql max_rows =
  if Py.startswith "select" (Py.strip (Py.lower sql))
     && negb (Py.contains "limit" (Py.lower sql))
  then Py.rstrip_by (Ascii.eqb ";") sql ++ " LIMIT " ++ Py.str_of_int max_rows ++ ";"
  else sql.
Proof.
  unfold Executor.add_limit. rewrite (contains_strip_eq _ _ solid_limit). reflexivity.
Qed.

(** The backend is asked once at most, and then for the rewritten
    statement and the resolved database: two backends that answer this
    one question alike give the same response. *)
Lemma pipeline_asks_rewritten (eq1 eq2 : string -> string -> Exc.t Row.value)
    (sql : string) (db : option string) (rows : option Z) :
  eq1 (Executor.add_limit sql (default 1000 rows)) (default DB_DATABASE db)
  = eq2 (Executor.add_limit sql (default 1000 rows)) (default DB_DATABASE db) ->
  pipeline eq1 {| Executor.sql := Some sql; Executor.db_name := db;
                  Executor.max_rows := rows |}
  = pipeline eq2 {| Executor.sql := Some sql; Executor.db_name := db;
                    Executor.max_rows := rows |}.
Proof.
  intros Hagree. unfold Executor.execute_sql_query, Executor.execute_body.
  cbn [Executor.sql Executor.db_name Executor.max_rows].
  destruct sql as [|c sql']; [reflexivity|].
  destruct (Guard._check_sql_security enabled (String c sql')) as [v|]; [|reflexivity].
  destruct (negb (Guard.is_safe v)); [reflexivity|].
  rewrite Hagree. reflexivity.
Qed.

(** C3 (amended). A statement whose trimmed lower-cased text starts
    with "select" and whose text holds no "limit" gets its trailing
    semicolons removed and [" LIMIT <max_rows>;"] appended, terminator
    included: ["SELECT * FROM t"] with [max_rows = 50] becomes
    ["SELECT * FROM t LIMIT 50;"].  Every other statement, so every one
    with "limit" anywhere in its lower-cased text, stays as it is,
    whatever [max_rows]; and the rewritten text is what the backend is
    asked. *)
Theorem limit_injection (sql : string) (max_rows : Z)
    (eq1 eq2 : string -> string -> Exc.t Row.value) (db : option string) :
  eq1 (Executor.add_limit sql max_rows) (default DB_DATABASE db)
  = eq2 (Executor.add_limit sql max_rows) (default DB_DATABASE db) ->
  Executor.add_limit sql max_rows =
    (if Py.startswith "select" (Py.strip (Py.lower sql))
        && negb (Py.contains "limit" (Py.lower sql))
     then Py.rstrip_by (Ascii.eqb ";") sql ++ " LIMIT " ++ Py.str_of_int max_rows ++ ";"
     else sql)
  /\ Executor.add_limit "SELECT * FROM t" 50 = "SELECT * FROM t LIMIT 50;"
  /\ Executor.add_limit "SELECT * FROM t LIMIT 10" max_rows = "SELECT * FROM t LIMIT 10"
  /\ pipeline eq1 {| Executor.sql := Some sql; Executor.db_name := db;
                     Executor.max_rows := Some max_rows |}
     = pipeline eq2 {| Executor.sql := Some sql; Executor.db_name := db;
                       Executor.max_rows := Some max_rows |}.
Proof.
  intros Hagree. split; [apply add_limit_cases|].
  split; [reflexivity|]. split; [reflexivity|].
  apply pipeline_asks_rewritten. exact Hagree.
Qed.

(** C4. When the statement passes the guard and the backend answers
    the rewritten statement with an empty list, without raising, the
    response is the failure payload of the error handler: [success] is
    false, the error is the [IndexError] of [result[0]], classified
    "unknown". *)
Theorem empty_rows_give_failure
    (execute_query : string -> string -> Exc.t Row.value)
    (sql : string) (db : option string) (rows : option Z) (v : Guard.verdict) :
  sql <> EmptyString ->
  Guard._check_sql_security enabled sql = Some v ->
  Guard.is_safe v = true ->
  execute_query (Executor.add_limit sql (default 1000 rows)) (default DB_DATABASE db)
  = Exc.Return (Row.VList []) ->
  pipeline execute_query
    {| Executor.sql := Some sql; Executor.db_name := db; Executor.max_rows := rows |}
  = Executor.TextContent
      (Row.VDict
         [("success", Row.VBool false);
          ("error", Row.VStr "list index out of range");
          ("error_details",
           Row.VDict
             [("type", Row.VStr "unknown");
              ("suggestion",
               Row.VStr "Please check the SQL statement and try simplifying the query")]);
          ("sql", Row.VStr (Executor.add_limit sql (default 1000 rows)));
          ("db_name", Row.VStr (default DB_DATABASE db))]).
Proof.
  intros Hne Hguard Hsafe Hrows.
  unfold Executor.execute_sql_query, Executor.execute_body.
  cbn [Executor.sql Executor.db_name Executor.max_rows].
  destruct sql as [|c sql']; [congruence|].
  rewrite Hguard, Hsafe. cbn [negb]. rewrite Hrows.
  reflexivity.
Qed.

(** Without a statement, or with the empty one, the request is
    rejected before anything else happens. *)
Lemma missing_sql_is_rejected
    (execute_query : string -> string -> Exc.t Row.value)
    (db : option string) (rows : option Z) :
  pipeline execute_query
    {| Executor.sql := None; Executor.db_name := db; Executor.max_rows := rows |}
  = Executor.TextContent Executor.missing_sql
  /\ pipeline execute_query
       {| Executor.sql := Some ""; Executor.db_name := db; Executor.max_rows := rows |}
     = Executor.TextContent Executor.missing_sql.
Proof. split; reflexivity. Qed.

(** A statement the guard finds unsafe is answered with the issues,
    whatever the backend would have said. *)
Lemma unsafe_sql_is_refused
    (execute_query : string -> string -> Exc.t Row.value)
    (sql : string) (db : option string) (rows : option Z) (v : Guard.verdict) :
  sql <> EmptyString ->
  Guard._check_sql_security enabled sql = Some v ->
  Guard.is_safe v = false ->
  pipeline execute_query
    {| Executor.sql := Some sql; Executor.db_name := db; Executor.max_rows := rows |}
  = Executor.TextContent (Executor.security_failed (Guard.security_issues v)).
Proof.
  intros Hne Hguard Hunsafe.
  unfold Executor.execute_sql_query, Executor.execute_body.
  cbn [Executor.sql Executor.db_name Executor.max_rows].
  destruct sql as [|c sql']; [congruence|].
  rewrite Hguard, Hunsafe. reflexivity.
Qed.

(** The classification of a backend error follows the first keyword
    found in its lower-cased message. *)
Lemma error_classification :
  Row.dict_get "type" (Executor.error_details "Query TIMEOUT exceeded")
  = Some (Row.VStr "timeout")
  /\ Row.dict_get "type" (Executor.error_details "You have an error in your SQL syntax")
     = Some (Row.VStr "syntax")
  /\ Row.dict_get "type" (Executor.error_details "Table 'db.t' doesn't exist")
     = Some (Row.VStr "not_found")
  /\ Row.dict_get "type" (Executor.error_details "Unknown column not found, syntax")
     = Some (Row.VStr "syntax")
  /\ Row.dict_get "type" (Executor.error_details "connection refused")
     = Some (Row.VStr "unknown").
Proof. repeat split; vm_compute; reflexivity. Qed.

End PipelineFacts.

Lemma limit_injection_witness :
  Executor.execute_sql_query true "demo"
    (Demo.one_statement_backend "SELECT * FROM t LIMIT 50;") (Row.VFloat "0.01")
    (fun _ => "")
    {| Executor.sql := Some "SELECT * FROM t"; Executor.db_name := None;
       Executor.max_rows := Some 50 |}
  = Executor.execute_sql_query true "demo"
      (fun _ _ => Exc.Return (Row.VList [Row.VDict [("id", Row.VInt 1)]]))
      (Row.VFloat "0.01") (fun _ => "")
      {| Executor.sql := Some "SELECT * FROM t"; Executor.db_name := None;
         Executor.max_rows := Some 50 |}.
Proof.
  apply (limit_injection true "demo" (Row.VFloat "0.01") (fun _ => "")
           "SELECT * FROM t" 50
           (Demo.one_statement_backend "SELECT * FROM t LIMIT 50;")
           (fun _ _ => Exc.Return (Row.VList [Row.VDict [("id", Row.VInt 1)]]))
           None).
  reflexivity.
Defined.

(** The statement of C3 as the claim has it fails: the rewritten text
    ends in the terminator. *)
Lemma limit_injection_counterexample :
  Executor.add_limit "SELECT * FROM t" 50 = "SELECT * FROM t LIMIT 50;"
  /\ Executor.add_limit "SELECT * FROM t" 50 <> "SELECT * FROM t LIMIT 50".
Proof. split; [reflexivity | discriminate]. Qed.

Lemma empty_rows_give_failure_witness :
  Executor.execute_sql_query true "demo" (fun _ _ => Exc.Return (Row.VList []))
    (Row.VFloat "0.01") (fun _ => "")
    {| Executor.sql := Some "SELECT * FROM t"; Executor.db_name := Some "sales";
       Executor.max_rows := None |}
  = Executor.TextContent
      (Row.VDict
         [("success", Row.VBool false);
          ("error", Row.VStr "list index out of range");
          ("error_details",
           Row.VDict
             [("type", Row.VStr "unknown");
              ("suggestion",
               Row.VStr "Please check the SQL statement and try simplifying the query")]);
          ("sql", Row.VStr "SELECT * FROM t LIMIT 1000;");
          ("db_name", Row.VStr "sales")]).
Proof.
  apply (empty_rows_give_failure true "demo" (Row.VFloat "0.01") (fun _ => "")
           (fun _ _ => Exc.Return (Row.VList [])) "SELECT * FROM t" (Some "sales") None
           {| Guard.is_safe := true; Guard.security_issues := [] |});
    [discriminate | reflexivity | reflexivity | reflexivity].
Defined.

Lemma unsafe_sql_is_refused_witness :
  Executor.execute_sql_query true "demo"
    (fun _ _ => Exc.Return (Row.VList [Row.VDict [("id", Row.VInt 1)]]))
    (Row.VFloat "0.01") (fun _ => "")
    {| Executor.sql := Some "DROP TABLE t"; Executor.db_name := None;
       Executor.max_rows := None |}
  = Executor.TextContent
      (Executor.security_failed
         [ {| Guard.operation := "drop";
              Guard.description := "DROP TABLE/DATABASE operation";
              Guard.severity := "High" |} ]).
Proof.
  apply (unsafe_sql_is_refused true "demo" (Row.VFloat "0.01") (fun _ => "")
           (fun _ _ => Exc.Return (Row.VList [Row.VDict [("id", Row.VInt 1)]]))
           "DROP TABLE t" None None
           {| Guard.is_safe := false;
              Guard.security_issues :=
                [ {| Guard.operation := "drop";
                     Guard.description := "DROP TABLE/DATABASE operation";
                     Guard.severity := "High" |} ] |});
    [discriminate | vm_compute; reflexivity | reflexivity].
Defined.

(** ** The table hierarchy classifier *)

Section HierarchyFacts.

Variable regex_match : string -> string -> bool.

Lemma sorted_permutation (l : list string) : Catalog.sorted l ≡ₚ l.
Proof. apply merge_sort_Permutation. Qed.

(** What one pattern takes out of the set, and what it leaves. *)
Lemma elements_split (pattern : string) (remaining : gset string) :
  let matching :=
    filter (fun table => regex_match pattern table = true) (elements remaining) in
  elements remaining ≡ₚ matching ++ elements (remaining ∖ list_to_set matching).
Proof.
  intros matching. apply NoDup_Permutation.
  - apply NoDup_elements.
  - apply NoDup_app. split; [|split].
    + apply NoDup_filter, NoDup_elements.
    + intros x Hx. rewrite elem_of_elements, elem_of_difference, elem_of_list_to_set.
      tauto.
    + apply NoDup_elements.
  - intros x. rewrite elem_of_app, !elem_of_elements, elem_of_difference,
      elem_of_list_to_set. unfold matching.
    rewrite list_elem_of_filter, elem_of_elements.
    destruct (regex_match pattern x); intuition congruence.
Qed.

(** A turn of the loop moves tables from the set to the groups and
    neither loses nor repeats one. *)
Lemma hierarchy_step_keeps (acc : list (list string) * gset string) (pattern : string) :
  concat (fst (Catalog.hierarchy_step regex_match acc pattern))
    ++ elements (snd (Catalog.hierarchy_step regex_match acc pattern))
  ≡ₚ concat (fst acc) ++ elements (snd acc).
Proof.
  destruct acc as [groups remaining]. unfold Catalog.hierarchy_step.
  pose proof (elements_split pattern remaining) as Hsplit. simpl in Hsplit.
  set (matching := filter _ (elements remaining)) in *.
  destruct matching as [|t matching'] eqn:Hm; cbn [fst snd].
  - apply Permutation_app_head. symmetry. exact Hsplit.
  - rewrite concat_app. cbn [concat]. rewrite app_nil_r, <- app_assoc.
    apply Permutation_app_head. rewrite sorted_permutation. symmetry. exact Hsplit.
Qed.

Lemma hierarchy_fold_keeps (patterns : list string)
    (acc : list (list string) * gset string) :
  concat (fst (fold_left (Catalog.hierarchy_step regex_match) patterns acc))
    ++ elements (snd (fold_left (Catalog.hierarchy_step regex_match) patterns acc))
  ≡ₚ concat (fst acc) ++ elements (snd acc).
Proof.
  revert acc. induction patterns as [|pattern patterns IH]; intros acc; [reflexivity|].
  cbn [fold_left]. rewrite IH. apply hierarchy_step_keeps.
Qed.

(** The groups hold the distinct tables of the input, each once. *)
Lemma hierarchy_groups_distinct (patterns tables : list string) :
  concat (Catalog.hierarchy_groups patterns regex_match tables)
  ≡ₚ elements (list_to_set tables : gset string).
Proof.
  unfold Catalog.hierarchy_groups.
  pose proof (hierarchy_fold_keeps patterns ([], list_to_set tables)) as H.
  destruct (fold_left _ patterns _) as [groups remaining]. cbn [fst snd concat app] in H.
  rewrite <- H. destruct (elements remaining) as [|t rest] eqn:Hr.
  - rewrite app_nil_r. reflexivity.
  - rewrite concat_app. cbn [concat]. rewrite app_nil_r, sorted_permutation. reflexivity.
Qed.

(** C8 (amended).  For every input and every pattern list: with the
    flag off, or without patterns, the classifier returns the input as
    given.  When the input has no table twice, the output is a
    permutation of the input, holds every table of the input, and the
    sizes of the groups add up to the length of the input.  When the
    classifier is at work, the output holds the tables of the input
    and no table twice, so that a table named more than once in the
    input stands once in the output, and the sizes of the groups add
    up to the number of distinct tables. *)
Theorem hierarchy_sort_is_permutation (enable : bool) (patterns tables : list string) :
  (enable = false \/ patterns = [] ->
   Catalog._sort_tables_by_hierarchy enable patterns regex_match tables = tables)
  /\ (NoDup tables ->
      Catalog._sort_tables_by_hierarchy enable patterns regex_match tables ≡ₚ tables
      /\ list_sum (map (@List.length string)
                      (Catalog.hierarchy_groups patterns regex_match tables))
         = List.length tables
      /\ (forall x,
            x ∈ Catalog._sort_tables_by_hierarchy enable patterns regex_match tables
            <-> x ∈ tables))
  /\ (enable = true -> patterns <> [] ->
      NoDup (Catalog._sort_tables_by_hierarchy enable patterns regex_match tables)
      /\ (forall x,
            x ∈ Catalog._sort_tables_by_hierarchy enable patterns regex_match tables
            <-> x ∈ tables)
      /\ list_sum (map (@List.length string)
                      (Catalog.hierarchy_groups patterns regex_match tables))
         = List.length (elements (list_to_set tables : gset string))).
Proof.
  split; [|split].
  - intros [-> | ->]; unfold Catalog._sort_tables_by_hierarchy; [reflexivity|].
    rewrite orb_true_r. reflexivity.
  - intros Hnodup.
    assert (Hgroups : concat (Catalog.hierarchy_groups patterns regex_match tables)
                      ≡ₚ tables).
    { rewrite hierarchy_groups_distinct. apply elements_list_to_set. exact Hnodup. }
    assert (Hsort : Catalog._sort_tables_by_hierarchy enable patterns regex_match tables
                    ≡ₚ tables).
    { unfold Catalog._sort_tables_by_hierarchy.
      destruct (negb enable || _); [reflexivity | exact Hgroups]. }
    split; [exact Hsort|]. split.
    + rewrite <- length_concat. apply Permutation_length. exact Hgroups.
    + intros x. rewrite Hsort. reflexivity.
  - intros -> Hpatterns. unfold Catalog._sort_tables_by_hierarchy. cbn [negb orb].
    destruct patterns as [|pattern patterns']; [contradiction|].
    split; [|split].
    + rewrite hierarchy_groups_distinct. apply NoDup_elements.
    + intros x. rewrite hierarchy_groups_distinct, elem_of_elements,
        elem_of_list_to_set. reflexivity.
    + rewrite <- length_concat. apply Permutation_length.
      apply hierarchy_groups_distinct.
Qed.

(** Whatever the input, the output has no table twice once the
    classifier is at work. *)
Lemma hierarchy_sort_distinct (pattern : string) (patterns tables : list string) :
  NoDup (Catalog._sort_tables_by_hierarchy true (pattern :: patterns) regex_match tables)
  /\ forall x,
       x ∈ Catalog._sort_tables_by_hierarchy true (pattern :: patterns) regex_match tables
       <-> x ∈ tables.
Proof.
  unfold Catalog._sort_tables_by_hierarchy. cbn [negb orb].
  split.
  - rewrite hierarchy_groups_distinct. apply NoDup_elements.
  - intros x. rewrite hierarchy_groups_distinct, elem_of_elements, elem_of_list_to_set.
    reflexivity.
Qed.

End HierarchyFacts.

(** Two patterns that match, read as prefixes, and a table that no
    pattern matches; first without a repeated name, then with one. *)
Lemma hierarchy_sort_is_permutation_witness :
  (Catalog._sort_tables_by_hierarchy true ["ads_"; "dim_"] Py.startswith
     ["dim_b"; "x"; "ads_a"; "dim_a"]
   ≡ₚ ["dim_b"; "x"; "ads_a"; "dim_a"]
   /\ list_sum (map (@List.length string)
                   (Catalog.hierarchy_groups ["ads_"; "dim_"] Py.startswith
                      ["dim_b"; "x"; "ads_a"; "dim_a"]))
      = List.length ["dim_b"; "x"; "ads_a"; "dim_a"]
   /\ (forall x,
         x ∈ Catalog._sort_tables_by_hierarchy true ["ads_"; "dim_"] Py.startswith
               ["dim_b"; "x"; "ads_a"; "dim_a"]
         <-> x ∈ ["dim_b"; "x"; "ads_a"; "dim_a"]))
  /\ (NoDup (Catalog._sort_tables_by_hierarchy true ["ads_"; "dim_"] Py.startswith
               ["dim_b"; "x"; "ads_a"; "dim_b"])
      /\ (forall x,
            x ∈ Catalog._sort_tables_by_hierarchy true ["ads_"; "dim_"] Py.startswith
                  ["dim_b"; "x"; "ads_a"; "dim_b"]
            <-> x ∈ ["dim_b"; "x"; "ads_a"; "dim_b"])
      /\ list_sum (map (@List.length string)
                      (Catalog.hierarchy_groups ["ads_"; "dim_"] Py.startswith
                         ["dim_b"; "x"; "ads_a"; "dim_b"]))
         = List.length
             (elements (list_to_set ["dim_b"; "x"; "ads_a"; "dim_b"] : gset string))).
Proof.
  split.
  - apply (hierarchy_sort_is_permutation Py.startswith true ["ads_"; "dim_"]
             ["dim_b"; "x"; "ads_a"; "dim_a"]).
    apply (bool_decide_unpack (NoDup ["dim_b"; "x"; "ads_a"; "dim_a"])).
    vm_compute. exact I.
  - apply (hierarchy_sort_is_permutation Py.startswith true ["ads_"; "dim_"]
             ["dim_b"; "x"; "ads_a"; "dim_b"]); [reflexivity | discriminate].
Defined.

(** The statement of C8 as the claim has it fails on a list that names
    a table twice: the set drops the repeat. *)
Lemma hierarchy_sort_counterexample :
  Catalog._sort_tables_by_hierarchy true ["^.*$"] (fun _ _ => true) ["a"; "a"] = ["a"]
  /\ ~ (["a"] ≡ₚ ["a"; "a"]).
Proof.
  split; [vm_compute; reflexivity|].
  intros H. apply Permutation_length in H. discriminate.
Qed.

(** ** The database router *)

Section RouterFacts.
Import Catalog.

Lemma startswith_app (p rest : string) : Py.startswith p (p ++ rest) = true.
Proof.
  induction p as [|a p IH]; simpl; [destruct rest; reflexivity|].
  rewrite Ascii.eqb_refl. exact IH.
Qed.

Lemma drop_chars_app (p rest : string) :
  Py.drop_chars (String.length p) (p ++ rest) = rest.
Proof. induction p as [|a p IH]; simpl; [destruct rest; reflexivity | exact IH]. Qed.

(** A name with the qualifier in front goes to the MySQL function, by
    the rest of the name. *)
Lemma route_prefixed (mysql doris : backend) (q : string -> query)
    (with_db : bool) (rest : string) :
  route mysql doris q with_db (catalog_prefix ++ rest)
  = {| target := mysql; statement := q rest;
       database := if with_db then Some rest else None |}.
Proof.
  unfold route.
  assert (Hc : Py.contains catalog_prefix (catalog_prefix ++ rest) = true)
    by (apply startswith_contains, startswith_app).
  assert (Hr : Py.removeprefix catalog_prefix (catalog_prefix ++ rest) = rest)
    by (unfold Py.removeprefix; rewrite startswith_app; apply drop_chars_app).
  rewrite Hc, Hr. reflexivity.
Qed.

(** A name without the qualifier anywhere goes to the Doris function,
    as it is. *)
Lemma route_plain (mysql doris : backend) (q : string -> query)
    (with_db : bool) (db_name : string) :
  Py.contains catalog_prefix db_name = false ->
  route mysql doris q with_db db_name
  = {| target := doris; statement := q db_name;
       database := if with_db then Some db_name else None |}.
Proof. intros H. unfold route. rewrite H. reflexivity. Qed.

(** A name with the qualifier further in goes to the MySQL function
    too, by the whole name. *)
Lemma route_inner (mysql doris : backend) (q : string -> query)
    (with_db : bool) (db_name : string) :
  Py.contains catalog_prefix db_name = true ->
  Py.startswith catalog_prefix db_name = false ->
  route mysql doris q with_db db_name
  = {| target := mysql; statement := q db_name;
       database := if with_db then Some db_name else None |}.
Proof.
  intros Hc Hs. unfold route, Py.removeprefix. rewrite Hc, Hs. reflexivity.
Qed.

End RouterFacts.

(** C2 (the code at the failing input).  The name
    ["x.mysql_catalog_bigdata.y"] does not start with the qualifier and
    yet both operations send their statement to the MySQL function,
    for the schema ["x.mysql_catalog_bigdata.y"]. *)
Theorem inner_qualifier_goes_to_mysql :
  Py.startswith Catalog.catalog_prefix "x.mysql_catalog_bigdata.y" = false
  /\ Catalog.trace
       (snd (Catalog.get_database_tables "main" 3600 false [] (fun _ _ => false)
               Demo.clock Demo.answer (Some "x.mysql_catalog_bigdata.y")
               Catalog.initial))
     = [ {| Catalog.target := Catalog.Mysql;
            Catalog.statement := Catalog.TablesOf "x.mysql_catalog_bigdata.y";
            Catalog.database := Some "x.mysql_catalog_bigdata.y" |} ]
  /\ last (Catalog.trace
             (snd (Catalog.get_table_schema "main" 3600 Demo.clock Demo.answer
                     Demo.isoformat "t" (Some "x.mysql_catalog_bigdata.y")
                     Catalog.initial)))
     = Some {| Catalog.target := Catalog.Mysql;
               Catalog.statement := Catalog.ColumnsOf "x.mysql_catalog_bigdata.y" "t";
               Catalog.database := None |}.
Proof. repeat split; vm_compute; reflexivity. Qed.

(** ** The metadata cache *)

Section CacheFacts.
Import Row Catalog.

Variable self_db_name : string.
Variable cache_ttl : Z.
Variable clock : nat -> Z.
Variable answer : nat -> call -> Exc.t (list row).
Variable isoformat : Z -> string.

Lemma cache_lookup_absent (key : string) (st : state) :
  metadata_cache st !! key = None ->
  cache_lookup cache_ttl clock key st = (Exc.Return None, st).
Proof. intros H. unfold cache_lookup. rewrite H. reflexivity. Qed.

Lemma cache_lookup_fresh (key : string) (st : state) (v : value) :
  metadata_cache st !! key = Some v ->
  clock (ticks st) - default 0 (metadata_cache_time st !! key) < cache_ttl * 1000000 ->
  cache_lookup cache_ttl clock key st = (Exc.Return (Some v), tick st).
Proof.
  intros H Hlt. unfold cache_lookup. rewrite H. unfold bind, now, ret, within_ttl.
  apply Z.ltb_lt in Hlt. rewrite Hlt. reflexivity.
Qed.

Lemma cache_lookup_stale (key : string) (st : state) (v : value) :
  metadata_cache st !! key = Some v ->
  cache_ttl * 1000000 <= clock (ticks st) - default 0 (metadata_cache_time st !! key) ->
  cache_lookup cache_ttl clock key st = (Exc.Return None, tick st).
Proof.
  intros H Hle. unfold cache_lookup. rewrite H. unfold bind, now, ret, within_ttl.
  apply Z.ltb_ge in Hle. rewrite Hle. reflexivity.
Qed.

(** [get_table_comment] always returns, and adds calls to the trace only. *)
Lemma get_table_comment_returns (table : string) (db : option string) (st : state) :
  exists v st' later,
    get_table_comment self_db_name cache_ttl clock answer table db st
    = (Exc.Return v, st')
    /\ trace st' = (later ++ trace st)%list.
Proof.
  unfold get_table_comment. destruct (String.eqb _ _).
  { exists (VStr ""), st, []. split; reflexivity. }
  unfold bind at 1. unfold cache_lookup.
  destruct (metadata_cache st !! _) as [v|].
  - unfold bind, now, ret. destruct (within_ttl _ _).
    + exists v, (tick st), []. split; reflexivity.
    + unfold try_except, routed, execute, perform, cache_store.
      destruct (answer _ _) as [e|rows].
      * eexists _, _, [_]. split; reflexivity.
      * eexists _, _, [_]. split; reflexivity.
  - unfold try_except, bind, routed, execute, perform, cache_store, ret.
    destruct (answer _ _) as [e|rows].
    + eexists _, _, [_]. split; reflexivity.
    + eexists _, _, [_]. split; reflexivity.
Qed.

(** So does the inner [try] of [get_table_schema]. *)
Lemma table_type_entries_returns (table db : string) (st : state) :
  exists extra st' later,
    table_type_entries answer table db st = (Exc.Return extra, st')
    /\ trace st' = (later ++ trace st)%list
    /\ metadata_cache st' = metadata_cache st
    /\ metadata_cache_time st' = metadata_cache_time st.
Proof.
  unfold table_type_entries, try_except, bind, execute, perform, raise, ret.
  destruct (Py.contains _ _).
  - destruct (answer _ _); eexists _, _, [_]; repeat split; reflexivity.
  - destruct (answer _ _) as [e|[|first rest]];
      eexists _, _, [_]; repeat split; reflexivity.
Qed.

Local Abbreviation asked table db :=
  (route Mysql Doris (fun s => ColumnsOf s table) false db).

Local Abbreviation compute :=
  (compute_table_schema self_db_name cache_ttl clock answer isoformat).

(** Without columns, or with an error, the lookup gives the empty
    schema and writes nothing. *)
Lemma compute_without_columns (table db : string) (st : state) :
  (answer (List.length (trace st)) (asked table db) = Exc.Return []
   \/ exists e, answer (List.length (trace st)) (asked table db) = Exc.Raise e) ->
  compute table db st = (Exc.Return (VDict []), logged (asked table db) st).
Proof.
  intros H. unfold compute_table_schema, try_except, routed, perform.
  unfold bind at 1.
  destruct H as [H | [e H]]; rewrite H; reflexivity.
Qed.

(** With columns, the lookup builds the schema from them, in their
    order, and writes it under the key, at the time it reads last. *)
Lemma compute_with_columns (table db : string) (st : state)
    (r : row) (rows : list row) :
  answer (List.length (trace st)) (asked table db) = Exc.Return (r :: rows) ->
  exists s st' later,
    compute table db st = (Exc.Return s, st')
    /\ dict_get "columns" s = Some (VList (map column_info (r :: rows)))
    /\ metadata_cache st' !! schema_key db table = Some s
    /\ metadata_cache_time st' !! schema_key db table
       = Some (clock (Nat.pred (ticks st')))
    /\ trace st' = (later ++ asked table db :: trace st)%list.
Proof.
  intros H. unfold compute_table_schema, try_except, routed, perform.
  unfold bind at 1. rewrite H.
  destruct (get_table_comment_returns table (Some db) (logged (asked table db) st))
    as (comment & st2 & l2 & E2 & T2).
  unfold bind at 1. rewrite E2.
  unfold bind at 1. unfold now at 1.
  destruct (table_type_entries_returns table db (tick st2))
    as (extra & st4 & l4 & E4 & T4 & _ & _).
  unfold bind at 1. rewrite E4.
  unfold bind, cache_store, ret.
  eexists _, _, (l4 ++ l2)%list. split; [reflexivity|].
  split; [reflexivity|]. cbn [stored metadata_cache metadata_cache_time ticks trace].
  split; [apply lookup_insert_eq|]. split; [apply lookup_insert_eq|].
  rewrite T4. cbn [tick trace]. rewrite T2. cbn [logged trace].
  rewrite <- app_assoc. reflexivity.
Qed.

Local Abbreviation schema :=
  (get_table_schema self_db_name cache_ttl clock answer isoformat).

(** On a miss the operation is the lookup at the backend. *)
Lemma schema_on_miss (table : string) (db : option string) (st : state) :
  resolve_db self_db_name db <> "" ->
  metadata_cache st !! schema_key (resolve_db self_db_name db) table = None
  \/ cache_ttl * 1000000
     <= clock (ticks st)
        - default 0 (metadata_cache_time st
                       !! schema_key (resolve_db self_db_name db) table) ->
  exists st0,
    schema table db st = compute table (resolve_db self_db_name db) st0
    /\ trace st0 = trace st
    /\ metadata_cache st0 = metadata_cache st
    /\ metadata_cache_time st0 = metadata_cache_time st.
Proof.
  intros Hdb Hmiss. unfold get_table_schema.
  destruct (String.eqb_spec (resolve_db self_db_name db) "") as [E|_]; [contradiction|].
  unfold bind at 1.
  destruct (metadata_cache st !! schema_key (resolve_db self_db_name db) table)
    as [v|] eqn:Hv.
  - destruct Hmiss as [Hnone | Hstale]; [discriminate|].
    rewrite (cache_lookup_stale _ _ _ Hv Hstale).
    exists (tick st). repeat split; reflexivity.
  - rewrite (cache_lookup_absent _ _ Hv).
    exists st. repeat split; reflexivity.
Qed.

(** The window of [get_table_schema]: an entry that is younger than
    the TTL is returned as it is; without an entry, or with one as old
    as the TTL or older, the backend is asked for the columns, and when
    columns come back the schema built from them is written over the
    entry with the time of writing.  When no columns come back, or the
    backend fails, nothing is written. *)
Lemma schema_window (table : string) (db : option string) (st : state) :
  resolve_db self_db_name db <> "" ->
  (forall v,
     metadata_cache st !! schema_key (resolve_db self_db_name db) table = Some v ->
     clock (ticks st)
     - default 0 (metadata_cache_time st
                    !! schema_key (resolve_db self_db_name db) table)
     < cache_ttl * 1000000 ->
     schema table db st = (Exc.Return v, tick st))
  /\ (metadata_cache st !! schema_key (resolve_db self_db_name db) table = None
      \/ cache_ttl * 1000000
         <= clock (ticks st)
            - default 0 (metadata_cache_time st
                           !! schema_key (resolve_db self_db_name db) table) ->
      (exists later,
         trace (snd (schema table db st))
         = (later ++ asked table (resolve_db self_db_name db) :: trace st)%list)
      /\ (forall r rows,
            answer (List.length (trace st)) (asked table (resolve_db self_db_name db))
            = Exc.Return (r :: rows) ->
            exists s,
              fst (schema table db st) = Exc.Return s
              /\ dict_get "columns" s = Some (VList (map column_info (r :: rows)))
              /\ metadata_cache (snd (schema table db st))
                   !! schema_key (resolve_db self_db_name db) table = Some s
              /\ metadata_cache_time (snd (schema table db st))
                   !! schema_key (resolve_db self_db_name db) table
                 = Some (clock (Nat.pred (ticks (snd (schema table db st)))))
              /\ (clock (ticks (snd (schema table db st)))
                  - clock (Nat.pred (ticks (snd (schema table db st))))
                  < cache_ttl * 1000000 ->
                  schema table db (snd (schema table db st))
                  = (Exc.Return s, tick (snd (schema table db st)))))
      /\ (answer (List.length (trace st)) (asked table (resolve_db self_db_name db))
          = Exc.Return []
          \/ (exists e,
                answer (List.length (trace st))
                       (asked table (resolve_db self_db_name db))
                = Exc.Raise e) ->
          fst (schema table db st) = Exc.Return (VDict [])
          /\ metadata_cache (snd (schema table db st)) = metadata_cache st
          /\ metadata_cache_time (snd (schema table db st)) = metadata_cache_time st
          /\ trace (snd (schema table db st))
             = asked table (resolve_db self_db_name db) :: trace st)).
Proof.
  intros Hdb.
  assert (Hhit : forall st1 v,
     metadata_cache st1 !! schema_key (resolve_db self_db_name db) table = Some v ->
     clock (ticks st1)
     - default 0 (metadata_cache_time st1
                    !! schema_key (resolve_db self_db_name db) table)
     < cache_ttl * 1000000 ->
     schema table db st1 = (Exc.Return v, tick st1)).
  { intros st1 v Hv Hfresh. unfold get_table_schema.
    destruct (String.eqb_spec (resolve_db self_db_name db) "") as [E|_]; [contradiction|].
    unfold bind at 1. rewrite (cache_lookup_fresh _ _ _ Hv Hfresh). reflexivity. }
  split; [exact (Hhit st)|].
  intros Hmiss.
  destruct (schema_on_miss table db st Hdb Hmiss) as (st0 & -> & Ht & Hc & Hct).
  split; [|split].
  - destruct (answer (List.length (trace st0))
                     (asked table (resolve_db self_db_name db)))
      as [e|[|r rows]] eqn:Ha.
    + rewrite compute_without_columns by eauto. exists []. cbn. rewrite Ht. reflexivity.
    + rewrite compute_without_columns by eauto. exists []. cbn. rewrite Ht. reflexivity.
    + destruct (compute_with_columns table _ st0 r rows Ha)
        as (s & st' & later & -> & _ & _ & _ & Htr).
      exists later. cbn [snd]. rewrite Htr, Ht. reflexivity.
  - intros r rows Ha. rewrite <- Ht in Ha.
    destruct (compute_with_columns table _ st0 r rows Ha)
      as (s & st' & later & -> & Hcols & Hs & Hts & Htr).
    exists s. cbn [fst snd]. repeat split; try assumption.
    intros Hfresh. apply Hhit; [exact Hs|]. rewrite Hts. exact Hfresh.
  - intros Ha. rewrite <- Ht in Ha.
    rewrite (compute_without_columns _ _ _ Ha). cbn. rewrite Ht, Hc, Hct.
    repeat split; reflexivity.
Qed.

End CacheFacts.

(** ** The cache window of every operation *)

Section WindowFacts.
Import Row Catalog Window.

Variable self_db_name : string.
Variable cache_ttl : Z.
Variable enable_table_hierarchy : bool.
Variable table_hierarchy_patterns : list string.
Variable regex_match : string -> string -> bool.
Variable clock : nat -> Z.
Variable answer : nat -> call -> Exc.t (list row).
Variable isoformat : Z -> string.
Variable strftime_date : Z -> string.
Variable reply : nat -> Session.request -> Exc.t (list row).

Local Abbreviation lookup := (cache_lookup cache_ttl clock).

(** A miss leaves everything but the clock as it was. *)
Lemma lookup_missing (key : string) (st : state) :
  missing cache_ttl clock key st ->
  exists st0,
    lookup key st = (Exc.Return None, st0)
    /\ trace st0 = trace st
    /\ metadata_cache st0 = metadata_cache st
    /\ metadata_cache_time st0 = metadata_cache_time st.
Proof.
  intros [Habsent | Hstale].
  - exists st. rewrite (cache_lookup_absent _ _ _ _ Habsent). repeat split; reflexivity.
  - destruct (metadata_cache st !! key) as [v|] eqn:Hv.
    + exists (tick st). rewrite (cache_lookup_stale _ _ _ _ v Hv Hstale).
      repeat split; reflexivity.
    + exists st. rewrite (cache_lookup_absent _ _ _ _ Hv). repeat split; reflexivity.
Qed.

(** An operation that is served from the cache, and has written the
    value it returns, keeps it for the next invocation. *)
Lemma stores_written (op : M value) (key : string) (v : value) (st st1 : state) :
  (forall st2, served cache_ttl clock op key st2) ->
  op st = (Exc.Return v, stored key v (clock (ticks st1)) st1) ->
  stores cache_ttl clock op key v st.
Proof.
  intros Hserved E. unfold stores. rewrite E.
  cbn [fst snd stored metadata_cache metadata_cache_time ticks Nat.pred].
  split; [reflexivity|]. split; [apply lookup_insert_eq|].
  split; [apply lookup_insert_eq|].
  intros Hfresh. apply Hserved.
  - cbn. apply lookup_insert_eq.
  - unfold fresh. cbn [stored metadata_cache_time ticks].
    rewrite lookup_insert_eq. exact Hfresh.
Qed.

Lemma gives_up_after (op : M value) (c : call) (fallback : value) (st st0 : state) :
  trace st0 = trace st ->
  metadata_cache st0 = metadata_cache st ->
  metadata_cache_time st0 = metadata_cache_time st ->
  op st = (Exc.Return fallback, logged c st0) ->
  gives_up op c fallback st.
Proof.
  intros Ht Hc Hct E. unfold gives_up. rewrite E. cbn. rewrite Ht, Hc, Hct.
  repeat split; reflexivity.
Qed.

(** *** [get_table_comment] *)

Local Abbreviation comment := (get_table_comment self_db_name cache_ttl clock answer).
Local Abbreviation resolved db := (resolve_db self_db_name db).
Local Abbreviation comment_call table db :=
  (route Mysql Doris (fun s => TableCommentOf s table) false (resolved db)).

Lemma comment_served (table : string) (db : option string) (st : state) :
  resolved db <> "" ->
  served cache_ttl clock (comment table db) (table_comment_key (resolved db) table) st.
Proof.
  intros Hdb v Hv Hfresh. unfold get_table_comment.
  destruct (String.eqb_spec (resolved db) "") as [E|_]; [contradiction|].
  unfold bind at 1. rewrite (cache_lookup_fresh _ _ _ _ _ Hv Hfresh). reflexivity.
Qed.

Lemma comment_on_miss (table : string) (db : option string) (st : state) :
  resolved db <> "" ->
  missing cache_ttl clock (table_comment_key (resolved db) table) st ->
  exists st0,
    trace st0 = trace st
    /\ metadata_cache st0 = metadata_cache st
    /\ metadata_cache_time st0 = metadata_cache_time st
    /\ comment table db st
       = match answer (List.length (trace st)) (comment_call table db) with
         | Exc.Raise _ => (Exc.Return (VStr ""), logged (comment_call table db) st0)
         | Exc.Return result =>
             (Exc.Return (comment_of result),
              stored (table_comment_key (resolved db) table) (comment_of result)
                (clock (ticks st0)) (logged (comment_call table db) st0))
         end.
Proof.
  intros Hdb Hmiss. destruct (lookup_missing _ _ Hmiss) as (st0 & E & Ht & Hc & Hct).
  exists st0. repeat (split; [assumption|]).
  unfold get_table_comment.
  destruct (String.eqb_spec (resolved db) "") as [E'|_]; [contradiction|].
  unfold bind at 1. rewrite E.
  unfold try_except, routed, perform. unfold bind at 1. rewrite Ht.
  destruct (answer _ _) as [e|result]; reflexivity.
Qed.

(** *** [get_column_comments] *)

Local Abbreviation column_comments :=
  (get_column_comments self_db_name cache_ttl clock answer).
Local Abbreviation column_comments_call table db :=
  (route Mysql Doris (fun s => ColumnCommentsOf s table) false (resolved db)).

Lemma column_comments_served (table : string) (db : option string) (st : state) :
  resolved db <> "" ->
  served cache_ttl clock (column_comments table db)
    (column_comments_key (resolved db) table) st.
Proof.
  intros Hdb v Hv Hfresh. unfold get_column_comments.
  destruct (String.eqb_spec (resolved db) "") as [E|_]; [contradiction|].
  unfold bind at 1. rewrite (cache_lookup_fresh _ _ _ _ _ Hv Hfresh). reflexivity.
Qed.

Lemma column_comments_on_miss (table : string) (db : option string) (st : state) :
  resolved db <> "" ->
  missing cache_ttl clock (column_comments_key (resolved db) table) st ->
  exists st0,
    trace st0 = trace st
    /\ metadata_cache st0 = metadata_cache st
    /\ metadata_cache_time st0 = metadata_cache_time st
    /\ column_comments table db st
       = match answer (List.length (trace st)) (column_comments_call table db) with
         | Exc.Raise _ =>
             (Exc.Return (VDict []), logged (column_comments_call table db) st0)
         | Exc.Return result =>
             (Exc.Return (VDict (fold_left add_column_comment result [])),
              stored (column_comments_key (resolved db) table)
                (VDict (fold_left add_column_comment result []))
                (clock (ticks st0)) (logged (column_comments_call table db) st0))
         end.
Proof.
  intros Hdb Hmiss. destruct (lookup_missing _ _ Hmiss) as (st0 & E & Ht & Hc & Hct).
  exists st0. repeat (split; [assumption|]).
  unfold get_column_comments.
  destruct (String.eqb_spec (resolved db) "") as [E'|_]; [contradiction|].
  unfold bind at 1. rewrite E.
  unfold try_except, routed, perform. unfold bind at 1. rewrite Ht.
  destruct (answer _ _) as [e|result]; reflexivity.
Qed.

(** *** [get_database_tables] *)

Local Abbreviation tables :=
  (get_database_tables self_db_name cache_ttl enable_table_hierarchy
     table_hierarchy_patterns regex_match clock answer).
Local Abbreviation tables_call db := (route Mysql Doris TablesOf true (resolved db)).
Local Abbreviation listed :=
  (table_list enable_table_hierarchy table_hierarchy_patterns regex_match).

Lemma tables_served (db : option string) (st : state) :
  resolved db <> "" ->
  served cache_ttl clock (tables db) (tables_key (resolved db)) st.
Proof.
  intros Hdb v Hv Hfresh. unfold get_database_tables.
  destruct (String.eqb_spec (resolved db) "") as [E|_]; [contradiction|].
  unfold bind at 1. rewrite (cache_lookup_fresh _ _ _ _ _ Hv Hfresh). reflexivity.
Qed.

Lemma tables_on_a_miss (db : option string) (st : state) :
  resolved db <> "" ->
  missing cache_ttl clock (tables_key (resolved db)) st ->
  exists st0,
    trace st0 = trace st
    /\ metadata_cache st0 = metadata_cache st
    /\ metadata_cache_time st0 = metadata_cache_time st
    /\ tables db st
       = match
           (do result <- answer (List.length (trace st)) (tables_call db);
            listed result)
         with
         | Exc.Raise _ => (Exc.Return (VList []), logged (tables_call db) st0)
         | Exc.Return tables_info =>
             (Exc.Return (VList tables_info),
              stored (tables_key (resolved db)) (VList tables_info)
                (clock (ticks st0)) (logged (tables_call db) st0))
         end.
Proof.
  intros Hdb Hmiss. destruct (lookup_missing _ _ Hmiss) as (st0 & E & Ht & Hc & Hct).
  exists st0. repeat (split; [assumption|]).
  unfold get_database_tables.
  destruct (String.eqb_spec (resolved db) "") as [E'|_]; [contradiction|].
  unfold bind at 1. rewrite E.
  unfold try_except, routed, perform. unfold bind at 1. rewrite Ht.
  destruct (answer _ _) as [e|result]; [reflexivity|]. cbn [Exc.bind].
  unfold table_list. unfold bind at 1. unfold lift at 1.
  destruct (Exc.map_m table_record result) as [e|records]; [reflexivity|].
  cbn [Exc.bind]. unfold bind at 1.
  destruct records as [|record records]; [reflexivity|].
  destruct enable_table_hierarchy; [|reflexivity].
  unfold lift at 1.
  destruct (sort_table_names _ _ _ _) as [e|names]; reflexivity.
Qed.


(** *** [get_table_indexes] and [get_all_databases] *)

Local Abbreviation indexes :=
  (Session.get_table_indexes self_db_name cache_ttl clock reply).
Local Abbreviation databases := (Session.get_all_databases cache_ttl clock reply).
Local Abbreviation shared := (fun v : value => (v, true)).

Lemma stores_written_in_session {A : Type} (result : value -> A)
    (op : Session.M A) (key : string) (v : value) (ss : Session.state)
    (c1 : state) (requests : list Session.request) :
  (forall ss2, served_in_session cache_ttl clock result op key ss2) ->
  op ss
  = (Exc.Return (result v),
     {| Session.catalog := stored key v (clock (ticks c1)) c1;
        Session.requests := requests |}) ->
  stores_in_session cache_ttl clock result op key v ss.
Proof.
  intros Hserved E. unfold stores_in_session. rewrite E.
  cbn [fst snd Session.catalog stored metadata_cache metadata_cache_time ticks
       Nat.pred].
  split; [reflexivity|]. split; [apply lookup_insert_eq|].
  split; [apply lookup_insert_eq|].
  intros Hfresh. apply Hserved.
  - cbn. apply lookup_insert_eq.
  - unfold fresh. cbn [Session.catalog stored metadata_cache_time ticks].
    rewrite lookup_insert_eq. exact Hfresh.
Qed.

Lemma indexes_served (table : string) (db : option string) (ss : Session.state) :
  resolved db <> "" ->
  served_in_session cache_ttl clock id (indexes table db)
    (Session.indexes_key (resolved db) table) ss.
Proof.
  intros Hdb v Hv Hfresh. unfold Session.get_table_indexes.
  destruct (String.eqb_spec (resolved db) "") as [E|_]; [contradiction|].
  unfold Session.bind at 1. unfold Session.on_catalog at 1.
  rewrite (cache_lookup_fresh _ _ _ _ _ Hv Hfresh). reflexivity.
Qed.

Lemma indexes_on_a_miss (table : string) (db : option string) (ss : Session.state) :
  resolved db <> "" ->
  missing cache_ttl clock (Session.indexes_key (resolved db) table)
    (Session.catalog ss) ->
  exists c0,
    metadata_cache c0 = metadata_cache (Session.catalog ss)
    /\ metadata_cache_time c0 = metadata_cache_time (Session.catalog ss)
    /\ indexes table db ss
       = match
           (do df <- reply (List.length (Session.requests ss))
                       (Runs.index_request (resolved db) table);
            Session.group_indexes df)
         with
         | Exc.Raise _ =>
             (Exc.Return (VList []),
              {| Session.catalog := c0;
                 Session.requests :=
                   Runs.index_request (resolved db) table :: Session.requests ss |})
         | Exc.Return groups =>
             (Exc.Return (VList (map Session.index_value groups)),
              {| Session.catalog :=
                   stored (Session.indexes_key (resolved db) table)
                     (VList (map Session.index_value groups)) (clock (ticks c0)) c0;
                 Session.requests :=
                   Runs.index_request (resolved db) table :: Session.requests ss |})
         end.
Proof.
  intros Hdb Hmiss. destruct (lookup_missing _ _ Hmiss) as (c0 & E & _ & Hc & Hct).
  exists c0. repeat (split; [assumption|]).
  unfold Session.get_table_indexes.
  destruct (String.eqb_spec (resolved db) "") as [E'|_]; [contradiction|].
  unfold Session.bind at 1. unfold Session.on_catalog at 1. rewrite E.
  unfold Session.try_except. unfold Session.bind at 1. unfold Runs.index_request.
  destruct (Py.contains catalog_prefix (resolved db));
    unfold Session.ask at 1; cbn [Session.requests Session.catalog];
    (destruct (reply _ _) as [e|df]; [reflexivity|]);
    cbn [Exc.bind]; unfold Session.bind at 1; unfold Session.lift at 1;
    (destruct (Session.group_indexes df) as [e|groups]; reflexivity).
Qed.

Lemma databases_served (ss : Session.state) :
  served_in_session cache_ttl clock shared databases Session.databases_key ss.
Proof.
  intros v Hv Hfresh. unfold Session.get_all_databases.
  unfold Session.bind at 1. unfold Session.on_catalog at 1.
  rewrite (cache_lookup_fresh _ _ _ _ _ Hv Hfresh). reflexivity.
Qed.

(** The list that [get_all_databases] makes of the answers of the two
    backends; the second is asked when the names of the first have
    been read. *)
Lemma databases_on_a_miss (ss : Session.state) :
  missing cache_ttl clock Session.databases_key (Session.catalog ss) ->
  exists c0 later,
    metadata_cache c0 = metadata_cache (Session.catalog ss)
    /\ metadata_cache_time c0 = metadata_cache_time (Session.catalog ss)
    /\ databases ss
       = match
           (do result <- reply (List.length (Session.requests ss))
                           {| Session.via := Doris; Session.text := Session.Schemata |};
            do names <-
              Exc.map_m (fun db => getitem db "SCHEMA_NAME") result;
            do result2 <- reply (S (List.length (Session.requests ss)))
                            {| Session.via := Mysql; Session.text := Session.Schemata |};
            do names2 <- Exc.map_m Session.qualified result2;
            Exc.Return (map cell_value names ++ names2)%list)
         with
         | Exc.Raise _ =>
             (Exc.Return (VList [], false),
              {| Session.catalog := c0;
                 Session.requests :=
                   (later
                    ++ {| Session.via := Doris; Session.text := Session.Schemata |}
                       :: Session.requests ss)%list |})
         | Exc.Return listed =>
             (Exc.Return (VList listed, true),
              {| Session.catalog :=
                   stored Session.databases_key (VList listed) (clock (ticks c0)) c0;
                 Session.requests :=
                   (later
                    ++ {| Session.via := Doris; Session.text := Session.Schemata |}
                       :: Session.requests ss)%list |})
         end.
Proof.
  intros Hmiss. destruct (lookup_missing _ _ Hmiss) as (c0 & E & _ & Hc & Hct).
  exists c0.
  unfold Session.get_all_databases.
  unfold Session.bind at 1. unfold Session.on_catalog at 1. rewrite E.
  unfold Session.try_except. unfold Session.bind at 1. unfold Session.ask at 1.
  cbn [Session.requests Session.catalog].
  destruct (reply (List.length (Session.requests ss)) _) as [e|result].
  { exists []. repeat split; assumption. }
  cbn [Exc.bind]. unfold Session.bind at 1. unfold Session.lift at 1.
  destruct (Exc.map_m _ result) as [e|names].
  { exists []. repeat split; assumption. }
  cbn [Exc.bind]. unfold Session.bind at 1. unfold Session.ask at 1.
  cbn [Session.requests Session.catalog List.length].
  exists [{| Session.via := Mysql; Session.text := Session.Schemata |}].
  destruct (reply (S (List.length (Session.requests ss))) _) as [e|result2].
  { repeat split; assumption. }
  cbn [Exc.bind]. unfold Session.bind at 1. unfold Session.lift at 1.
  destruct (Exc.map_m Session.qualified result2) as [e|names2];
    repeat split; assumption.
Qed.


(** *** The window of every operation *)

Local Abbreviation schema :=
  (get_table_schema self_db_name cache_ttl clock answer isoformat).
Local Abbreviation schema_call table db :=
  (route Mysql Doris (fun s => ColumnsOf s table) false (resolved db)).
Local Abbreviation partitions := (get_table_partition_info answer).
Local Abbreviation audit_logs := (get_recent_audit_logs clock answer strftime_date).

Local Abbreviation served := (Window.served cache_ttl clock).
Local Abbreviation missing := (Window.missing cache_ttl clock).
Local Abbreviation stores := (Window.stores cache_ttl clock).
Local Abbreviation served_in_session := (Window.served_in_session cache_ttl clock).
Local Abbreviation stores_in_session := (Window.stores_in_session cache_ttl clock).


End WindowFacts.



(** ** Cache keys *)

Section KeyFacts.
Import Catalog.

Lemma append_inv_head (p a b : string) : p ++ a = p ++ b -> a = b.
Proof.
  induction p as [|c p IH]; simpl; [trivial|].
  intros H. injection H as H. exact (IH H).
Qed.

(** In one database, different tables have different keys. *)
Lemma schema_key_same_db (db t1 t2 : string) :
  schema_key db t1 = schema_key db t2 -> t1 = t2.
Proof.
  unfold schema_key. intros H.
  apply append_inv_head in H. apply append_inv_head in H.
  apply (append_inv_head "_") in H. exact H.
Qed.

(** The keys of the four operations never meet, whatever the names:
    each of the six pairs of operations differs in the first, the
    second or the sixth character of the key. *)
Lemma keys_of_different_operations (db1 t1 db2 t2 db3 t3 db4 : string) :
  schema_key db1 t1 <> table_comment_key db2 t2
  /\ schema_key db1 t1 <> column_comments_key db3 t3
  /\ schema_key db1 t1 <> tables_key db4
  /\ table_comment_key db2 t2 <> column_comments_key db3 t3
  /\ table_comment_key db2 t2 <> tables_key db4
  /\ column_comments_key db3 t3 <> tables_key db4.
Proof. repeat split; discriminate. Qed.

End KeyFacts.

(** C6 (the code at the failing input).  Table [c] of database [a_b]
    and table [b_c] of database [a] are different targets with the
    same key in each of the three operations; after the schema of the
    first has been looked up, the lookup of the second returns the
    schema of the first from the cache, and asks no backend. *)
Theorem underscore_targets_share_a_key :
  ("a_b", "c") <> ("a", "b_c")
  /\ Catalog.schema_key "a_b" "c" = Catalog.schema_key "a" "b_c"
  /\ Catalog.table_comment_key "a_b" "c" = Catalog.table_comment_key "a" "b_c"
  /\ Catalog.column_comments_key "a_b" "c" = Catalog.column_comments_key "a" "b_c"
  /\ Row.dict_get "database"
       (Exc.try_except
          (fst (Catalog.get_table_schema "main" 3600 Demo.clock Demo.answer
                  Demo.isoformat "b_c" (Some "a")
                  (snd (Catalog.get_table_schema "main" 3600 Demo.clock Demo.answer
                          Demo.isoformat "c" (Some "a_b") Catalog.initial))))
          (fun _ => Row.VNone))
     = Some (Row.VStr "a_b")
  /\ Catalog.trace
       (snd (Catalog.get_table_schema "main" 3600 Demo.clock Demo.answer
               Demo.isoformat "b_c" (Some "a")
               (snd (Catalog.get_table_schema "main" 3600 Demo.clock Demo.answer
                       Demo.isoformat "c" (Some "a_b") Catalog.initial))))
     = Catalog.trace
         (snd (Catalog.get_table_schema "main" 3600 Demo.clock Demo.answer
                 Demo.isoformat "c" (Some "a_b") Catalog.initial)).
Proof. repeat split; try discriminate; vm_compute; reflexivity. Qed.

(** ** The table list *)

(** Without the hierarchy flag every entry is a record of a name and a
    comment, and a comment that is missing is the empty string. *)
Lemma record_value_shape (table : Catalog.row) (r : Catalog.cell * Catalog.cell) :
  Catalog.table_record table = Exc.Return r ->
  exists name comment,
    Catalog.record_value r
    = Row.VDict [("table_name", name); ("table_comment", comment)]
    /\ comment <> Row.VNone.
Proof.
  unfold Catalog.table_record, Catalog.getitem. intros H.
  destruct (Catalog.assoc "TABLE_NAME" table) as [n|]; [|discriminate].
  destruct (Catalog.assoc "TABLE_COMMENT" table) as [c|]; [|discriminate].
  simpl in H. injection H as <-.
  eexists _, _. split; [reflexivity|]. cbn [snd].
  unfold Catalog.or_empty. destruct c as [|s|n']; simpl; try discriminate.
  - destruct (String.eqb s ""); discriminate.
  - destruct (n' =? 0); discriminate.
Qed.

Lemma table_records_shape (rows : list Catalog.row)
    (records : list (Catalog.cell * Catalog.cell)) :
  Exc.map_m Catalog.table_record rows = Exc.Return records ->
  Forall
    (fun r =>
       exists name comment,
         Catalog.record_value r
         = Row.VDict [("table_name", name); ("table_comment", comment)]
         /\ comment <> Row.VNone)
    records.
Proof.
  revert records. induction rows as [|r rows IH]; intros records H.
  - injection H as <-. constructor.
  - cbn in H. destruct (Catalog.table_record r) as [e|rec] eqn:Hr; [discriminate|].
    destruct (Exc.map_m Catalog.table_record rows) as [e|recs]; [discriminate|].
    cbn in H. injection H as <-. constructor.
    + exact (record_value_shape r rec Hr).
    + exact (IH recs eq_refl).
Qed.

(** With the flag off a lookup at the backend gives the records of the
    rows, in their order, each a name with a comment that is not
    [None]. *)
Lemma tables_without_hierarchy
    (self_db_name : string) (cache_ttl : Z) (patterns : list string)
    (regex_match : string -> string -> bool) (clock : nat -> Z)
    (answer : nat -> Catalog.call -> Exc.t (list Catalog.row))
    (db : option string) (st : Catalog.state)
    (rows : list Catalog.row) (records : list (Catalog.cell * Catalog.cell)) :
  Catalog.resolve_db self_db_name db <> "" ->
  Catalog.metadata_cache st
    !! Catalog.tables_key (Catalog.resolve_db self_db_name db) = None ->
  answer (List.length (Catalog.trace st))
    (Catalog.route Catalog.Mysql Catalog.Doris Catalog.TablesOf true
       (Catalog.resolve_db self_db_name db))
  = Exc.Return rows ->
  Exc.map_m Catalog.table_record rows = Exc.Return records ->
  fst (Catalog.get_database_tables self_db_name cache_ttl false patterns
         regex_match clock answer db st)
  = Exc.Return (Row.VList (map Catalog.record_value records))
  /\ Forall
       (fun item =>
          exists name comment,
            item = Row.VDict [("table_name", name); ("table_comment", comment)]
            /\ comment <> Row.VNone)
       (map Catalog.record_value records).
Proof.
  intros Hdb Hmiss Hrows Hrecords. split.
  - unfold Catalog.get_database_tables.
    destruct (String.eqb_spec (Catalog.resolve_db self_db_name db) "") as [E|_];
      [contradiction|].
    unfold Catalog.bind at 1. rewrite (cache_lookup_absent _ _ _ _ Hmiss).
    unfold Catalog.try_except, Catalog.routed, Catalog.perform.
    unfold Catalog.bind at 1. rewrite Hrows.
    unfold Catalog.bind at 1. unfold Catalog.lift. rewrite Hrecords.
    destruct records; reflexivity.
  - apply Forall_map. exact (table_records_shape rows records Hrecords).
Qed.

(** The partition lookup always returns, and returns the empty mapping
    for a table without partitions. *)
Lemma partition_info_returns
    (answer : nat -> Catalog.call -> Exc.t (list Catalog.row))
    (db table : string) (st : Catalog.state) :
  (exists v, fst (Catalog.get_table_partition_info answer db table st) = Exc.Return v)
  /\ (answer (List.length (Catalog.trace st))
        {| Catalog.target := Catalog.Doris;
           Catalog.statement := Catalog.PartitionsOf db table;
           Catalog.database := None |} = Exc.Return [] ->
      fst (Catalog.get_table_partition_info answer db table st)
      = Exc.Return (Row.VDict [])).
Proof.
  unfold Catalog.get_table_partition_info, Catalog.try_except, Catalog.bind,
    Catalog.execute, Catalog.perform, Catalog.ret.
  destruct (answer _ _) as [e|[|r rows]]; cbn; split; eauto; discriminate.
Qed.

Lemma tables_without_hierarchy_witness :
  fst (Catalog.get_database_tables "main" 3600 false ["^.*$"] (fun _ _ => true)
         Demo.clock Demo.answer (Some "sales") Catalog.initial)
  = Exc.Return
      (Row.VList (map Catalog.record_value [(Catalog.CStr "t", Catalog.CStr "")]))
  /\ Forall
       (fun item =>
          exists name comment,
            item = Row.VDict [("table_name", name); ("table_comment", comment)]
            /\ comment <> Row.VNone)
       (map Catalog.record_value [(Catalog.CStr "t", Catalog.CStr "")]).
Proof.
  apply (tables_without_hierarchy "main" 3600 ["^.*$"] (fun _ _ => true)
           Demo.clock Demo.answer (Some "sales") Catalog.initial
           [[("TABLE_NAME", Catalog.CStr "t"); ("TABLE_COMMENT", Catalog.CNull)]]);
    [discriminate | reflexivity | reflexivity | reflexivity].
Defined.

(** C7 (the code at the failing input).  For a database with the one
    table [t], whose comment is NULL: with the hierarchy flag off the
    list holds the record of [t] with the empty comment; with the flag
    on and the catch-all pattern it holds the bare name ["t"], no
    record. *)
Theorem hierarchy_flag_drops_the_records :
  fst (Catalog.get_database_tables "main" 3600 false ["^.*$"] (fun _ _ => true)
         Demo.clock Demo.answer (Some "sales") Catalog.initial)
  = Exc.Return
      (Row.VList
         [Row.VDict [("table_name", Row.VStr "t"); ("table_comment", Row.VStr "")]])
  /\ fst (Catalog.get_database_tables "main" 3600 true ["^.*$"] (fun _ _ => true)
            Demo.clock Demo.answer (Some "sales") Catalog.initial)
     = Exc.Return (Row.VList [Row.VStr "t"]).
Proof. split; vm_compute; reflexivity. Qed.

(** ** The table schema *)

(** The comment, the key flag and the extra flag of a column are never
    [None]. *)
Lemma column_comment_not_none (col : Catalog.row) :
  Row.dict_get "comment" (Catalog.column_info col) <> Some Row.VNone
  /\ Row.dict_get "key" (Catalog.column_info col) <> Some Row.VNone
  /\ Row.dict_get "extra" (Catalog.column_info col) <> Some Row.VNone.
Proof.
  assert (H : forall c, Catalog.cell_value (Catalog.or_empty c) <> Row.VNone).
  { intros [|s|n]; unfold Catalog.or_empty; simpl; try discriminate.
    - destruct (String.eqb s ""); discriminate.
    - destruct (n =? 0); discriminate. }
  repeat split; simpl; intros E; injection E; apply H.
Qed.

(** The default of a column is the cell of the backend, whatever it is. *)
Lemma column_default_is_the_cell (col : Catalog.row) (c : Catalog.cell) :
  Catalog.assoc "COLUMN_DEFAULT" col = Some c ->
  Row.dict_get "default" (Catalog.column_info col) = Some (Catalog.cell_value c).
Proof. intros H. simpl. unfold Catalog.get. rewrite H. reflexivity. Qed.

(** C9 (the code at the failing input).  For the column [id] of the
    demo table, whose default and comment are both NULL, the schema
    that [get_table_schema] returns has the empty string as comment
    and [None] as default. *)
Theorem null_default_stays_none :
  Row.dict_get "columns"
    (Exc.try_except
       (fst (Catalog.get_table_schema "main" 3600 Demo.clock Demo.answer
               Demo.isoformat "t" (Some "sales") Catalog.initial))
       (fun _ => Row.VNone))
  = Some
      (Row.VList
         [Row.VDict
            [("name", Row.VStr "id"); ("type", Row.VStr "int");
             ("nullable", Row.VBool false); ("default", Row.VNone);
             ("comment", Row.VStr ""); ("position", Row.VInt 1);
             ("key", Row.VStr "PRI"); ("extra", Row.VStr "")]]).
Proof. vm_compute. reflexivity. Qed.

(** ** The pattern miner *)

Section MiningFacts.
Import Row Catalog.

Variable clock : nat -> Z.
Variable answer : nat -> call -> Exc.t (list row).
Variable strftime_date : Z -> string.
Variable _get_sql_type : cell -> Exc.t (option string).
Variable _are_sqls_similar : string -> string -> Exc.t bool.
Variable _simplify_sql : string -> string.
Variable _extract_tables_from_sql : string -> list string.
Variable extract_sql_comments : string -> string.

Local Abbreviation audit_logs :=
  (get_recent_audit_logs clock answer strftime_date).

Local Abbreviation mine :=
  (mine_rows _get_sql_type _are_sqls_similar _simplify_sql
     _extract_tables_from_sql extract_sql_comments).

Local Abbreviation body :=
  (extract_body clock answer strftime_date _get_sql_type _are_sqls_similar
     _simplify_sql _extract_tables_from_sql extract_sql_comments).

Local Abbreviation extract :=
  (extract_common_sql_patterns clock answer strftime_date _get_sql_type
     _are_sqls_similar _simplify_sql _extract_tables_from_sql extract_sql_comments).

(** Reading the audit log never raises: an error gives the empty frame. *)
Lemma audit_logs_return (days limit : Z) (st : state) :
  exists rows, fst (audit_logs days limit st) = Exc.Return rows.
Proof.
  unfold get_recent_audit_logs, try_except, bind, now, execute, perform, ret.
  destruct (answer _ _) as [e|rows]; eauto.
Qed.

(** The body of the [try] raises exactly when the mining loop does. *)
Lemma body_raises (limit : Z) (st : state) (e : string) :
  fst (body limit st) = Exc.Raise e <->
  exists r rows,
    fst (audit_logs 30 limit st) = Exc.Return (r :: rows)
    /\ mine [] (r :: rows) = Exc.Raise e.
Proof.
  unfold extract_body. unfold bind at 1.
  destruct (audit_logs_return 30 limit st) as [rows Hrows].
  destruct (audit_logs 30 limit st) as [res st1]. cbn [fst] in Hrows. subst res.
  destruct rows as [|r rows].
  - cbn. split; [discriminate|]. intros (r & rows & H & _). discriminate.
  - unfold bind, lift, ret.
    destruct (mine [] (r :: rows)) as [e'|found] eqn:Hm; cbn [fst].
    + split.
      * intros H. exists r, rows. split; [reflexivity | congruence].
      * intros (r' & rows' & H1 & H2). injection H1 as <- <-. congruence.
    + split.
      * destruct (result_patterns found); discriminate.
      * intros (r' & rows' & H1 & H2). injection H1 as <- <-. congruence.
Qed.

(** C10.  [extract_common_sql_patterns] always returns.  When the
    audit window is empty it returns the two generic records; when a
    step of the mining raises it returns the two generic records, with
    empty examples, comments and tables. *)
Theorem patterns_fall_back (limit : Z) (st : state) :
  (exists result, fst (extract limit st) = Exc.Return result)
  /\ (fst (audit_logs 30 limit st) = Exc.Return [] ->
      fst (extract limit st) = Exc.Return default_patterns_short)
  /\ (forall e, fst (body limit st) = Exc.Raise e ->
      fst (extract limit st) = Exc.Return default_patterns)
  /\ (forall r rows e,
        fst (audit_logs 30 limit st) = Exc.Return (r :: rows) ->
        mine [] (r :: rows) = Exc.Raise e ->
        fst (extract limit st) = Exc.Return default_patterns)
  /\ Observe.pattern_heads default_patterns_short = Observe.generic_heads
  /\ Observe.pattern_heads default_patterns = Observe.generic_heads.
Proof.
  assert (Hraise : forall e, fst (body limit st) = Exc.Raise e ->
                             fst (extract limit st) = Exc.Return default_patterns).
  { intros e H. unfold extract_common_sql_patterns, try_except.
    destruct (body limit st) as [res st1]. cbn [fst] in H. subst res. reflexivity. }
  split; [|split; [|split; [exact Hraise | split; [|split; reflexivity]]]].
  - unfold extract_common_sql_patterns, try_except.
    destruct (body limit st) as [[e|v] st1]; cbn; eauto.
  - intros H. unfold extract_common_sql_patterns, try_except, extract_body.
    unfold bind at 1.
    destruct (audit_logs 30 limit st) as [res st1]. cbn [fst] in H. subst res.
    reflexivity.
  - intros r rows e H1 H2. apply (Hraise e). apply body_raises. eauto.
Qed.

End MiningFacts.

(** In this class the two helpers of the loop are not defined: one
    audited statement is enough for the fallback. *)
Lemma patterns_fall_back_witness :
  fst (Catalog.extract_common_sql_patterns Demo.clock Demo.audited Demo.strftime_date
         (Demo.no_attribute "_get_sql_type") (fun a b => Demo.no_attribute "_are_sqls_similar" (a, b))
         (fun s => s) (fun _ => []) (fun _ => "") 50 Catalog.initial)
  = Exc.Return Catalog.default_patterns.
Proof.
  apply (patterns_fall_back Demo.clock Demo.audited Demo.strftime_date
           (Demo.no_attribute "_get_sql_type")
           (fun a b => Demo.no_attribute "_are_sqls_similar" (a, b))
           (fun s => s) (fun _ => []) (fun _ => "") 50 Catalog.initial)
    with (r := [("stmt", Catalog.CStr "SELECT name FROM t WHERE id = 7")])
         (rows := [])
         (e := "'MetadataExtractor' object has no attribute '_get_sql_type'");
    vm_compute; reflexivity.
Defined.

(** * Further properties *)

(** ** More on the query pipeline *)

Section MorePipelineFacts.
Import Row Shape.

Variable enabled : bool.
Variable DB_DATABASE : string.
Variable execution_time : value.
Variable py_str : value -> string.

Local Abbreviation pipeline execute_query :=
  (Executor.execute_sql_query enabled DB_DATABASE execute_query execution_time py_str).

Lemma lower_app (a b : string) : Py.lower (a ++ b) = Py.lower a ++ Py.lower b.
Proof. induction a as [|c a IH]; simpl; [reflexivity|]. rewrite IH. reflexivity. Qed.

Lemma contains_app_r (sub a b : string) :
  Py.contains sub b = true -> Py.contains sub (a ++ b) = true.
Proof.
  intros H. induction a as [|c a IH]; simpl String.append; [exact H|].
  apply contains_cons. exact IH.
Qed.

(** The rewrite is applied at most once: a statement that has got its
    LIMIT is left alone by a second pass, whatever the row limits. *)
Lemma add_limit_settles (sql : string) (max_rows max_rows' : Z) :
  Executor.add_limit (Executor.add_limit sql max_rows) max_rows'
  = Executor.add_limit sql max_rows.
Proof.
  rewrite (add_limit_cases sql max_rows).
  destruct (Py.startswith "select" (Py.strip (Py.lower sql))
            && negb (Py.contains "limit" (Py.lower sql))) eqn:Hc.
  - rewrite add_limit_cases.
    assert (H : Py.contains "limit"
                  (Py.lower (Py.rstrip_by (Ascii.eqb ";") sql ++ " LIMIT "
                             ++ Py.str_of_int max_rows ++ ";")) = true).
    { rewrite lower_app. apply contains_app_r. rewrite lower_app.
      apply contains_cons. apply startswith_contains. reflexivity. }
    rewrite H, andb_false_r. reflexivity.
  - rewrite add_limit_cases, Hc. reflexivity.
Qed.

Lemma not_serializable_dict (items : list (string * value)) :
  Forall (fun kv => not_serializable (snd kv) = None) items ->
  not_serializable (VDict items) = None.
Proof.
  induction 1 as [|[k x] items Hx _ IH]; [reflexivity|].
  cbn [snd] in Hx. cbn in *. rewrite Hx. exact IH.
Qed.

Lemma not_serializable_list (l : list value) :
  Forall (fun x => not_serializable x = None) l ->
  not_serializable (VList l) = None.
Proof.
  induction 1 as [|x l Hx _ IH]; [reflexivity|].
  cbn in *. rewrite Hx. exact IH.
Qed.

(** The normalizer makes a plain row fit for [json.dumps]. *)
Lemma plain_row_serializes (r : value) :
  plain_row r ->
  _serialize_row_data r = Exc.Return (serialize_value r)
  /\ not_serializable (serialize_value r) = None.
Proof.
  intros (items & -> & Hitems). split; [reflexivity|].
  rewrite serialize_dict. apply not_serializable_dict.
  apply Forall_map. apply Forall_forall. intros [k x] Hin. cbn [fst snd].
  rewrite forallb_forall in Hitems. apply list_elem_of_In in Hin.
  specialize (Hitems _ Hin). cbn [snd] in Hitems.
  destruct x; try discriminate; reflexivity.
Qed.

Lemma serialize_plain_rows (columns : list string) (rows : list value) :
  Forall plain_row rows ->
  Exc.map_m (Executor.serialize_row columns) rows
  = Exc.Return (map serialize_value rows).
Proof.
  induction 1 as [|r rows (items & -> & _) _ IH]; [reflexivity|].
  cbn. cbn in IH. rewrite IH. reflexivity.
Qed.

(** When the backend answers a safe statement with mapping rows of
    scalar cells, the response is the success payload: the count of
    all rows, the keys of the first row as columns, the normalized
    rows up to [max_rows], and the [truncated] flag that tells whether
    there were more. *)
Lemma rows_give_success
    (execute_query : string -> string -> Exc.t value)
    (sql : string) (db : option string) (max_rows : option Z) (v : Guard.verdict)
    (first : value) (rest : list value) :
  sql <> EmptyString ->
  Guard._check_sql_security enabled sql = Some v ->
  Guard.is_safe v = true ->
  execute_query (Executor.add_limit sql (default 1000 max_rows))
    (default DB_DATABASE db) = Exc.Return (VList (first :: rest)) ->
  Forall plain_row (first :: rest) ->
  not_serializable execution_time = None ->
  pipeline execute_query
    {| Executor.sql := Some sql; Executor.db_name := db;
       Executor.max_rows := max_rows |}
  = Executor.TextContent
      (VDict
         [("success", VBool true);
          ("sql", VStr (Executor.add_limit sql (default 1000 max_rows)));
          ("row_count", VInt (Z.of_nat (S (List.length rest))));
          ("columns", VList (map VStr (Executor.columns_of first)));
          ("data",
           VList (Executor.slice_to (default 1000 max_rows)
                    (map serialize_value (first :: rest))));
          ("execution_time", execution_time);
          ("truncated",
           VBool (default 1000 max_rows <? Z.of_nat (S (List.length rest))))]).
Proof.
  intros Hne Hguard Hsafe Hrows Hplain Htime.
  unfold Executor.execute_sql_query, Executor.execute_body.
  cbn [Executor.sql Executor.db_name Executor.max_rows].
  destruct sql as [|c sql']; [congruence|].
  rewrite Hguard, Hsafe. cbn [negb]. rewrite Hrows.
  cbn [Exc.bind Executor.build_result].
  rewrite (serialize_plain_rows _ _ Hplain). cbn [Exc.bind].
  unfold json_dumps.
  set (payload := VDict _).
  assert (Hok : not_serializable payload = None).
  { apply not_serializable_dict. repeat constructor; cbn [snd]; try reflexivity.
    - apply not_serializable_list. apply Forall_map, Forall_forall.
      intros s _. reflexivity.
    - apply not_serializable_list. unfold Executor.slice_to.
      destruct (0 <=? _); apply Forall_take, Forall_map;
        (eapply Forall_impl; [exact Hplain|]);
        intros r Hr; apply (plain_row_serializes r Hr).
    - exact Htime. }
  rewrite Hok. reflexivity.
Qed.

(** Rows that come as plain tuples are never returned: the first one
    stops the loop, and the response is the failure payload of the
    error handler. *)
Lemma tuple_rows_give_failure
    (execute_query : string -> string -> Exc.t value)
    (sql : string) (db : option string) (max_rows : option Z) (v : Guard.verdict)
    (cells : list value) (rest : list value) :
  sql <> EmptyString ->
  Guard._check_sql_security enabled sql = Some v ->
  Guard.is_safe v = true ->
  execute_query (Executor.add_limit sql (default 1000 max_rows))
    (default DB_DATABASE db) = Exc.Return (VList (VTuple cells :: rest)) ->
  pipeline execute_query
    {| Executor.sql := Some sql; Executor.db_name := db;
       Executor.max_rows := max_rows |}
  = Executor.TextContent
      (VDict
         [("success", VBool false);
          ("error", VStr "'tuple' object has no attribute 'items'");
          ("error_details",
           VDict
             [("type", VStr "unknown");
              ("suggestion",
               VStr "Please check the SQL statement and try simplifying the query")]);
          ("sql", VStr (Executor.add_limit sql (default 1000 max_rows)));
          ("db_name", VStr (default DB_DATABASE db))]).
Proof.
  intros Hne Hguard Hsafe Hrows.
  unfold Executor.execute_sql_query, Executor.execute_body.
  cbn [Executor.sql Executor.db_name Executor.max_rows].
  destruct sql as [|c sql']; [congruence|].
  rewrite Hguard, Hsafe. cbn [negb]. rewrite Hrows.
  reflexivity.
Qed.

End MorePipelineFacts.

(** ** More on the security guard *)

Section MoreGuardFacts.

Lemma collect_nil {A : Type} (f : A -> option (list Guard.issue)) (ops : list A)
    (l : list Guard.issue) :
  Guard.collect f ops = Some l ->
  l = [] <-> Forall (fun op => f op = Some []) ops.
Proof.
  revert l. induction ops as [|op ops IH]; intros l H.
  - injection H as <-. split; [constructor | reflexivity].
  - cbn in H. destruct (f op) as [here|] eqn:Hop; [|discriminate].
    cbn in H. destruct (Guard.collect f ops) as [later|]; [|discriminate].
    cbn in H. injection H as <-. specialize (IH later eq_refl). split.
    + intros Hnil. apply app_eq_nil in Hnil as [-> ->].
      constructor; [exact Hop | apply IH; reflexivity].
    + intros Hall. inversion Hall as [|? ? H1 H2]; subst.
      rewrite Hop in H1. injection H1 as ->. apply IH in H2. subst. reflexivity.
Qed.


End MoreGuardFacts.

(** ** More on the table hierarchy classifier *)

Lemma string_compare_trans (s1 s2 s3 : string) :
  String.compare s1 s2 <> Gt -> String.compare s2 s3 <> Gt ->
  String.compare s1 s3 <> Gt.
Proof.
  revert s2 s3. induction s1 as [|a s1 IH]; intros [|b s2] [|c s3]; simpl;
    try congruence.
  unfold Ascii.compare.
  destruct (N.compare_spec (N_of_ascii a) (N_of_ascii b)) as [Hab|Hab|Hab];
    destruct (N.compare_spec (N_of_ascii b) (N_of_ascii c)) as [Hbc|Hbc|Hbc];
    try congruence; intros H1 H2.
  - rewrite Hab, Hbc, N.compare_refl. eauto.
  - rewrite Hab. apply N.compare_lt_iff in Hbc. rewrite Hbc. congruence.
  - rewrite <- Hbc. apply N.compare_lt_iff in Hab. rewrite Hab. congruence.
  - assert (Hac : (N_of_ascii a ?= N_of_ascii c)%N = Lt).
    { apply N.compare_lt_iff. etransitivity; eassumption. }
    rewrite Hac. congruence.
Qed.

#[local] Instance str_le_trans : Transitive Catalog.str_le.
Proof.
  intros x y z. unfold Catalog.str_le, String.leb. intros H1 H2.
  pose proof (string_compare_trans x y z) as H.
  destruct (String.compare x y); destruct (String.compare y z);
    destruct (String.compare x z); try reflexivity; try discriminate;
    exfalso; apply H; congruence.
Qed.

#[local] Instance str_le_total : Total Catalog.str_le.
Proof. intros x y. apply String.leb_total. Qed.

Lemma sorted_strongly (l : list string) :
  StronglySorted Catalog.str_le (Catalog.sorted l).
Proof. apply StronglySorted_merge_sort; apply _. Qed.

Section LayeringFacts.
Import Layering.
Variable regex_match : string -> string -> bool.

Lemma rank_app (done rest : list string) (x : string) :
  Forall (fun p => regex_match p x = false) done ->
  rank regex_match (done ++ rest) x
  = (List.length done + rank regex_match rest x)%nat.
Proof.
  induction 1 as [|p done Hp _ IH]; [reflexivity|].
  cbn. rewrite Hp, IH. reflexivity.
Qed.

Lemma rank_le_length (patterns : list string) (x : string) :
  (rank regex_match patterns x <= List.length patterns)%nat.
Proof.
  induction patterns as [|p ps IH]; cbn; [lia|].
  destruct (regex_match p x); lia.
Qed.

(** A list sorted by name, all of one rank, is in hierarchy order. *)
Lemma same_rank_before (patterns l : list string) (n : nat) :
  Forall (fun x => rank regex_match patterns x = n) l ->
  StronglySorted Catalog.str_le l ->
  StronglySorted (before regex_match patterns) l.
Proof.
  intros Hrank Hsorted. induction Hsorted as [|x l Hs IH Hx]; [constructor|].
  inversion Hrank as [|? ? Hrx Hrl]; subst. constructor; [apply IH, Hrl|].
  rewrite Forall_forall in *. intros y Hy. right. split.
  - rewrite (Hrl y Hy). reflexivity.
  - apply Hx, Hy.
Qed.

Lemma layered_step (done todo : list string) (pattern : string)
    (acc : list (list string) * gset string) :
  layered regex_match (done ++ pattern :: todo) done acc ->
  layered regex_match (done ++ pattern :: todo) (done ++ [pattern])
    (Catalog.hierarchy_step regex_match acc pattern).
Proof.
  destruct acc as [groups remaining]. intros (Hs & Hr & Hrem). cbn [fst snd] in *.
  unfold Catalog.hierarchy_step.
  set (matching := filter _ (elements remaining)).
  assert (Hm : forall x, x ∈ matching ->
            rank regex_match (done ++ pattern :: todo) x = List.length done).
  { intros x Hx. apply list_elem_of_filter in Hx as [Hx Hin].
    apply elem_of_elements in Hin. rewrite rank_app by auto. cbn. rewrite Hx. lia. }
  assert (Hrest : forall x, x ∈ remaining ∖ list_to_set matching ->
            Forall (fun p => regex_match p x = false) (done ++ [pattern])).
  { intros x Hx. apply elem_of_difference in Hx as [Hin Hnot].
    apply Forall_app. split; [auto|]. constructor; [|constructor].
    destruct (regex_match pattern x) eqn:Hp; [|reflexivity].
    exfalso. apply Hnot. apply elem_of_list_to_set. apply list_elem_of_filter.
    split; [exact Hp | apply elem_of_elements, Hin]. }
  assert (Hlen : List.length (done ++ [pattern]) = S (List.length done))
    by (rewrite length_app; cbn; lia).
  unfold layered. destruct matching as [|t matching'] eqn:Hmatching; cbn [fst snd].
  - split; [exact Hs|]. split; [|exact Hrest].
    eapply Forall_impl; [exact Hr|]. intros x Hx. cbn beta in *. lia.
  - rewrite concat_app. cbn [concat]. rewrite app_nil_r.
    assert (Hperm : Catalog.sorted (t :: matching') ≡ₚ t :: matching')
      by apply merge_sort_Permutation.
    assert (Hall : Forall (fun x => rank regex_match (done ++ pattern :: todo) x
                                    = List.length done)
                     (Catalog.sorted (t :: matching'))).
    { rewrite Hperm. apply Forall_forall. exact Hm. }
    split; [|split; [|exact Hrest]].
    + apply StronglySorted_app_2; [|exact Hs|].
      * intros x1 x2 H1 H2. left. rewrite Forall_forall in Hr, Hall.
        rewrite (Hall x2 H2). apply Hr, H1.
      * eapply same_rank_before; [exact Hall | apply sorted_strongly].
    + apply Forall_app. split.
      * eapply Forall_impl; [exact Hr|]. intros x Hx. cbn beta in *. lia.
      * eapply Forall_impl; [exact Hall|]. intros x Hx. cbn beta in *. lia.
Qed.

Lemma layered_fold (todo done : list string)
    (acc : list (list string) * gset string) :
  layered regex_match (done ++ todo) done acc ->
  layered regex_match (done ++ todo) (done ++ todo)
    (fold_left (Catalog.hierarchy_step regex_match) todo acc).
Proof.
  revert done acc. induction todo as [|pattern todo IH]; intros done acc H.
  - rewrite app_nil_r in *. exact H.
  - cbn [fold_left].
    replace (done ++ pattern :: todo)%list with ((done ++ [pattern]) ++ todo)%list
      by (rewrite <- app_assoc; reflexivity).
    apply IH. rewrite <- app_assoc. cbn [app]. apply layered_step. exact H.
Qed.

Lemma hierarchy_groups_layered (patterns tables : list string) :
  StronglySorted (before regex_match patterns)
    (concat (Catalog.hierarchy_groups patterns regex_match tables)).
Proof.
  unfold Catalog.hierarchy_groups.
  pose proof (layered_fold patterns [] ([], list_to_set tables)) as H.
  cbn [app] in H.
  destruct (fold_left _ patterns _) as [groups remaining].
  destruct H as (Hs & Hr & Hrem); cbn [fst snd] in *.
  { split; [constructor|]. split; [constructor|]. intros x _. constructor. }
  destruct (elements remaining) as [|t rest] eqn:Hel; [exact Hs|].
  rewrite concat_app. cbn [concat]. rewrite app_nil_r.
  assert (Hall : Forall (fun x => rank regex_match patterns x = List.length patterns)
                   (Catalog.sorted (t :: rest))).
  { unfold Catalog.sorted. rewrite merge_sort_Permutation. rewrite <- Hel.
    apply Forall_forall. intros x Hx. apply elem_of_elements in Hx.
    specialize (Hrem x Hx). rewrite <- (app_nil_r patterns) at 1.
    rewrite rank_app by exact Hrem. cbn. lia. }
  apply StronglySorted_app_2; [|exact Hs|].
  - intros x1 x2 H1 H2. left. rewrite Forall_forall in Hr, Hall.
    rewrite (Hall x2 H2). apply Hr, H1.
  - eapply same_rank_before; [exact Hall | apply sorted_strongly].
Qed.

End LayeringFacts.

(** The order of the output is the order of the layers. *)
#[local] Instance before_antisym (regex_match : string -> string -> bool)
    (patterns : list string) :
  AntiSymm (=) (Layering.before regex_match patterns).
Proof.
  intros x y [H1|[H1 L1]] [H2|[H2 L2]]; try lia.
  apply String.leb_antisym; assumption.
Qed.

(** The classifier at work returns the one listing of the input's
    tables that has no table twice and is in hierarchy order: tables
    of an earlier layer first, the tables no pattern matches last,
    and by name inside a layer. *)
Lemma hierarchy_sort_is_the_layered_listing
    (regex_match : string -> string -> bool)
    (pattern : string) (patterns tables listing : list string) :
  NoDup listing ->
  (forall x, x ∈ listing <-> x ∈ tables) ->
  StronglySorted (Layering.before regex_match (pattern :: patterns)) listing ->
  Catalog._sort_tables_by_hierarchy true (pattern :: patterns) regex_match tables
  = listing.
Proof.
  intros Hnodup Hsame Hsorted.
  unfold Catalog._sort_tables_by_hierarchy. cbn [negb orb].
  apply (StronglySorted_unique (Layering.before regex_match (pattern :: patterns)));
    [|exact Hsorted|].
  - apply hierarchy_groups_layered.
  - rewrite hierarchy_groups_distinct.
    apply NoDup_Permutation; [apply NoDup_elements | exact Hnodup|].
    intros x. rewrite elem_of_elements, elem_of_list_to_set, Hsame. reflexivity.
Qed.

(** ** The index list *)

Section IndexFacts.
Import Session Runs.

Lemma cell_eqb_eq (a b : Catalog.cell) : cell_eqb a b = true -> a = b.
Proof.
  destruct a, b; cbn; try discriminate; intros H.
  - reflexivity.
  - apply String.eqb_eq in H. congruence.
  - apply Z.eqb_eq in H. congruence.
Qed.

Lemma separated_snoc (l : list index) (g h : index) :
  separated (l ++ [g]) ->
  cell_eqb (name g) (name h) = false ->
  separated ((l ++ [g]) ++ [h]).
Proof.
  intros Hs Hd. induction l as [|a l IH].
  - cbn. auto.
  - destruct l as [|b l].
    + cbn in *. tauto.
    + cbn in Hs |- *. destruct Hs as [Hab Hs]. split; [exact Hab|].
      apply IH. exact Hs.
Qed.

Lemma separated_renamed (l : list index) (g g' : index) :
  name g' = name g ->
  separated (l ++ [g]) -> separated (l ++ [g']).
Proof.
  intros Hn. induction l as [|a l IH]; [cbn; auto|].
  destruct l as [|b l].
  - cbn. rewrite Hn. auto.
  - cbn. intros [Hab Hs]. split; [exact Hab | apply IH, Hs].
Qed.

Lemma flat_map_snoc {A B : Type} (f : A -> list B) (l : list A) (a : A) :
  flat_map f (l ++ [a]) = (flat_map f l ++ f a)%list.
Proof. rewrite flat_map_app. cbn. rewrite app_nil_r. reflexivity. Qed.

Lemma index_step_keeps (acc acc' : list index * option index) (row : Catalog.row) :
  index_step acc row = Exc.Return acc' ->
  tidy acc ->
  tidy acc'
  /\ snd acc' <> None
  /\ flat_map labelled (entries acc')
     = (flat_map labelled (entries acc) ++ [label row])%list.
Proof.
  destruct acc as [indexes current]. unfold index_step, label, Catalog.getitem.
  destruct (Catalog.assoc "Key_name" row) as [index_name|]; [|discriminate].
  destruct (Catalog.assoc "Column_name" row) as [column_name|]; [|discriminate].
  cbn [Exc.bind]. intros H (Hnone & Hsep & Hcols). unfold entries in *. cbn [fst snd] in *.
  assert (Hopen : forall opened,
            open_index index_name column_name row = Exc.Return opened ->
            name opened = index_name /\ columns opened = [column_name]).
  { intros opened. unfold open_index, Catalog.getitem.
    destruct (Catalog.assoc "Non_unique" row); [|discriminate].
    destruct (Catalog.assoc "Index_type" row); [|discriminate].
    cbn. intros [= <-]. split; reflexivity. }
  destruct current as [current|].
  - destruct (cell_eqb (name current) index_name) eqn:Hsame; cbn [negb] in H.
    + injection H as <-. cbn [fst snd]. apply cell_eqb_eq in Hsame.
      split; [|split; [discriminate|]].
      * split; [discriminate|]. split.
        -- eapply separated_renamed; [|exact Hsep]. reflexivity.
        -- apply Forall_app in Hcols as [H1 H2]. apply Forall_app. split; [exact H1|].
           constructor; [|constructor]. cbn. intros E. apply app_eq_nil in E as [_ E].
           discriminate.
      * rewrite !flat_map_snoc. unfold labelled at 2 4. cbn [columns name].
        rewrite map_app, app_assoc, Hsame. reflexivity.
    + destruct (open_index index_name column_name row) as [e|opened] eqn:Ho;
        [discriminate|].
      destruct (Hopen opened eq_refl) as [Hn Hc].
      cbn in H. injection H as <-. cbn [fst snd].
      split; [|split; [discriminate|]].
      * split; [discriminate|]. split.
        -- apply separated_snoc; [exact Hsep | rewrite Hn; exact Hsame].
        -- apply Forall_app. split; [exact Hcols|]. constructor; [|constructor].
           rewrite Hc. discriminate.
      * rewrite flat_map_snoc. unfold labelled at 2. rewrite Hn, Hc. reflexivity.
  - destruct (open_index index_name column_name row) as [e|opened] eqn:Ho;
      [discriminate|].
    destruct (Hopen opened eq_refl) as [Hn Hc].
    cbn in H. injection H as <-. cbn [fst snd].
    rewrite (Hnone eq_refl). cbn [app flat_map].
    split; [|split; [discriminate|]].
    + split; [discriminate|]. split; [exact I|].
      constructor; [|constructor]. rewrite Hc. discriminate.
    + unfold labelled. rewrite Hn, Hc. reflexivity.
Qed.

Lemma index_loop_keeps (rows : list Catalog.row) (acc acc' : list index * option index) :
  index_loop acc rows = Exc.Return acc' ->
  tidy acc ->
  tidy acc'
  /\ flat_map labelled (entries acc')
     = (flat_map labelled (entries acc) ++ map label rows)%list.
Proof.
  revert acc. induction rows as [|row rows IH]; intros acc H Ht.
  - injection H as <-. split; [exact Ht|]. cbn. rewrite app_nil_r. reflexivity.
  - cbn in H. destruct (index_step acc row) as [e|acc1] eqn:Hstep; [discriminate|].
    cbn in H. destruct (index_step_keeps _ _ _ Hstep Ht) as (Ht1 & _ & Hl1).
    destruct (IH _ H Ht1) as (Ht' & Hl'). split; [exact Ht'|].
    rewrite Hl', Hl1. rewrite <- app_assoc. reflexivity.
Qed.

Lemma index_step_returns (acc : list index * option index) (row : Catalog.row) :
  complete row -> exists acc', index_step acc row = Exc.Return acc'.
Proof.
  intros Hc. destruct acc as [indexes current]. unfold index_step, open_index, Catalog.getitem.
  destruct (Hc "Key_name") as [a ->]; [set_solver|].
  destruct (Hc "Column_name") as [b ->]; [set_solver|].
  destruct (Hc "Non_unique") as [c ->]; [set_solver|].
  destruct (Hc "Index_type") as [d ->]; [set_solver|].
  cbn. destruct current as [current|]; [|eauto].
  destruct (negb _); eauto.
Qed.

Lemma index_loop_returns (rows : list Catalog.row) (acc : list index * option index) :
  Forall complete rows -> exists acc', index_loop acc rows = Exc.Return acc'.
Proof.
  intros H. revert acc. induction H as [|row rows Hrow _ IH]; intros acc; [cbn; eauto|].
  cbn. destruct (index_step_returns acc row Hrow) as [acc1 ->]. cbn. apply IH.
Qed.

(** The loop of [get_table_indexes] on a frame that has the four
    columns: it returns, every column is listed under the index name
    of its row, in the order of the rows, two entries that follow each
    other have different names, and no entry is without columns.  The
    entries are the runs of equal index names in the frame. *)
Lemma index_grouping (rows : list Catalog.row) :
  Forall complete rows ->
  exists groups,
    group_indexes rows = Exc.Return groups
    /\ flat_map labelled groups = map label rows
    /\ separated groups
    /\ Forall (fun g => columns g <> []) groups.
Proof.
  intros Hc. unfold group_indexes.
  destruct (index_loop_returns rows ([], None) Hc) as [acc Hacc]. rewrite Hacc.
  destruct (index_loop_keeps rows _ _ Hacc) as ((_ & Hs & Hn) & Hl).
  { split; [reflexivity|]. split; [exact I | constructor]. }
  exists (entries acc). cbn [Exc.bind]. repeat split; assumption.
Qed.

End IndexFacts.

Section IndexCacheFacts.
Import Row Session Runs.

Variable self_db_name : string.
Variable cache_ttl : Z.
Variable clock : nat -> Z.
Variable reply : nat -> request -> Exc.t (list Catalog.row).

Local Abbreviation indexes :=
  (get_table_indexes self_db_name cache_ttl clock reply).

Local Abbreviation resolved db := (Catalog.resolve_db self_db_name db).

Lemma indexes_on_miss (table : string) (db : option string) (st : state) :
  resolved db <> "" ->
  Catalog.metadata_cache (catalog st) !! indexes_key (resolved db) table = None ->
  indexes table db st
  = match reply (List.length (requests st)) (index_request (resolved db) table) with
    | Exc.Raise e =>
        (Exc.Return (VList []),
         {| catalog := catalog st;
            requests := index_request (resolved db) table :: requests st |})
    | Exc.Return df =>
        match group_indexes df with
        | Exc.Raise e =>
            (Exc.Return (VList []),
             {| catalog := catalog st;
                requests := index_request (resolved db) table :: requests st |})
        | Exc.Return groups =>
            (Exc.Return (VList (map index_value groups)),
             {| catalog :=
                  Catalog.stored (indexes_key (resolved db) table)
                    (VList (map index_value groups))
                    (clock (Catalog.ticks (catalog st))) (catalog st);
                requests := index_request (resolved db) table :: requests st |})
        end
    end.
Proof.
  intros Hdb Hmiss. unfold get_table_indexes.
  destruct (String.eqb_spec (resolved db) "") as [E|_]; [contradiction|].
  unfold bind at 1. unfold on_catalog at 1.
  rewrite (cache_lookup_absent _ _ _ _ Hmiss).
  unfold try_except. unfold bind at 1. unfold index_request.
  destruct (Py.contains Catalog.catalog_prefix (resolved db));
    unfold ask at 1; cbn [requests catalog];
    (destruct (reply _ _) as [e|df]; [reflexivity|]);
    unfold bind at 1; unfold lift at 1;
    (destruct (group_indexes df) as [e|groups]; reflexivity).
Qed.

(** [get_table_indexes] without an entry in the cache.  When the
    backend answers with a frame that has the four columns, the result
    is the list of the loop's entries, and it is written to the cache,
    also when it is empty.  When the backend fails, or the frame lacks
    one of the columns, the result is the empty list and the cache is
    left as it was. *)
Lemma indexes_of_a_table (table : string) (db : option string) (st : state) :
  resolved db <> "" ->
  Catalog.metadata_cache (catalog st) !! indexes_key (resolved db) table = None ->
  (forall df,
     reply (List.length (requests st)) (index_request (resolved db) table)
     = Exc.Return df ->
     Forall complete df ->
     exists groups,
       group_indexes df = Exc.Return groups
       /\ fst (indexes table db st) = Exc.Return (VList (map index_value groups))
       /\ Catalog.metadata_cache (catalog (snd (indexes table db st)))
            !! indexes_key (resolved db) table
          = Some (VList (map index_value groups)))
  /\ ((exists e,
         reply (List.length (requests st)) (index_request (resolved db) table)
         = Exc.Raise e)
      \/ (exists row df k,
            reply (List.length (requests st)) (index_request (resolved db) table)
            = Exc.Return (row :: df)
            /\ k ∈ ["Key_name"; "Column_name"; "Non_unique"; "Index_type"]
            /\ Catalog.assoc k row = None) ->
      fst (indexes table db st) = Exc.Return (VList [])
      /\ Catalog.metadata_cache (catalog (snd (indexes table db st)))
         = Catalog.metadata_cache (catalog st)).
Proof.
  intros Hdb Hmiss. rewrite (indexes_on_miss table db st Hdb Hmiss). split.
  - intros df -> Hc.
    destruct (index_loop_returns df ([], None) Hc) as [acc Hacc].
    unfold group_indexes. rewrite Hacc. cbn [Exc.bind fst snd].
    exists (entries acc). cbn [catalog Catalog.stored Catalog.metadata_cache].
    split; [reflexivity|]. split; [reflexivity | apply lookup_insert_eq].
  - intros [[e ->] | (row & df & k & -> & Hk & Hnone)]; [split; reflexivity|].
    assert (E : exists e, group_indexes (row :: df) = Exc.Raise e).
    { unfold group_indexes. cbn [index_loop]. unfold index_step, open_index, Catalog.getitem.
      cbn [fst snd].
      destruct (Catalog.assoc "Key_name" row) eqn:E1; [|cbn; eauto].
      destruct (Catalog.assoc "Column_name" row) eqn:E2; [|cbn; eauto].
      destruct (Catalog.assoc "Non_unique" row) eqn:E3; [|cbn; eauto].
      destruct (Catalog.assoc "Index_type" row) eqn:E4; [|cbn; eauto].
      exfalso. repeat (apply elem_of_cons in Hk as [->|Hk]; [congruence|]).
      inversion Hk. }
    destruct E as [e ->]. split; reflexivity.
Qed.

End IndexCacheFacts.


(** ** The database list *)

Section DirectoryFacts.
Import Row Session Runs.

Variable self_db_name : string.
Variable cache_ttl : Z.
Variable excluded_databases : list string.
Variable clock : nat -> Z.
Variable reply : nat -> request -> Exc.t (list Catalog.row).

Local Abbreviation databases := (get_all_databases cache_ttl clock reply).

(** The names of the rows of a [Schemata] answer. *)
Lemma schema_names (rows : list Catalog.row) (names : list Catalog.cell) :
  Forall2 (fun row c => Catalog.assoc "SCHEMA_NAME" row = Some c) rows names ->
  Exc.map_m (fun db => Catalog.getitem db "SCHEMA_NAME") rows = Exc.Return names.
Proof.
  induction 1 as [|row c rows names Hrow _ IH]; [reflexivity|].
  cbn. unfold Catalog.getitem at 1. rewrite Hrow. cbn. rewrite IH. reflexivity.
Qed.

Lemma qualified_names (rows : list Catalog.row) (names : list string) :
  Forall2 (fun row s => Catalog.assoc "SCHEMA_NAME" row = Some (Catalog.CStr s))
    rows names ->
  Exc.map_m qualified rows
  = Exc.Return (map (fun s => VStr (Catalog.catalog_prefix ++ s)) names).
Proof.
  induction 1 as [|row s rows names Hrow _ IH]; [reflexivity|].
  cbn. unfold qualified at 1, Catalog.getitem. rewrite Hrow. cbn. rewrite IH.
  reflexivity.
Qed.

Lemma databases_on_miss (st : state) (rows rows2 : list Catalog.row)
    (names : list Catalog.cell) (names2 : list string) :
  Catalog.metadata_cache (catalog st) !! databases_key = None ->
  reply (List.length (requests st)) {| via := Catalog.Doris; text := Schemata |}
  = Exc.Return rows ->
  reply (S (List.length (requests st))) {| via := Catalog.Mysql; text := Schemata |}
  = Exc.Return rows2 ->
  Forall2 (fun row c => Catalog.assoc "SCHEMA_NAME" row = Some c) rows names ->
  Forall2 (fun row s => Catalog.assoc "SCHEMA_NAME" row = Some (Catalog.CStr s))
    rows2 names2 ->
  databases st
  = (Exc.Return (VList (listing names names2), true),
     {| catalog :=
          Catalog.stored databases_key (VList (listing names names2))
            (clock (Catalog.ticks (catalog st))) (catalog st);
        requests :=
          {| via := Catalog.Mysql; text := Schemata |}
          :: {| via := Catalog.Doris; text := Schemata |} :: requests st |}).
Proof.
  intros Hmiss Hrows Hrows2 Hnames Hnames2.
  unfold get_all_databases. unfold bind at 1. unfold on_catalog at 1.
  rewrite (cache_lookup_absent _ _ _ _ Hmiss).
  unfold try_except. unfold bind at 1. unfold ask at 1. cbn [requests catalog].
  rewrite Hrows. unfold bind at 1. unfold lift at 1.
  rewrite (schema_names _ _ Hnames).
  unfold bind at 1. unfold ask at 1. cbn [requests catalog List.length].
  rewrite Hrows2. unfold bind at 1. unfold lift at 1.
  rewrite (qualified_names _ _ Hnames2).
  reflexivity.
Qed.


(** A first call of [get_all_databases], both backends answering: the
    list holds the names of the primary backend, then the names of the
    MySQL catalog behind the qualifier, and is written to the cache.
    Every name that came from the MySQL catalog is in the list in a
    form that the router sends back to the MySQL functions, under the
    name the catalog gave. *)
Lemma databases_listing (st : state) (rows rows2 : list Catalog.row)
    (names : list Catalog.cell) (names2 : list string) :
  Catalog.metadata_cache (catalog st) !! databases_key = None ->
  reply (List.length (requests st)) {| via := Catalog.Doris; text := Schemata |}
  = Exc.Return rows ->
  reply (S (List.length (requests st))) {| via := Catalog.Mysql; text := Schemata |}
  = Exc.Return rows2 ->
  Forall2 (fun row c => Catalog.assoc "SCHEMA_NAME" row = Some c) rows names ->
  Forall2 (fun row s => Catalog.assoc "SCHEMA_NAME" row = Some (Catalog.CStr s))
    rows2 names2 ->
  fst (databases st) = Exc.Return (VList (listing names names2), true)
  /\ Catalog.metadata_cache (catalog (snd (databases st))) !! databases_key
     = Some (VList (listing names names2))
  /\ forall s mysql doris q with_db,
       s ∈ names2 ->
       VStr (Catalog.catalog_prefix ++ s) ∈ listing names names2
       /\ Catalog.route mysql doris q with_db (Catalog.catalog_prefix ++ s)
          = {| Catalog.target := mysql; Catalog.statement := q s;
               Catalog.database := if with_db then Some s else None |}.
Proof.
  intros Hmiss Hrows Hrows2 Hnames Hnames2.
  rewrite (databases_on_miss st rows rows2 names names2) by assumption.
  cbn [fst snd catalog Catalog.stored Catalog.metadata_cache].
  split; [reflexivity|]. split; [apply lookup_insert_eq|].
  intros s mysql doris q with_db Hs. split.
  - unfold listing. apply elem_of_app. right.
    apply (list_elem_of_fmap_2 (fun s => VStr (Catalog.catalog_prefix ++ s))). exact Hs.
  - unfold Catalog.route.
    assert (Hc : Py.contains Catalog.catalog_prefix (Catalog.catalog_prefix ++ s) = true)
      by (apply startswith_contains, startswith_app).
    assert (Hr : Py.removeprefix Catalog.catalog_prefix (Catalog.catalog_prefix ++ s) = s)
      by (unfold Py.removeprefix; rewrite startswith_app; apply drop_chars_app).
    rewrite Hc, Hr. reflexivity.
Qed.

(** When one of the two backends fails, no database is listed, those
    of the other backend neither, and nothing is written to the cache. *)
Lemma one_failure_hides_every_database (st : state) :
  Catalog.metadata_cache (catalog st) !! databases_key = None ->
  (exists e,
     reply (List.length (requests st)) {| via := Catalog.Doris; text := Schemata |}
     = Exc.Raise e)
  \/ (exists e,
        reply (S (List.length (requests st)))
          {| via := Catalog.Mysql; text := Schemata |}
        = Exc.Raise e) ->
  fst (databases st) = Exc.Return (VList [], false)
  /\ Catalog.metadata_cache (catalog (snd (databases st)))
     = Catalog.metadata_cache (catalog st)
  /\ Catalog.metadata_cache_time (catalog (snd (databases st)))
     = Catalog.metadata_cache_time (catalog st).
Proof.
  intros Hmiss Hfail.
  assert (E : exists st',
            databases st = (Exc.Return (VList [], false), st')
            /\ Catalog.metadata_cache (catalog st')
               = Catalog.metadata_cache (catalog st)
            /\ Catalog.metadata_cache_time (catalog st')
               = Catalog.metadata_cache_time (catalog st)).
  { unfold get_all_databases. unfold bind at 1. unfold on_catalog at 1.
    rewrite (cache_lookup_absent _ _ _ _ Hmiss).
    unfold try_except. unfold bind at 1. unfold ask at 1. cbn [requests catalog].
    destruct (reply (List.length (requests st)) _) as [e|rows] eqn:Hrows.
    { eexists. repeat split; reflexivity. }
    destruct Hfail as [[e He] | [e He]]; [discriminate|].
    unfold bind at 1. unfold lift at 1.
    destruct (Exc.map_m _ rows) as [e1|names]; [eexists; repeat split; reflexivity|].
    unfold bind at 1. unfold ask at 1. cbn [requests catalog List.length].
    rewrite He. eexists. repeat split; reflexivity. }
  destruct E as (st' & -> & H1 & H2). cbn [fst snd]. auto.
Qed.

Local Abbreviation targets :=
  (get_all_target_databases self_db_name cache_ttl true [] excluded_databases
     clock reply).

Lemma existsb_is_name (x : string) (l : list value) :
  existsb (is_name x) l = false -> VStr x ∉ l.
Proof.
  intros H Hin. apply list_elem_of_In in Hin.
  assert (E : existsb (is_name x) l = true).
  { apply existsb_exists. exists (VStr x). split; [exact Hin|]. cbn.
    apply String.eqb_refl. }
  congruence.
Qed.

(** [get_all_target_databases] moves the current database to the
    front on the list object that [get_all_databases] returned, which
    is the one the cache holds.  With multi-database support on and no
    configured names, a first call lists the current database first;
    the entry in the cache has lost it, and a second call within the
    TTL, which asks no backend, returns a list without the current
    database. *)
Lemma current_database_is_forgotten (st : state) (rows rows2 : list Catalog.row)
    (names : list Catalog.cell) (names2 : list string) :
  Catalog.metadata_cache (catalog st) !! databases_key = None ->
  reply (List.length (requests st)) {| via := Catalog.Doris; text := Schemata |}
  = Exc.Return rows ->
  reply (S (List.length (requests st))) {| via := Catalog.Mysql; text := Schemata |}
  = Exc.Return rows2 ->
  Forall2 (fun row c => Catalog.assoc "SCHEMA_NAME" row = Some c) rows names ->
  Forall2 (fun row s => Catalog.assoc "SCHEMA_NAME" row = Some (Catalog.CStr s))
    rows2 names2 ->
  existsb (is_name self_db_name) (listing names names2) = true ->
  existsb (is_name self_db_name)
    (remove_first self_db_name (listing names names2)) = false ->
  clock (S (Catalog.ticks (catalog st))) - clock (Catalog.ticks (catalog st))
  < cache_ttl * 1000000 ->
  fst (targets st)
  = Exc.Return
      (VList
         (filter (fun db => not_excluded excluded_databases db = true)
            (VStr self_db_name
             :: remove_first self_db_name (listing names names2))))
  /\ fst (targets (snd (targets st)))
     = Exc.Return
         (VList
            (filter (fun db => not_excluded excluded_databases db = true)
               (remove_first self_db_name (listing names names2))))
  /\ requests (snd (targets (snd (targets st)))) = requests (snd (targets st))
  /\ VStr self_db_name
     ∉ filter (fun db => not_excluded excluded_databases db = true)
         (remove_first self_db_name (listing names names2)).
Proof.
  intros Hmiss Hrows Hrows2 Hnames Hnames2 Hin Honce Hfresh.
  assert (E1 : targets st
    = (Exc.Return
         (VList
            (filter (fun db => not_excluded excluded_databases db = true)
               (VStr self_db_name
                :: remove_first self_db_name (listing names names2)))),
       {| catalog :=
            {| Catalog.metadata_cache :=
                 <[databases_key :=
                     VList (remove_first self_db_name (listing names names2))]>
                   (<[databases_key := VList (listing names names2)]>
                      (Catalog.metadata_cache (catalog st)));
               Catalog.metadata_cache_time :=
                 <[databases_key := clock (Catalog.ticks (catalog st))]>
                   (Catalog.metadata_cache_time (catalog st));
               Catalog.ticks := S (Catalog.ticks (catalog st));
               Catalog.trace := Catalog.trace (catalog st) |};
          requests :=
            {| via := Catalog.Mysql; text := Schemata |}
            :: {| via := Catalog.Doris; text := Schemata |} :: requests st |})).
  { unfold get_all_target_databases. unfold bind at 1.
    rewrite (databases_on_miss st rows rows2 names names2) by assumption.
    unfold bind at 1. unfold lift at 1. cbn [contains_name]. rewrite Hin.
    reflexivity. }
  rewrite E1. cbn [fst snd]. split; [reflexivity|].
  set (st1 := {| catalog := _; requests := _ |}).
  assert (E2 : targets st1
    = (Exc.Return
         (VList
            (filter (fun db => not_excluded excluded_databases db = true)
               (remove_first self_db_name (listing names names2)))),
       {| catalog := Catalog.tick (catalog st1); requests := requests st1 |})).
  { unfold get_all_target_databases. unfold bind at 1.
    unfold get_all_databases. unfold bind at 1. unfold on_catalog at 1.
    rewrite (cache_lookup_fresh cache_ttl clock databases_key (catalog st1)
               (VList (remove_first self_db_name (listing names names2)))).
    - unfold ret at 1. unfold bind at 1. unfold lift at 1.
      cbn [contains_name]. rewrite Honce. reflexivity.
    - cbn. apply lookup_insert_eq.
    - cbn [st1 catalog Catalog.ticks Catalog.metadata_cache_time].
      rewrite lookup_insert_eq. exact Hfresh. }
  rewrite E2. cbn [fst snd]. split; [reflexivity|]. split; [reflexivity|].
  intros Hm. apply list_elem_of_filter in Hm as [_ Hm].
  exact (existsb_is_name _ _ Honce Hm).
Qed.


End DirectoryFacts.


(** ** Searching tables by name *)

Section FinderFacts.
Import Row Finder.

Variable self_db_name : string.
Variable cache_ttl : Z.
Variable table_hierarchy_patterns : list string.
Variable regex_match : string -> string -> bool.
Variable clock : nat -> Z.
Variable answer : nat -> Catalog.call -> Exc.t (list Catalog.row).
Variable re_compile : string -> option (string -> bool).
Variable get_all_tables_from_all_databases : Catalog.M (list (value * value)).

Local Abbreviation tables_of enable :=
  (Catalog.get_database_tables self_db_name cache_ttl enable
     table_hierarchy_patterns regex_match clock answer).

Local Abbreviation find enable :=
  (find_tables_by_pattern self_db_name cache_ttl enable table_hierarchy_patterns
     regex_match clock answer re_compile get_all_tables_from_all_databases).

Lemma Forall_map_all {A B : Type} (P : B -> Prop) (f : A -> B) (l : list A) :
  (forall a, P (f a)) -> Forall P (map f l).
Proof. intros H. induction l; cbn; constructor; auto. Qed.

(** With the flag on, a list read from the backend holds bare cells. *)
Lemma tables_under_hierarchy (db : option string) (st st' : Catalog.state)
    (l : list value) :
  Catalog.metadata_cache st
    !! Catalog.tables_key (Catalog.resolve_db self_db_name db) = None ->
  tables_of true db st = (Exc.Return (VList l), st') ->
  Forall (fun v => exists c, v = Catalog.cell_value c) l.
Proof.
  intros Hmiss. unfold Catalog.get_database_tables.
  destruct (String.eqb _ ""); [intros [= <- _]; constructor|].
  unfold Catalog.bind at 1. rewrite (cache_lookup_absent _ _ _ _ Hmiss).
  unfold Catalog.try_except, Catalog.routed, Catalog.perform.
  unfold Catalog.bind at 1.
  destruct (answer _ _) as [e|rows]; [intros [= <- _]; constructor|].
  unfold Catalog.bind at 1. unfold Catalog.lift at 1.
  destruct (Exc.map_m Catalog.table_record rows) as [e|records];
    [intros [= <- _]; constructor|].
  unfold Catalog.bind at 1.
  destruct records as [|record records]; [intros [= <- _]; constructor|].
  unfold Catalog.lift at 1. unfold Catalog.sort_table_names. cbn [negb orb].
  destruct table_hierarchy_patterns as [|p ps].
  - intros [= <- _]. constructor; [eauto | apply Forall_map_all; eauto].
  - destruct (Exc.map_m Catalog.as_str _) as [e|names];
      [intros [= <- _]; constructor|].
    intros [= <- _]. apply Forall_map_all. intros name.
    exists (Catalog.CStr name). reflexivity.
Qed.

Lemma subscript_cell (c : Catalog.cell) (k : string) :
  exists e, subscript (Catalog.cell_value c) k = Exc.Raise e.
Proof. destruct c; cbn; eauto. Qed.

(** With the hierarchy flag on, the table list holds bare names, and
    the search reads [table['table_name']] on them: whenever the list
    of the database, read from the backend, is not empty, the search
    raises, for every pattern that compiles. *)
Lemma search_fails_under_hierarchy (pattern : string) (regex : string -> bool)
    (c : ascii) (db : string) (st : Catalog.state)
    (table : value) (tables : list value) :
  re_compile pattern = Some regex ->
  Catalog.metadata_cache st !! Catalog.tables_key (String c db) = None ->
  fst (tables_of true (Some (String c db)) st) = Exc.Return (VList (table :: tables)) ->
  exists e, fst (find true pattern (Some (String c db)) st) = Exc.Raise e.
Proof.
  intros Hre Hmiss Htables. unfold find_tables_by_pattern. rewrite Hre.
  unfold Catalog.bind at 1.
  destruct (tables_of true (Some (String c db)) st) as [r st'] eqn:E.
  cbn [fst] in Htables. subst r.
  pose proof (tables_under_hierarchy (Some (String c db)) st st' _ Hmiss E) as Hcells.
  inversion Hcells as [|? ? [cell ->] _]; subst.
  unfold Catalog.bind at 1. unfold Catalog.lift at 1.
  unfold matches_in. cbn [Executor.iterate Exc.bind Exc.map_m].
  destruct (subscript_cell cell "table_name") as [e ->].
  exists e. reflexivity.
Qed.

(** The entries of a list read with the flag off. *)
Lemma matches_in_records (regex : string -> bool) (db : value)
    (records : list (Catalog.cell * Catalog.cell)) (names : list string) :
  map fst records = map Catalog.CStr names ->
  matches_in regex db (VList (map Catalog.record_value records))
  = Exc.Return
      (map (fun name => VTuple [db; VStr name])
         (filter (fun name => regex name = true) names)).
Proof.
  unfold matches_in. cbn [Executor.iterate Exc.bind].
  revert names. induction records as [|[n cm] records IH]; intros [|name names] H;
    try discriminate; [reflexivity|].
  cbn in H. injection H as -> H. specialize (IH names H).
  cbn [map Exc.map_m].
  assert (Hsub : subscript (Catalog.record_value (Catalog.CStr name, cm)) "table_name"
                 = Exc.Return (VStr name)) by reflexivity.
  rewrite Hsub. cbn [Exc.bind as_text].
  destruct (Exc.map_m _ (map Catalog.record_value records)) as [e|found];
    [discriminate|].
  cbn [Exc.bind] in IH |- *. injection IH as IH.
  rewrite filter_cons. destruct (decide (regex name = true)) as [Hm|Hm].
  - rewrite Hm. cbn. rewrite IH. reflexivity.
  - apply not_true_is_false in Hm. rewrite Hm. cbn. rewrite IH. reflexivity.
Qed.

Lemma table_records_named (rows : list Catalog.row) (names : list string) :
  Forall2
    (fun row name =>
       Catalog.assoc "TABLE_NAME" row = Some (Catalog.CStr name)
       /\ is_Some (Catalog.assoc "TABLE_COMMENT" row))
    rows names ->
  exists records,
    Exc.map_m Catalog.table_record rows = Exc.Return records
    /\ map fst records = map Catalog.CStr names.
Proof.
  induction 1 as [|row name rows names [Hn [cm Hc]] _ (records & E & Hf)].
  - exists []. split; reflexivity.
  - eexists (_ :: records). cbn. unfold Catalog.table_record at 1, Catalog.getitem.
    rewrite Hn, Hc. cbn. rewrite E. cbn. split; [reflexivity|].
    cbn. rewrite Hf. reflexivity.
Qed.

(** With the flag off, a search in a database that is not in the cache
    returns the pairs of the database and the tables whose names the
    pattern matches, in the order of the backend's rows. *)
Lemma search_without_hierarchy (pattern : string) (regex : string -> bool)
    (c : ascii) (db : string) (st : Catalog.state)
    (rows : list Catalog.row) (names : list string) :
  re_compile pattern = Some regex ->
  Catalog.metadata_cache st !! Catalog.tables_key (String c db) = None ->
  answer (List.length (Catalog.trace st))
    (Catalog.route Catalog.Mysql Catalog.Doris Catalog.TablesOf true (String c db))
  = Exc.Return rows ->
  Forall2
    (fun row name =>
       Catalog.assoc "TABLE_NAME" row = Some (Catalog.CStr name)
       /\ is_Some (Catalog.assoc "TABLE_COMMENT" row))
    rows names ->
  fst (find false pattern (Some (String c db)) st)
  = Exc.Return
      (VList
         (map (fun name => VTuple [VStr (String c db); VStr name])
            (filter (fun name => regex name = true) names))).
Proof.
  intros Hre Hmiss Hrows Hnames. unfold find_tables_by_pattern. rewrite Hre.
  destruct (table_records_named rows names Hnames) as (records & Hrecords & Hfst).
  assert (E : exists st',
            tables_of false (Some (String c db)) st
            = (Exc.Return (VList (map Catalog.record_value records)), st')).
  { unfold Catalog.get_database_tables. cbn [Catalog.resolve_db String.eqb].
    unfold Catalog.bind at 1. rewrite (cache_lookup_absent _ _ _ _ Hmiss).
    unfold Catalog.try_except, Catalog.routed, Catalog.perform.
    unfold Catalog.bind at 1. rewrite Hrows.
    unfold Catalog.bind at 1. unfold Catalog.lift. rewrite Hrecords.
    destruct records; eexists; reflexivity. }
  destruct E as [st' E]. unfold Catalog.bind at 1. rewrite E.
  unfold Catalog.bind at 1. unfold Catalog.lift at 1.
  rewrite (matches_in_records regex _ records names Hfst). reflexivity.
Qed.

End FinderFacts.



Lemma resolve_db_twice (self_db_name : string) (db : option string) :
  Catalog.resolve_db (Catalog.resolve_db self_db_name db) db
  = Catalog.resolve_db self_db_name db.
Proof. destruct db as [[|c s]|]; reflexivity. Qed.

(** ** The tools *)

Section ToolFacts.
Import Row Tools.

Variable DB_DATABASE : string.
Variable cache_ttl : Z.
Variable clock : nat -> Z.
Variable answer : nat -> Catalog.call -> Exc.t (list Catalog.row).
Variable isoformat : Z -> string.
Variable timestamp : string.
Variable is_zero : string -> bool.

Local Abbreviation schema_tool :=
  (mcp_doris_get_table_schema DB_DATABASE cache_ttl clock answer isoformat
     timestamp is_zero).

Local Abbreviation columns_call table db :=
  (Catalog.route Catalog.Mysql Catalog.Doris (fun s => Catalog.ColumnsOf s table)
     false (Catalog.resolve_db DB_DATABASE db)).

Lemma schema_of_new_extractor (table : string) (db : option string)
    (world : Catalog.state) :
  Catalog.resolve_db DB_DATABASE db <> "" ->
  exists st0,
    Catalog.get_table_schema (Catalog.resolve_db DB_DATABASE db) cache_ttl clock
      answer isoformat table db (new_extractor world)
    = Catalog.compute_table_schema (Catalog.resolve_db DB_DATABASE db) cache_ttl
        clock answer isoformat table (Catalog.resolve_db DB_DATABASE db) st0
    /\ Catalog.trace st0 = Catalog.trace world.
Proof.
  intros Hdb.
  destruct (schema_on_miss (Catalog.resolve_db DB_DATABASE db) cache_ttl clock answer
              isoformat table db (new_extractor world))
    as (st0 & E & Ht & _).
  - rewrite resolve_db_twice. exact Hdb.
  - left. apply lookup_empty.
  - exists st0. rewrite resolve_db_twice in E. split; [exact E | exact Ht].
Qed.

(** The schema tool answers a backend that fails like a table that
    has no columns, with the failure that names both causes.  The
    error itself is not reported. *)
Lemma schema_tool_hides_the_cause (table : string) (db : option string)
    (world : Catalog.state) :
  table <> "" ->
  Catalog.resolve_db DB_DATABASE db <> "" ->
  answer (List.length (Catalog.trace world)) (columns_call table db) = Exc.Return []
  \/ (exists e,
        answer (List.length (Catalog.trace world)) (columns_call table db)
        = Exc.Raise e) ->
  fst (schema_tool table db world)
  = Content
      (VDict
         [("success", VBool false);
          ("timestamp", VStr timestamp);
          ("error", VStr "Table not found or has no columns");
          ("message",
           VStr ("Could not get schema for table "
                 ++ Catalog.resolve_db DB_DATABASE db ++ "." ++ table))]).
Proof.
  intros Htable Hdb Hanswer. unfold mcp_doris_get_table_schema.
  destruct (String.eqb_spec table "") as [E|_]; [contradiction|].
  destruct (schema_of_new_extractor table db world Hdb) as (st0 & -> & Ht).
  rewrite <- Ht in Hanswer.
  rewrite (compute_without_columns _ _ _ _ _ _ _ _ Hanswer).
  cbn [truthy negb fst]. rewrite resolve_db_twice. reflexivity.
Qed.

(** Every call of the schema tool asks the backend for the columns:
    the extractor is made anew for the call, and its cache is empty. *)
Lemma schema_tool_always_asks (table : string) (db : option string)
    (world : Catalog.state) :
  table <> "" ->
  Catalog.resolve_db DB_DATABASE db <> "" ->
  exists later,
    Catalog.trace (snd (schema_tool table db world))
    = (later ++ columns_call table db :: Catalog.trace world)%list.
Proof.
  intros Htable Hdb. unfold mcp_doris_get_table_schema.
  destruct (String.eqb_spec table "") as [E|_]; [contradiction|].
  destruct (schema_of_new_extractor table db world Hdb) as (st0 & -> & Ht).
  destruct (answer (List.length (Catalog.trace st0)) (columns_call table db))
    as [e|[|r rows]] eqn:Ha.
  - rewrite compute_without_columns by eauto. exists []. cbn. rewrite Ht. reflexivity.
  - rewrite compute_without_columns by eauto. exists []. cbn. rewrite Ht. reflexivity.
  - destruct (compute_with_columns (Catalog.resolve_db DB_DATABASE db) cache_ttl clock
                answer isoformat table _ st0 r rows Ha)
      as (s & st' & later & -> & _ & _ & _ & Htr).
    exists later. destruct (negb (truthy is_zero s)); cbn [snd]; rewrite Htr, Ht;
      reflexivity.
Qed.

Local Abbreviation comment_tool :=
  (mcp_doris_get_table_comment DB_DATABASE cache_ttl clock answer timestamp).

(** For a table whose comment is NULL the comment tool reports success
    without a result and without a message: the payload holds the
    flag and the time only. *)
Lemma null_comment_gives_no_result (table : string) (db : option string)
    (world : Catalog.state) (first : Catalog.row) (rest : list Catalog.row) :
  table <> "" ->
  Catalog.resolve_db DB_DATABASE db <> "" ->
  answer (List.length (Catalog.trace world))
    (Catalog.route Catalog.Mysql Catalog.Doris
       (fun s => Catalog.TableCommentOf s table) false
       (Catalog.resolve_db DB_DATABASE db))
  = Exc.Return (first :: rest) ->
  Catalog.assoc "TABLE_COMMENT" first = Some Catalog.CNull ->
  fst (comment_tool table db world)
  = Content (VDict [("success", VBool true); ("timestamp", VStr timestamp)]).
Proof.
  intros Htable Hdb Hanswer Hnull. unfold mcp_doris_get_table_comment.
  destruct (String.eqb_spec table "") as [E|_]; [contradiction|].
  unfold Catalog.get_table_comment. rewrite resolve_db_twice.
  destruct (String.eqb_spec (Catalog.resolve_db DB_DATABASE db) "") as [E|_];
    [contradiction|].
  unfold Catalog.bind at 1. rewrite cache_lookup_absent by apply lookup_empty.
  unfold Catalog.try_except, Catalog.routed, Catalog.perform.
  unfold Catalog.bind at 1. cbn [new_extractor Catalog.trace]. rewrite Hanswer.
  destruct first as [|cell first']; [discriminate|].
  unfold Catalog.get. rewrite Hnull. reflexivity.
Qed.

End ToolFacts.

Section ListToolFacts.
Import Row Tools.

Variable DB_DATABASE : string.
Variable cache_ttl : Z.
Variable enable_table_hierarchy : bool.
Variable table_hierarchy_patterns : list string.
Variable regex_match : string -> string -> bool.
Variable clock : nat -> Z.
Variable answer : nat -> Catalog.call -> Exc.t (list Catalog.row).
Variable timestamp : string.

Local Abbreviation tables_of self :=
  (Catalog.get_database_tables self cache_ttl enable_table_hierarchy
     table_hierarchy_patterns regex_match clock answer).

(** On a miss the table list is a list, and the empty one when the
    backend fails. *)
Lemma tables_on_miss (self_db_name : string) (db : option string)
    (st : Catalog.state) :
  Catalog.metadata_cache st
    !! Catalog.tables_key (Catalog.resolve_db self_db_name db) = None ->
  exists l st',
    tables_of self_db_name db st = (Exc.Return (VList l), st')
    /\ ((exists e,
           answer (List.length (Catalog.trace st))
             (Catalog.route Catalog.Mysql Catalog.Doris Catalog.TablesOf true
                (Catalog.resolve_db self_db_name db)) = Exc.Raise e) ->
        l = []).
Proof.
  intros Hmiss. unfold Catalog.get_database_tables.
  destruct (String.eqb _ ""); [eexists _, _; split; [reflexivity|auto]|].
  unfold Catalog.bind at 1. rewrite (cache_lookup_absent _ _ _ _ Hmiss).
  unfold Catalog.try_except, Catalog.routed, Catalog.perform.
  unfold Catalog.bind at 1.
  destruct (answer _ _) as [e|rows] eqn:Ha.
  { eexists _, _. split; [reflexivity|auto]. }
  unfold Catalog.bind at 1. unfold Catalog.lift at 1.
  destruct (Exc.map_m Catalog.table_record rows) as [e|records].
  { eexists _, _. split; [reflexivity|]. intros [e' He']. discriminate. }
  unfold Catalog.bind at 1.
  destruct records as [|record records].
  { eexists _, _. split; [reflexivity|]. intros [e' He']. discriminate. }
  destruct enable_table_hierarchy.
  - unfold Catalog.lift at 1.
    destruct (Catalog.sort_table_names _ _ _ _) as [e|sorted];
      (eexists _, _; split; [reflexivity|]; intros [e' He']; discriminate).
  - eexists _, _. split; [reflexivity|]. intros [e' He']. discriminate.
Qed.

Local Abbreviation list_tool :=
  (mcp_doris_get_db_table_list DB_DATABASE cache_ttl enable_table_hierarchy
     table_hierarchy_patterns regex_match clock answer timestamp).

(** The table list tool reports success whatever happens: a backend
    that fails gives the empty list, as a database without tables
    does. *)
Lemma table_list_tool_reports_success (db : option string) (world : Catalog.state) :
  exists tables,
    fst (list_tool db world)
    = Content
        (VDict
           [("success", VBool true);
            ("timestamp", VStr timestamp);
            ("result", VList tables);
            ("message", VStr "Operation successful")])
    /\ ((exists e,
           answer (List.length (Catalog.trace world))
             (Catalog.route Catalog.Mysql Catalog.Doris Catalog.TablesOf true
                (Catalog.resolve_db DB_DATABASE db)) = Exc.Raise e) ->
        tables = []).
Proof.
  unfold mcp_doris_get_db_table_list.
  destruct (tables_on_miss (Catalog.resolve_db DB_DATABASE db) db (new_extractor world))
    as (l & st' & -> & Hfail); [apply lookup_empty|].
  exists l. split; [reflexivity|]. rewrite resolve_db_twice in Hfail. exact Hfail.
Qed.

End ListToolFacts.

(** ** The pattern list, by statement type *)

Section CensusFacts.
Import Row Catalog Census.

Variable clock : nat -> Z.
Variable answer : nat -> call -> Exc.t (list row).
Variable strftime_date : Z -> string.
Variable _get_sql_type : cell -> Exc.t (option string).
Variable _are_sqls_similar : string -> string -> Exc.t bool.
Variable _simplify_sql : string -> string.
Variable _extract_tables_from_sql : string -> list string.
Variable extract_sql_comments : string -> string.

Local Abbreviation mine_one :=
  (mine_row _get_sql_type _are_sqls_similar _simplify_sql
     _extract_tables_from_sql extract_sql_comments).

Local Abbreviation mine :=
  (mine_rows _get_sql_type _are_sqls_similar _simplify_sql
     _extract_tables_from_sql extract_sql_comments).

Local Abbreviation extract :=
  (extract_common_sql_patterns clock answer strftime_date _get_sql_type
     _are_sqls_similar _simplify_sql _extract_tables_from_sql extract_sql_comments).

Lemma patterns_of_none (ty : string) (by_type : list (string * list sql_pattern)) :
  patterns_of ty by_type = None -> ty ∉ map fst by_type.
Proof.
  induction by_type as [|[t ps] by_type IH]; cbn; intros H Hin.
  - inversion Hin.
  - destruct (String.eqb_spec t ty) as [E|E]; [discriminate|].
    apply elem_of_cons in Hin as [Hin|Hin]; [congruence|]. exact (IH H Hin).
Qed.

Lemma set_patterns_keys (ty : string) (ps : list sql_pattern)
    (by_type : list (string * list sql_pattern)) :
  NoDup (map fst by_type) -> NoDup (map fst (set_patterns ty ps by_type)).
Proof.
  intros Hnd. unfold set_patterns.
  destruct (patterns_of ty by_type) as [known|] eqn:Hk.
  - assert (E : map fst (map (fun e : string * list sql_pattern =>
                                if String.eqb (fst e) ty then (ty, ps) else e) by_type)
                = map fst by_type).
    { clear. induction by_type as [|[t qs] by_type IH]; [reflexivity|].
      cbn. rewrite IH. destruct (String.eqb_spec t ty) as [->|_]; reflexivity. }
    rewrite E. exact Hnd.
  - rewrite map_app. cbn. apply NoDup_app. split; [exact Hnd|]. split.
    + intros x Hx Hx'. apply list_elem_of_singleton in Hx'. subst x.
      exact (patterns_of_none _ _ Hk Hx).
    + apply NoDup_singleton.
Qed.

Lemma mine_row_keys (by_type by_type' : list (string * list sql_pattern)) (r : row) :
  mine_one by_type r = Exc.Return by_type' ->
  NoDup (map fst by_type) -> NoDup (map fst by_type').
Proof.
  unfold mine_row. destruct (getitem r "stmt") as [e|sql]; [discriminate|].
  cbn [Exc.bind]. destruct (negb (truthy sql)); [intros [= <-]; auto|].
  destruct (_get_sql_type sql) as [e|[[|c ty]|]]; cbn [Exc.bind];
    try discriminate; try (intros [= <-]; auto).
  destruct (as_str sql) as [e|text]; [discriminate|]. cbn [Exc.bind].
  destruct (update_similar _ _ _ _ _) as [e|updated]; [discriminate|].
  cbn [Exc.bind]. intros [= <-] Hnd. apply set_patterns_keys. exact Hnd.
Qed.

Lemma mine_rows_keys (rows : list row) (by_type by_type' : list (string * list sql_pattern)) :
  mine by_type rows = Exc.Return by_type' ->
  NoDup (map fst by_type) -> NoDup (map fst by_type').
Proof.
  revert by_type. induction rows as [|r rows IH]; intros by_type H Hnd.
  - injection H as <-. exact Hnd.
  - cbn in H. destruct (mine_one by_type r) as [e|by_type1] eqn:H1; [discriminate|].
    cbn in H. exact (IH _ H (mine_row_keys _ _ _ H1 Hnd)).
Qed.

Lemma insert_by_count_sorted (p : sql_pattern) (l : list sql_pattern) :
  StronglySorted at_least l -> StronglySorted at_least (insert_by_count p l).
Proof.
  intros Hs. induction Hs as [|q l Hs IH Hq]; cbn.
  - repeat constructor.
  - destruct (count q <? count p) eqn:Hlt.
    + apply Z.ltb_lt in Hlt. constructor; [constructor; assumption|].
      constructor; [unfold at_least; lia|].
      eapply Forall_impl; [exact Hq|]. unfold at_least. intros r Hr. cbn beta in *. lia.
    + apply Z.ltb_ge in Hlt. constructor; [exact IH|].
      assert (Hin : forall r, r ∈ insert_by_count p l -> r = p \/ r ∈ l).
      { clear. induction l as [|q l IH]; cbn; intros r Hr.
        - apply list_elem_of_singleton in Hr. auto.
        - destruct (count q <? count p).
          + apply elem_of_cons in Hr as [->|Hr]; auto.
          + apply elem_of_cons in Hr as [->|Hr]; [right; left|].
            destruct (IH r Hr) as [->|Hl]; [auto | right; right; exact Hl]. }
      apply Forall_forall. intros r Hr. destruct (Hin r Hr) as [->|Hl].
      * exact Hlt.
      * rewrite Forall_forall in Hq. exact (Hq r Hl).
Qed.

Lemma sorted_by_count_sorted (l : list sql_pattern) :
  StronglySorted at_least (sorted_by_count l).
Proof.
  unfold sorted_by_count.
  assert (H : forall acc, StronglySorted at_least acc ->
            StronglySorted at_least (fold_left (fun acc p => insert_by_count p acc) l acc)).
  { induction l as [|p l IH]; intros acc Hacc; cbn; [exact Hacc|].
    apply IH, insert_by_count_sorted, Hacc. }
  apply H. constructor.
Qed.

Lemma take_sorted {A : Type} (R : A -> A -> Prop) (n : nat) (l : list A) :
  StronglySorted R l -> StronglySorted R (take n l).
Proof.
  intros Hs. revert n. induction Hs as [|a l Hs IH Ha]; intros [|n]; cbn;
    try constructor.
  - apply IH.
  - apply Forall_take. exact Ha.
Qed.

Lemma has_type_value (ty t : string) (p : sql_pattern) :
  has_type ty (pattern_value t p) = String.eqb t ty.
Proof. reflexivity. Qed.

Lemma of_type_same (ty : string) (l : list sql_pattern) :
  of_type ty (map (pattern_value ty) l) = map (pattern_value ty) l.
Proof.
  unfold of_type. induction l as [|p l IH]; [reflexivity|].
  cbn [map List.filter]. rewrite has_type_value, String.eqb_refl, IH. reflexivity.
Qed.

Lemma of_type_other (ty t : string) (l : list sql_pattern) :
  t <> ty -> of_type ty (map (pattern_value t) l) = [].
Proof.
  intros Hne. unfold of_type. induction l as [|p l IH]; [reflexivity|].
  cbn [map List.filter]. rewrite has_type_value.
  apply String.eqb_neq in Hne. rewrite Hne. exact IH.
Qed.

Lemma of_type_result (ty : string) (by_type : list (string * list sql_pattern)) :
  NoDup (map fst by_type) ->
  exists l,
    of_type ty (result_patterns by_type) = map (pattern_value ty) l
    /\ (List.length l <= 3)%nat
    /\ StronglySorted at_least l.
Proof.
  intros Hnd. induction by_type as [|[t ps] by_type IH].
  - exists []. repeat split; [cbn; lia | constructor].
  - cbn in Hnd. apply NoDup_cons in Hnd as [Hnot Hnd].
    unfold result_patterns, of_type. cbn [flat_map fst snd].
    rewrite List.filter_app. fold (of_type ty (map (pattern_value t) (take 3 (sorted_by_count ps)))).
    fold (result_patterns by_type). fold (of_type ty (result_patterns by_type)).
    destruct (String.eqb_spec t ty) as [->|Hne].
    + exists (take 3 (sorted_by_count ps)). rewrite of_type_same.
      assert (E : of_type ty (result_patterns by_type) = []).
      { clear IH Hnd. induction by_type as [|[t' ps'] by_type IH]; [reflexivity|].
        unfold result_patterns, of_type. cbn [flat_map fst snd].
        rewrite List.filter_app.
        fold (of_type ty (map (pattern_value t') (take 3 (sorted_by_count ps')))).
        fold (result_patterns by_type). fold (of_type ty (result_patterns by_type)).
        cbn in Hnot. rewrite of_type_other.
        - apply IH. intros Hin. apply Hnot. right. exact Hin.
        - intros ->. apply Hnot. left. }
      rewrite E, app_nil_r. split; [reflexivity|]. split.
      * rewrite length_take. lia.
      * apply take_sorted, sorted_by_count_sorted.
    + rewrite (of_type_other ty t _ Hne). cbn [app]. exact (IH Hnd).
Qed.

Lemma Forall_map_intro {A B : Type} (P : B -> Prop) (f : A -> B) (l : list A) :
  Forall (fun a => P (f a)) l -> Forall P (map f l).
Proof. induction 1; cbn; constructor; auto. Qed.

Lemma frequencies_fall (ty : string) (l : list sql_pattern) :
  StronglySorted at_least l ->
  StronglySorted Z.ge (map frequency (map (pattern_value ty) l)).
Proof.
  induction 1 as [|p l Hs IH Hp]; cbn [map]; constructor; [exact IH|].
  apply Forall_map_intro. apply Forall_map_intro.
  eapply Forall_impl; [exact Hp|]. intros q Hq. unfold at_least in Hq.
  change (frequency (pattern_value ty p)) with (count p).
  change (frequency (pattern_value ty q)) with (count q). lia.
Qed.

(** The list of patterns is never empty, holds at most three records
    of a statement type, and holds them by falling frequency. *)
Lemma mined_patterns_are_ranked (limit : Z) (st : state) :
  exists records,
    fst (extract limit st) = Exc.Return (VList records)
    /\ records <> []
    /\ forall ty,
         (List.length (of_type ty records) <= 3)%nat
         /\ StronglySorted Z.ge (map frequency (of_type ty records)).
Proof.
  assert (Hdefault : forall ty records,
            VList records = default_patterns \/ VList records = default_patterns_short ->
            (List.length (of_type ty records) <= 3)%nat
            /\ StronglySorted Z.ge (map frequency (of_type ty records))).
  { intros ty records [[= ->] | [= ->]]; unfold of_type; cbn [List.filter];
      unfold has_type;
      repeat match goal with
      | |- context [dict_get "type" (VDict ?items)] =>
          change (dict_get "type" (VDict items)) with (Some (VStr "SELECT"))
      end; cbv iota beta;
      destruct (String.eqb "SELECT" ty); cbn; (split; [lia|]);
      repeat constructor; lia. }
  unfold extract_common_sql_patterns, try_except, extract_body.
  unfold bind at 1.
  destruct (get_recent_audit_logs clock answer strftime_date 30 limit st)
    as [[e|audit_logs] st1].
  { eexists. split; [reflexivity|]. split; [discriminate|]. intros ty.
    apply Hdefault. left. reflexivity. }
  destruct audit_logs as [|r rows].
  { eexists. split; [reflexivity|]. split; [discriminate|]. intros ty.
    apply Hdefault. right. reflexivity. }
  unfold bind at 1. unfold lift at 1.
  destruct (mine [] (r :: rows)) as [e|by_type] eqn:Hmine.
  { eexists. split; [reflexivity|]. split; [discriminate|]. intros ty.
    apply Hdefault. left. reflexivity. }
  destruct (result_patterns by_type) as [|record found] eqn:Hfound.
  { eexists. split; [reflexivity|]. split; [discriminate|]. intros ty.
    apply Hdefault. left. reflexivity. }
  exists (record :: found). split; [reflexivity|]. split; [discriminate|].
  intros ty. rewrite <- Hfound.
  destruct (of_type_result ty by_type) as (l & -> & Hlen & Hs).
  { apply (mine_rows_keys _ _ _ Hmine). constructor. }
  split; [rewrite length_map; exact Hlen | apply frequencies_fall, Hs].
Qed.

End CensusFacts.

(** ** Backend errors in the query pipeline *)

Section ReportFacts.
Import Row.

Variable enabled : bool.
Variable DB_DATABASE : string.
Variable execution_time : value.
Variable py_str : value -> string.

Local Abbreviation pipeline execute_query :=
  (Executor.execute_sql_query enabled DB_DATABASE execute_query execution_time py_str).

Lemma error_details_plain (m : string) :
  serialize_value (Executor.error_details m) = Executor.error_details m
  /\ not_serializable (Executor.error_details m) = None.
Proof.
  unfold Executor.error_details.
  destruct (Py.contains "timeout" _); [split; reflexivity|].
  destruct (Py.contains "syntax" _); [split; reflexivity|].
  destruct (_ || _); split; reflexivity.
Qed.

(** A backend error is reported with its message, its classification,
    the statement as it was sent and the database. *)
Lemma backend_error_is_reported
    (execute_query : string -> string -> Exc.t value)
    (sql : string) (db : option string) (max_rows : option Z) (v : Guard.verdict)
    (e : string) :
  sql <> EmptyString ->
  Guard._check_sql_security enabled sql = Some v ->
  Guard.is_safe v = true ->
  execute_query (Executor.add_limit sql (default 1000 max_rows))
    (default DB_DATABASE db) = Exc.Raise e ->
  pipeline execute_query
    {| Executor.sql := Some sql; Executor.db_name := db;
       Executor.max_rows := max_rows |}
  = Executor.TextContent
      (VDict
         [("success", VBool false);
          ("error", VStr e);
          ("error_details", Executor.error_details e);
          ("sql", VStr (Executor.add_limit sql (default 1000 max_rows)));
          ("db_name", VStr (default DB_DATABASE db))]).
Proof.
  intros Hne Hguard Hsafe Hfail.
  unfold Executor.execute_sql_query, Executor.execute_body.
  cbn [Executor.sql Executor.db_name Executor.max_rows].
  destruct sql as [|c sql']; [congruence|].
  rewrite Hguard, Hsafe. cbn [negb]. rewrite Hfail. cbn [Exc.bind].
  unfold Executor.db_error. cbn [_serialize_row_data Exc.bind].
  destruct (error_details_plain e) as [Hs Hn].
  rewrite serialize_dict. cbn [map fst snd]. rewrite Hs. cbn [serialize_value].
  unfold json_dumps. cbn [not_serializable]. rewrite Hn. reflexivity.
Qed.

End ReportFacts.

(** ** The further properties at work *)

Lemma rows_give_success_witness :
  Executor.execute_sql_query true "demo"
    (fun _ _ => Exc.Return (Row.VList [Row.VDict [("id", Row.VInt 1)]]))
    (Row.VFloat "0.01") (fun _ => "")
    {| Executor.sql := Some "SELECT id FROM t"; Executor.db_name := Some "sales";
       Executor.max_rows := Some 50 |}
  = Executor.TextContent
      (Row.VDict
         [("success", Row.VBool true);
          ("sql", Row.VStr (Executor.add_limit "SELECT id FROM t" (default 1000 (Some 50))));
          ("row_count", Row.VInt (Z.of_nat (S (List.length (@nil Row.value)))));
          ("columns",
           Row.VList (map Row.VStr (Executor.columns_of (Row.VDict [("id", Row.VInt 1)]))));
          ("data",
           Row.VList
             (Executor.slice_to (default 1000 (Some 50))
                (map Row.serialize_value [Row.VDict [("id", Row.VInt 1)]])));
          ("execution_time", Row.VFloat "0.01");
          ("truncated",
           Row.VBool (default 1000 (Some 50) <? Z.of_nat (S (List.length (@nil Row.value)))))]).
Proof.
  apply (rows_give_success true "demo" (Row.VFloat "0.01") (fun _ => "")
           (fun _ _ => Exc.Return (Row.VList [Row.VDict [("id", Row.VInt 1)]]))
           "SELECT id FROM t" (Some "sales") (Some 50)
           {| Guard.is_safe := true; Guard.security_issues := [] |}
           (Row.VDict [("id", Row.VInt 1)]) []);
    [discriminate | reflexivity | reflexivity | reflexivity | | reflexivity].
  constructor; [|constructor]. exists [("id", Row.VInt 1)]. split; reflexivity.
Defined.

Lemma tuple_rows_give_failure_witness :
  Executor.execute_sql_query true "demo"
    (fun _ _ => Exc.Return (Row.VList [Row.VTuple [Row.VInt 1]]))
    (Row.VFloat "0.01") (fun _ => "")
    {| Executor.sql := Some "SELECT id FROM t"; Executor.db_name := Some "sales";
       Executor.max_rows := Some 50 |}
  = Executor.TextContent
      (Row.VDict
         [("success", Row.VBool false);
          ("error", Row.VStr "'tuple' object has no attribute 'items'");
          ("error_details",
           Row.VDict
             [("type", Row.VStr "unknown");
              ("suggestion",
               Row.VStr "Please check the SQL statement and try simplifying the query")]);
          ("sql", Row.VStr (Executor.add_limit "SELECT id FROM t" (default 1000 (Some 50))));
          ("db_name", Row.VStr (default "demo" (Some "sales")))]).
Proof.
  apply (tuple_rows_give_failure true "demo" (Row.VFloat "0.01") (fun _ => "")
           (fun _ _ => Exc.Return (Row.VList [Row.VTuple [Row.VInt 1]]))
           "SELECT id FROM t" (Some "sales") (Some 50)
           {| Guard.is_safe := true; Guard.security_issues := [] |}
           [Row.VInt 1] []);
    [discriminate | reflexivity | reflexivity | reflexivity].
Defined.

Lemma backend_error_is_reported_witness :
  Executor.execute_sql_query true "demo"
    (fun _ _ => Exc.Raise "Table 'sales.t' doesn't exist")
    (Row.VFloat "0.01") (fun _ => "")
    {| Executor.sql := Some "SELECT id FROM t"; Executor.db_name := Some "sales";
       Executor.max_rows := Some 50 |}
  = Executor.TextContent
      (Row.VDict
         [("success", Row.VBool false);
          ("error", Row.VStr "Table 'sales.t' doesn't exist");
          ("error_details", Executor.error_details "Table 'sales.t' doesn't exist");
          ("sql", Row.VStr (Executor.add_limit "SELECT id FROM t" (default 1000 (Some 50))));
          ("db_name", Row.VStr (default "demo" (Some "sales")))]).
Proof.
  apply (backend_error_is_reported true "demo" (Row.VFloat "0.01") (fun _ => "")
           (fun _ _ => Exc.Raise "Table 'sales.t' doesn't exist")
           "SELECT id FROM t" (Some "sales") (Some 50)
           {| Guard.is_safe := true; Guard.security_issues := [] |});
    [discriminate | reflexivity | reflexivity | reflexivity].
Defined.


Lemma hierarchy_sort_is_the_layered_listing_witness :
  Catalog._sort_tables_by_hierarchy true ["ads_"; "dim_"] Py.startswith
    ["dim_b"; "x"; "ads_a"; "dim_a"]
  = ["ads_a"; "dim_a"; "dim_b"; "x"].
Proof.
  apply (hierarchy_sort_is_the_layered_listing Py.startswith "ads_" ["dim_"]
           ["dim_b"; "x"; "ads_a"; "dim_a"] ["ads_a"; "dim_a"; "dim_b"; "x"]).
  - apply (bool_decide_unpack (NoDup ["ads_a"; "dim_a"; "dim_b"; "x"])).
    vm_compute. exact I.
  - intros x. rewrite !elem_of_cons, !elem_of_nil. tauto.
  - repeat (constructor;
            [|repeat (constructor;
                      [first [left; cbn; lia | right; split; reflexivity]|]);
              constructor]).
    constructor.
Defined.

Lemma index_grouping_witness :
  exists groups,
    Session.group_indexes Sample.index_frame = Exc.Return groups
    /\ flat_map Runs.labelled groups = map Runs.label Sample.index_frame
    /\ Runs.separated groups
    /\ Forall (fun g => Session.columns g <> []) groups.
Proof.
  apply (index_grouping Sample.index_frame).
  repeat constructor; intros k Hk;
    repeat (apply elem_of_cons in Hk as [->|Hk]; [eexists; reflexivity|]);
    inversion Hk.
Defined.

Lemma indexes_of_a_table_witness :
  (forall df,
     Sample.reply (List.length (Session.requests Sample.session))
       (Runs.index_request (Catalog.resolve_db "main" (Some "sales")) "t")
     = Exc.Return df ->
     Forall Runs.complete df ->
     exists groups,
       Session.group_indexes df = Exc.Return groups
       /\ fst (Session.get_table_indexes "main" 3600 Demo.clock Sample.reply
                 "t" (Some "sales") Sample.session)
          = Exc.Return (Row.VList (map Session.index_value groups))
       /\ Catalog.metadata_cache
            (Session.catalog
               (snd (Session.get_table_indexes "main" 3600 Demo.clock Sample.reply
                       "t" (Some "sales") Sample.session)))
            !! Session.indexes_key (Catalog.resolve_db "main" (Some "sales")) "t"
          = Some (Row.VList (map Session.index_value groups)))
  /\ ((exists e,
         Sample.reply (List.length (Session.requests Sample.session))
           (Runs.index_request (Catalog.resolve_db "main" (Some "sales")) "t")
         = Exc.Raise e)
      \/ (exists row df k,
            Sample.reply (List.length (Session.requests Sample.session))
              (Runs.index_request (Catalog.resolve_db "main" (Some "sales")) "t")
            = Exc.Return (row :: df)
            /\ k ∈ ["Key_name"; "Column_name"; "Non_unique"; "Index_type"]
            /\ Catalog.assoc k row = None) ->
      fst (Session.get_table_indexes "main" 3600 Demo.clock Sample.reply
             "t" (Some "sales") Sample.session)
      = Exc.Return (Row.VList [])
      /\ Catalog.metadata_cache
           (Session.catalog
              (snd (Session.get_table_indexes "main" 3600 Demo.clock Sample.reply
                      "t" (Some "sales") Sample.session)))
         = Catalog.metadata_cache (Session.catalog Sample.session)).
Proof.
  apply (indexes_of_a_table "main" 3600 Demo.clock Sample.reply "t" (Some "sales")
           Sample.session); [discriminate | reflexivity].
Defined.

Lemma databases_listing_witness :
  fst (Session.get_all_databases 3600 Demo.clock Sample.reply Sample.session)
  = Exc.Return
      (Row.VList
         (Runs.listing [Catalog.CStr "announce"; Catalog.CStr "base"] ["base"]), true)
  /\ Catalog.metadata_cache
       (Session.catalog
          (snd (Session.get_all_databases 3600 Demo.clock Sample.reply Sample.session)))
       !! Session.databases_key
     = Some
         (Row.VList
            (Runs.listing [Catalog.CStr "announce"; Catalog.CStr "base"] ["base"]))
  /\ forall s mysql doris q with_db,
       s ∈ ["base"] ->
       Row.VStr (Catalog.catalog_prefix ++ s)
       ∈ Runs.listing [Catalog.CStr "announce"; Catalog.CStr "base"] ["base"]
       /\ Catalog.route mysql doris q with_db (Catalog.catalog_prefix ++ s)
          = {| Catalog.target := mysql; Catalog.statement := q s;
               Catalog.database := if with_db then Some s else None |}.
Proof.
  apply (databases_listing 3600 Demo.clock Sample.reply Sample.session
           [[("SCHEMA_NAME", Catalog.CStr "announce")];
            [("SCHEMA_NAME", Catalog.CStr "base")]]
           [[("SCHEMA_NAME", Catalog.CStr "base")]]);
    [reflexivity | reflexivity | reflexivity | | ];
    repeat constructor.
Defined.

Lemma one_failure_hides_every_database_witness :
  fst (Session.get_all_databases 3600 Demo.clock Sample.mysql_down Sample.session)
  = Exc.Return (Row.VList [], false)
  /\ Catalog.metadata_cache
       (Session.catalog
          (snd (Session.get_all_databases 3600 Demo.clock Sample.mysql_down
                  Sample.session)))
     = Catalog.metadata_cache (Session.catalog Sample.session)
  /\ Catalog.metadata_cache_time
       (Session.catalog
          (snd (Session.get_all_databases 3600 Demo.clock Sample.mysql_down
                  Sample.session)))
     = Catalog.metadata_cache_time (Session.catalog Sample.session).
Proof.
  apply (one_failure_hides_every_database 3600 Demo.clock Sample.mysql_down
           Sample.session); [reflexivity|].
  right. exists "Can't connect to MySQL server". reflexivity.
Defined.

Lemma current_database_is_forgotten_witness :
  fst (Session.get_all_target_databases "base" 3600 true [] ["information_schema"]
         Demo.clock Sample.reply Sample.session)
  = Exc.Return
      (Row.VList
         (filter (fun db => Session.not_excluded ["information_schema"] db = true)
            (Row.VStr "base"
             :: Session.remove_first "base"
                  (Runs.listing [Catalog.CStr "announce"; Catalog.CStr "base"]
                     ["base"]))))
  /\ fst (Session.get_all_target_databases "base" 3600 true []
            ["information_schema"] Demo.clock Sample.reply
            (snd (Session.get_all_target_databases "base" 3600 true []
                    ["information_schema"] Demo.clock Sample.reply Sample.session)))
     = Exc.Return
         (Row.VList
            (filter (fun db => Session.not_excluded ["information_schema"] db = true)
               (Session.remove_first "base"
                  (Runs.listing [Catalog.CStr "announce"; Catalog.CStr "base"]
                     ["base"]))))
  /\ Session.requests
       (snd (Session.get_all_target_databases "base" 3600 true []
               ["information_schema"] Demo.clock Sample.reply
               (snd (Session.get_all_target_databases "base" 3600 true []
                       ["information_schema"] Demo.clock Sample.reply
                       Sample.session))))
     = Session.requests
         (snd (Session.get_all_target_databases "base" 3600 true []
                 ["information_schema"] Demo.clock Sample.reply Sample.session))
  /\ Row.VStr "base"
     ∉ filter (fun db => Session.not_excluded ["information_schema"] db = true)
         (Session.remove_first "base"
            (Runs.listing [Catalog.CStr "announce"; Catalog.CStr "base"] ["base"])).
Proof.
  apply (current_database_is_forgotten "base" 3600 ["information_schema"]
           Demo.clock Sample.reply Sample.session
           [[("SCHEMA_NAME", Catalog.CStr "announce")];
            [("SCHEMA_NAME", Catalog.CStr "base")]]
           [[("SCHEMA_NAME", Catalog.CStr "base")]]);
    [reflexivity | reflexivity | reflexivity | repeat constructor
     | repeat constructor | reflexivity | reflexivity | reflexivity].
Defined.


Lemma schema_tool_hides_the_cause_witness :
  fst (Tools.mcp_doris_get_table_schema "demo" 3600 Demo.clock Sample.down
         Demo.isoformat "2024-01-01 00:00:00" (fun _ => false)
         "t" (Some "sales") Catalog.initial)
  = Tools.Content
      (Row.VDict
         [("success", Row.VBool false);
          ("timestamp", Row.VStr "2024-01-01 00:00:00");
          ("error", Row.VStr "Table not found or has no columns");
          ("message",
           Row.VStr ("Could not get schema for table "
                     ++ Catalog.resolve_db "demo" (Some "sales") ++ "." ++ "t"))]).
Proof.
  apply (schema_tool_hides_the_cause "demo" 3600 Demo.clock Sample.down
           Demo.isoformat "2024-01-01 00:00:00" (fun _ => false)
           "t" (Some "sales") Catalog.initial); [discriminate | discriminate |].
  right. exists "Lost connection to server during query". reflexivity.
Defined.

Lemma schema_tool_always_asks_witness :
  exists later,
    Catalog.trace
      (snd (Tools.mcp_doris_get_table_schema "demo" 3600 Demo.clock Demo.answer
              Demo.isoformat "2024-01-01 00:00:00" (fun _ => false)
              "t" (Some "sales") Catalog.initial))
    = (later
       ++ Catalog.route Catalog.Mysql Catalog.Doris
            (fun s => Catalog.ColumnsOf s "t") false
            (Catalog.resolve_db "demo" (Some "sales"))
          :: Catalog.trace Catalog.initial)%list.
Proof.
  apply (schema_tool_always_asks "demo" 3600 Demo.clock Demo.answer
           Demo.isoformat "2024-01-01 00:00:00" (fun _ => false)
           "t" (Some "sales") Catalog.initial); discriminate.
Defined.

Lemma null_comment_gives_no_result_witness :
  fst (Tools.mcp_doris_get_table_comment "demo" 3600 Demo.clock Sample.uncommented
         "2024-01-01 00:00:00" "t" (Some "sales") Catalog.initial)
  = Tools.Content
      (Row.VDict
         [("success", Row.VBool true);
          ("timestamp", Row.VStr "2024-01-01 00:00:00")]).
Proof.
  apply (null_comment_gives_no_result "demo" 3600 Demo.clock Sample.uncommented
           "2024-01-01 00:00:00" "t" (Some "sales") Catalog.initial
           [("TABLE_COMMENT", Catalog.CNull)] []);
    [discriminate | discriminate | reflexivity | reflexivity].
Defined.

Lemma search_fails_under_hierarchy_witness :
  exists e,
    fst (Finder.find_tables_by_pattern "main" 3600 true ["^.*$"] (fun _ _ => true)
           Demo.clock Demo.answer (fun _ => Some (fun _ => true)) (Catalog.ret [])
           "^t" (Some "sales") Catalog.initial)
    = Exc.Raise e.
Proof.
  apply (search_fails_under_hierarchy "main" 3600 ["^.*$"] (fun _ _ => true)
           Demo.clock Demo.answer (fun _ => Some (fun _ => true)) (Catalog.ret [])
           "^t" (fun _ => true) "s"%char "ales" Catalog.initial (Row.VStr "t") []);
    reflexivity.
Defined.

Lemma search_without_hierarchy_witness :
  fst (Finder.find_tables_by_pattern "main" 3600 false ["^.*$"] (fun _ _ => true)
         Demo.clock Demo.answer (fun _ => Some (Py.startswith "t")) (Catalog.ret [])
         "^t" (Some "sales") Catalog.initial)
  = Exc.Return
      (Row.VList
         (map (fun name => Row.VTuple [Row.VStr "sales"; Row.VStr name])
            (filter (fun name => Py.startswith "t" name = true) ["t"]))).
Proof.
  apply (search_without_hierarchy "main" 3600 ["^.*$"] (fun _ _ => true)
           Demo.clock Demo.answer (fun _ => Some (Py.startswith "t")) (Catalog.ret [])
           "^t" (Py.startswith "t") "s"%char "ales" Catalog.initial
           [[("TABLE_NAME", Catalog.CStr "t"); ("TABLE_COMMENT", Catalog.CNull)]]
           ["t"]);
    [reflexivity | reflexivity | reflexivity |].
  constructor; [|constructor]. split; [reflexivity | eexists; reflexivity].
Defined.
